(** * Deal-lifecycle simulation: shallow embedding and verified properties

    This development embeds the deal-lifecycle engine of the two sales-data
    generators:

    - [case_study_synthetic_sales_data_generator.py]
      (class [GlobalSalesDataGenerator]): trend functions, configuration
      resolver, outcome simulator, timeline builder and deal assembler;
    - [salesforce_mimic_opp_creation.py]
      (class [SalesforceDataGenerator]): discrete events (module
      [Salesforce] below).

    Modelling conventions.

    - Python floats are exact rationals ([Q]); a float literal such as
      [0.80] is the rational [80/100].  The theorems below quantify over
      every random draw and never depend on how a product is rounded.
    - [int(x)] on a float truncates toward zero: [py_int].
    - Exceptions are an error type [exn]; code that draws random numbers
      runs in a state-and-error monad [M] over the two generators the source
      uses (the [random] module and [numpy.random]).
    - Every datetime the source builds is at midnight.  The trend and
      event functions read calendar fields and compare datetimes, so they
      take a [datetime] record ([year], [month], [day]).  The timeline
      code only does day arithmetic ([(a - b).days],
      [a + timedelta(days=n)], [max], [<=]), so there a date is its
      proleptic Gregorian ordinal ([toordinal]); a formatted date string
      ([strftime] then [strptime], an identity on midnight dates) is
      represented by that ordinal too.
    - A Python [dict] with a fixed family of keys is a partial function on
      the key type; [None] values are kept apart from absent keys.
    - Rationals and ordinals are unbounded, where Python raises
      [OverflowError] on a float power past the largest double and on a
      date past [datetime.max].  Statements that assert a result for
      inputs that can reach such values bound the dates accordingly. *)

From Stdlib Require Import ZArith QArith List Lia Bool String.
From Stdlib Require Import Qpower Lqa.
Import ListNotations.
Open Scope Z_scope.

(** ** Python numerics *)

(** [int(x)] for a float [x]: truncation toward zero. *)
Definition py_int (q : Q) : Z := Z.quot (Qnum q) (Zpos (Qden q)).

Definition Qltb (a b : Q) : bool := negb (Qle_bool b a).

(** [min(a, b)] and [max(a, b)] return the first argument unless the second
    is strictly smaller (resp. larger). *)
Definition py_min (a b : Q) : Q := if Qltb b a then b else a.
Definition py_max (a b : Q) : Q := if Qltb a b then b else a.

(** ** Exceptions and random sources *)

Inductive exn : Set := KeyError | IndexError | ValueError | ZeroDivisionError.

(** The state of the two generators.  Each is an arbitrary tape of raw
    draws and a read position: [random] yields raw integers, from which
    [random.random], [random.randint] and [random.choice] derive their
    result; [numpy.random] yields standard normal deviates. *)
Record rng_state : Type := {
  py_tape : nat -> Z;
  py_pos : nat;
  np_tape : nat -> Q;
  np_pos : nat
}.

Definition M (A : Type) : Type := rng_state -> exn + (A * rng_state).

Definition ret {A : Type} (a : A) : M A := fun st => inr (a, st).

Definition bind {A B : Type} (m : M A) (k : A -> M B) : M B :=
  fun st => match m st with
            | inl e => inl e
            | inr (a, st') => k a st'
            end.

Definition raise {A : Type} (e : exn) : M A := fun _ => inl e.

Declare Scope monad_scope.
Delimit Scope monad_scope with monad.
Notation "x <- m ;; k" := (bind m (fun x => k))
  (at level 61, m at next level, right associativity) : monad_scope.
Notation "' pat <- m ;; k" := (bind m (fun x => match x with pat => k end))
  (at level 61, pat pattern, m at next level, right associativity) : monad_scope.
Open Scope monad_scope.

(** [py_advance n st]: the state after [n] more calls into [random]. *)
Definition py_advance (n : nat) (st : rng_state) : rng_state :=
  {| py_tape := py_tape st; py_pos := (py_pos st + n)%nat;
     np_tape := np_tape st; np_pos := np_pos st |}.

Definition np_advance (n : nat) (st : rng_state) : rng_state :=
  {| py_tape := py_tape st; py_pos := py_pos st;
     np_tape := np_tape st; np_pos := (np_pos st + n)%nat |}.

Definition py_next : M Z :=
  fun st => inr (py_tape st (py_pos st), py_advance 1 st).

Definition np_next : M Q :=
  fun st => inr (np_tape st (np_pos st), np_advance 1 st).

(** The float [random.random()] makes of a raw draw: a 53-bit integer
    scaled into [[0, 1)]. *)
Definition uniform_of (u : Z) : Q := Qmake (u mod 2 ^ 53) (2 ^ 53)%positive.

Definition random_random : M Q := u <- py_next ;; ret (uniform_of u).

(** [random.randint(a, b)]: an integer of [[a, b]]; [ValueError] on an
    empty range. *)
Definition random_randint (a b : Z) : M Z :=
  if b <? a then raise ValueError
  else u <- py_next ;; ret (a + u mod (b - a + 1)).

(** [random.choice(seq)]: [IndexError] on an empty sequence. *)
Definition random_choice {A : Type} (l : list A) : M A :=
  match l with
  | [] => raise IndexError
  | a :: _ => u <- py_next ;;
              ret (nth (Z.to_nat (u mod Z.of_nat (List.length l))) l a)
  end.

(** [np.random.normal(loc, scale)] is [loc + scale * z] for a standard
    normal deviate [z]. *)
Definition np_random_normal (loc scale : Q) : M Q :=
  z <- np_next ;; ret (loc + scale * z)%Q.

(** ** Dates *)

Record datetime : Set := { year : Z; month : Z; day : Z }.

Definition is_leap (y : Z) : bool :=
  (y mod 4 =? 0) && (negb (y mod 100 =? 0) || (y mod 400 =? 0)).

Definition days_in_month (y m : Z) : Z :=
  if m =? 2 then (if is_leap y then 29 else 28)
  else if (m =? 4) || (m =? 6) || (m =? 9) || (m =? 11) then 30 else 31.

Definition days_before_year (y : Z) : Z :=
  let y' := y - 1 in y' * 365 + y' / 4 - y' / 100 + y' / 400.

Fixpoint days_before_month_aux (y : Z) (m : nat) : Z :=
  match m with
  | O => 0
  | S m' => days_before_month_aux y m' + days_in_month y (Z.of_nat m)
  end.

Definition days_before_month (y m : Z) : Z :=
  days_before_month_aux y (Z.to_nat (m - 1)).

(** [d.toordinal()]: day 1 is 0001-01-01. *)
Definition toordinal (d : datetime) : Z :=
  days_before_year (year d) + days_before_month (year d) (month d) + day d.

(** What the [datetime] constructor accepts. *)
Definition valid_datetime (d : datetime) : bool :=
  (1 <=? year d) && (year d <=? 9999) &&
  (1 <=? month d) && (month d <=? 12) &&
  (1 <=? day d) && (day d <=? days_in_month (year d) (month d)).

(** Comparison of datetimes is lexicographic on the fields. *)
Definition datetime_lt (a b : datetime) : bool :=
  (year a <? year b) ||
  ((year a =? year b) &&
   ((month a <? month b) || ((month a =? month b) && (day a <? day b)))).

Definition datetime_le (a b : datetime) : bool := negb (datetime_lt b a).

(** ** Stages and segments *)

Inductive stage : Set :=
| Lead_Qualification   (* "1 - Lead Qualification" *)
| Discovery            (* "2 - Discovery" *)
| Proposal             (* "3 - Proposal" *)
| Negotiation          (* "4 - Negotiation" *)
| Contract_Review      (* "5 - Contract Review" *)
| Closed_Lost          (* "6 - Closed Lost" *)
| Closed_Won.          (* "7 - Closed Won" *)

(** The number a stage label starts with. *)
Definition stage_num (s : stage) : Z :=
  match s with
  | Lead_Qualification => 1 | Discovery => 2 | Proposal => 3
  | Negotiation => 4 | Contract_Review => 5 | Closed_Lost => 6
  | Closed_Won => 7
  end.

Definition stage_eqb (a b : stage) : bool := stage_num a =? stage_num b.

Inductive segment : Set := Enterprise | Mid_Market | SMB.

Definition segment_eqb (a b : segment) : bool :=
  match a, b with
  | Enterprise, Enterprise | Mid_Market, Mid_Market | SMB, SMB => true
  | _, _ => false
  end.

(** ** Configuration held by the generator object *)

Record segment_config : Type := {
  amount_range : option (Z * Z);          (* min_amount, max_amount *)
  avg_cycle_days : Z;
  win_rate : Q;
  stage_conversion_rates : list Q
}.

Record GlobalSalesDataGenerator : Type := {
  segments : segment -> segment_config;
  competitive_segments : segment -> segment_config;
  non_icp_segments : segment -> segment_config;
  base_competitive_rates : segment -> Q;
  competitive_growth_rates : segment -> Q;
  base_icp_rates : segment -> Q;
  icp_decline_rates : segment -> Q;
  competitors : list string
}.

Open Scope Q_scope.

(** The tables [__init__] installs. *)
Definition init : GlobalSalesDataGenerator := {|
  segments := fun s =>
    match s with
    | Enterprise =>
        {| amount_range := Some (100000, 500000)%Z; avg_cycle_days := 180;
           win_rate := 0.30;
           stage_conversion_rates := [0.80; 0.70; 0.60; 0.75; 0.85] |}
    | Mid_Market =>
        {| amount_range := Some (25000, 100000)%Z; avg_cycle_days := 90;
           win_rate := 0.45;
           stage_conversion_rates := [0.75; 0.65; 0.70; 0.80; 0.85] |}
    | SMB =>
        {| amount_range := Some (5000, 30000)%Z; avg_cycle_days := 45;
           win_rate := 0.60;
           stage_conversion_rates := [0.70; 0.75; 0.75; 0.85; 0.90] |}
    end;
  competitive_segments := fun s =>
    match s with
    | Enterprise =>
        {| amount_range := None; avg_cycle_days := 240; win_rate := 0.20;
           stage_conversion_rates := [0.75; 0.65; 0.50; 0.55; 0.75] |}
    | Mid_Market =>
        {| amount_range := None; avg_cycle_days := 135; win_rate := 0.25;
           stage_conversion_rates := [0.70; 0.60; 0.80; 0.05; 0.9] |}
    | SMB =>
        {| amount_range := None; avg_cycle_days := 65; win_rate := 0.40;
           stage_conversion_rates := [0.65; 0.70; 0.60; 0.75; 0.85] |}
    end;
  non_icp_segments := fun s =>
    match s with
    | Enterprise =>
        {| amount_range := None; avg_cycle_days := 280; win_rate := 0.15;
           stage_conversion_rates := [0.75; 0.15; 0.65; 0.70; 0.80] |}
    | Mid_Market =>
        {| amount_range := None; avg_cycle_days := 110; win_rate := 0.35;
           stage_conversion_rates := [0.70; 0.50; 0.65; 0.75; 0.85] |}
    | SMB =>
        {| amount_range := None; avg_cycle_days := 55; win_rate := 0.55;
           stage_conversion_rates := [0.65; 0.70; 0.70; 0.80; 0.85] |}
    end;
  base_competitive_rates := fun s =>
    match s with Enterprise => 0.15 | Mid_Market => 0.20 | SMB => 0.10 end;
  competitive_growth_rates := fun s =>
    match s with Enterprise => 0.005 | Mid_Market => 0.020 | SMB => 0.003 end;
  base_icp_rates := fun s =>
    match s with Enterprise => 0.90 | Mid_Market => 0.80 | SMB => 0.60 end;
  icp_decline_rates := fun s =>
    match s with Enterprise => 0.025 | Mid_Market => 0.003 | SMB => 0.001 end;
  competitors := ["OpenAI"%string; "Perplexity"%string]
|}.

(** ** Trend functions *)

Definition baseline_date : datetime := {| year := 2023; month := 1; day := 1 |}.

(** Whole calendar months between the baseline (January 2023) and a date. *)
Definition months_elapsed (created_date : datetime) : Z :=
  ((year created_date - year baseline_date) * 12
   + month created_date - month baseline_date)%Z.

Definition max_rates (s : segment) : Q :=
  match s with Enterprise => 0.45 | Mid_Market => 0.70 | SMB => 0.25 end.

Definition calculate_competitive_rate (self : GlobalSalesDataGenerator)
    (seg : segment) (created_date : datetime) : Q :=
  let base_rate := base_competitive_rates self seg in
  let growth_rate := competitive_growth_rates self seg in
  let competitive_rate :=
    base_rate + growth_rate * inject_Z (months_elapsed created_date) in
  py_min competitive_rate (max_rates seg).

Definition min_rates (s : segment) : Q :=
  match s with Enterprise => 0.30 | Mid_Market => 0.45 | SMB => 0.40 end.

Definition calculate_icp_rate (self : GlobalSalesDataGenerator)
    (seg : segment) (created_date : datetime) : Q :=
  let base_rate := base_icp_rates self seg in
  let decline_rate := icp_decline_rates self seg in
  let icp_rate :=
    base_rate - decline_rate * inject_Z (months_elapsed created_date) in
  py_max icp_rate (min_rates seg).

(** ** Deal classifier *)

Definition is_deal_competitive (self : GlobalSalesDataGenerator)
    (seg : segment) (created_date : datetime) : M bool :=
  let competitive_rate := calculate_competitive_rate self seg created_date in
  u <- random_random ;; ret (Qltb u competitive_rate).

Definition is_account_icp (self : GlobalSalesDataGenerator)
    (seg : segment) (created_date : datetime) : M bool :=
  let icp_rate := calculate_icp_rate self seg created_date in
  u <- random_random ;; ret (Qltb u icp_rate).

(** ** Configuration resolver *)

Inductive config_type : Set := Non_ICP | Competitive | Base.

Definition get_deal_configuration (self : GlobalSalesDataGenerator)
    (seg : segment) (is_competitive is_icp : bool)
  : segment_config * config_type :=
  if segment_eqb seg Enterprise && negb is_icp then
    (non_icp_segments self seg, Non_ICP)
  else if is_competitive then
    (competitive_segments self seg, Competitive)
  else
    (segments self seg, Base).

(** ** Python containers *)

(** [enumerate(l)]. *)
Definition enumerate {A : Type} (l : list A) : list (nat * A) :=
  combine (seq 0 (List.length l)) l.

(** [l[i]] for a non-negative index. *)
Definition list_get {A : Type} (l : list A) (i : nat) : M A :=
  match nth_error l i with
  | Some a => ret a
  | None => raise IndexError
  end.

(** A dict literal keyed by stage names, in insertion order. *)
Fixpoint assoc {V : Type} (k : stage) (d : list (stage * V)) : option V :=
  match d with
  | [] => None
  | (k', v) :: rest => if stage_eqb k' k then Some v else assoc k rest
  end.

(** [d[k]]. *)
Definition dict_get {V : Type} (d : list (stage * V)) (k : stage) : M V :=
  match assoc k d with
  | Some v => ret v
  | None => raise KeyError
  end.

(** [l.index(k)]. *)
Fixpoint index_from (k : stage) (l : list stage) (i : nat) : option nat :=
  match l with
  | [] => None
  | s :: rest => if stage_eqb s k then Some i else index_from k rest (S i)
  end.

Definition list_index (l : list stage) (k : stage) : M nat :=
  match index_from k l 0 with
  | Some i => ret i
  | None => raise ValueError
  end.

(** The keys of the dict [calculate_stage_progression] returns: one date
    field and one days field per stage, e.g.
    ["Stage_2_Discovery_Date"] and ["Days_in_Stage_2_Discovery"]. *)
Inductive field : Set :=
| Stage_Date (s : stage)
| Days_in_Stage (s : stage).

Definition field_eqb (a b : field) : bool :=
  match a, b with
  | Stage_Date s, Stage_Date s' => stage_eqb s s'
  | Days_in_Stage s, Days_in_Stage s' => stage_eqb s s'
  | _, _ => false
  end.

(** A dict over these keys: absent, present with [None], or present with an
    integer (a date ordinal or a number of days). *)
Definition dict : Type := field -> option (option Z).

Definition empty : dict := fun _ => None.

(** [d[k] = v]. *)
Definition set (k : field) (v : option Z) (d : dict) : dict :=
  fun k' => if field_eqb k' k then Some v else d k'.

(** [d.update(d2)] on a copy of [d]. *)
Definition update (d d2 : dict) : dict :=
  fun k => match d2 k with
           | Some v => Some v
           | None => d k
           end.

(** ** Outcome simulator *)

Definition stage_names : list stage :=
  [Lead_Qualification; Discovery; Proposal; Negotiation; Contract_Review].

(** The loop over [enumerate(conversion_rates)], with the loop variable
    [current_stage_index]. *)
Fixpoint outcome_loop (items : list (nat * Q)) (current_stage_index : nat)
  : M (stage * stage) :=
  match items with
  | [] => ret (Closed_Won, Contract_Review)
  | (i, conversion_rate) :: rest =>
      u <- random_random ;;
      if Qltb u conversion_rate then
        outcome_loop rest (i + 1)%nat
      else
        highest_stage_reached <- list_get stage_names current_stage_index ;;
        ret (Closed_Lost, highest_stage_reached)
  end.

Definition determine_deal_outcome_and_highest_stage
    (self : GlobalSalesDataGenerator) (seg : segment)
    (is_competitive is_icp : bool) : M (stage * stage) :=
  let '(segment_config, _) :=
    get_deal_configuration self seg is_competitive is_icp in
  let conversion_rates := stage_conversion_rates segment_config in
  outcome_loop (enumerate conversion_rates) 0.

(** ** Timeline builder *)

(** The simulation's current date, [datetime(2025, 9, 13)], as its ordinal
    (see [current_time_ordinal]). *)
Definition current_time : Z := 739507.

Definition config_type_eqb (a b : config_type) : bool :=
  match a, b with
  | Non_ICP, Non_ICP | Competitive, Competitive | Base, Base => true
  | _, _ => false
  end.

(** The stage → fraction-of-cycle table chosen for a deal. *)
Definition stage_progression (ct : config_type) (seg : segment)
    (is_competitive : bool) : list (stage * Q) :=
  if config_type_eqb ct Non_ICP && segment_eqb seg Enterprise then
    [ (Lead_Qualification, 0.0); (Discovery, 0.05); (Proposal, 0.75);
      (Negotiation, 0.85); (Contract_Review, 0.95);
      (Closed_Lost, 1.0); (Closed_Won, 1.0) ]
  else if is_competitive then
    [ (Lead_Qualification, 0.0); (Discovery, 0.08); (Proposal, 0.15);
      (Negotiation, 0.18); (Contract_Review, 0.9);
      (Closed_Lost, 1.0); (Closed_Won, 1.0) ]
  else
    [ (Lead_Qualification, 0.0); (Discovery, 0.15); (Proposal, 0.35);
      (Negotiation, 0.55); (Contract_Review, 0.75);
      (Closed_Lost, 1.0); (Closed_Won, 1.0) ].

Close Scope Q_scope.

(** The jitter block the three branches repeat: a uniform integer of
    plus or minus 20% of the segment duration is added to the entry date,
    and the result is kept at least one day after the created date. *)
Definition add_randomness (created_date total_cycle_days : Z)
    (stage_pct prev_stage_pct : Q) (stage_entry_date : Z) : M Z :=
  let stage_duration :=
    py_int (inject_Z total_cycle_days * (stage_pct - prev_stage_pct))%Q in
  randomness <- random_randint (- py_int (inject_Z stage_duration * 0.2)%Q)
                               (py_int (inject_Z stage_duration * 0.2)%Q) ;;
  ret (Z.max (stage_entry_date + randomness) (created_date + 1)).

(** Closed-lost branch: the stages up to and including the highest one. *)
Fixpoint stages_reached_of (highest_stage_reached : stage)
    (names : list stage) : list stage :=
  match names with
  | [] => []
  | stage_name :: rest =>
      if stage_eqb stage_name highest_stage_reached then [stage_name]
      else stage_name :: stages_reached_of highest_stage_reached rest
  end.

(** Closed-lost branch: entry dates of the stages reached. *)
Fixpoint lost_entry_dates (progression : list (stage * Q))
    (created_date total_cycle_days : Z) (stages_reached : list stage)
    (items : list (nat * stage)) (stage_dates : dict) : M dict :=
  match items with
  | [] => ret stage_dates
  | (i, stage_name) :: rest =>
      if stage_eqb stage_name Lead_Qualification then
        lost_entry_dates progression created_date total_cycle_days
          stages_reached rest stage_dates
      else
        stage_pct <- dict_get progression stage_name ;;
        let days_to_stage := py_int (inject_Z total_cycle_days * stage_pct)%Q in
        let stage_entry_date := created_date + days_to_stage in
        stage_entry_date <-
          (if (0 <? i)%nat && (1 <? List.length stages_reached)%nat then
             prev <- list_get stages_reached (i - 1) ;;
             prev_stage_pct <- dict_get progression prev ;;
             add_randomness created_date total_cycle_days
               stage_pct prev_stage_pct stage_entry_date
           else ret stage_entry_date) ;;
        lost_entry_dates progression created_date total_cycle_days
          stages_reached rest
          (set (Stage_Date stage_name) (Some stage_entry_date) stage_dates)
  end.

(** Closed-lost branch: stages not reached get [None]. *)
Definition null_unreached (stages_reached : list stage) (stage_dates : dict)
  : dict :=
  fold_left
    (fun sd stage_name =>
       if existsb (stage_eqb stage_name) (tl stages_reached) then sd
       else set (Stage_Date stage_name) None sd)
    [Discovery; Proposal; Negotiation; Contract_Review] stage_dates.

(** The entry date of a dated stage of the closed-won and open branches. *)
Definition dated_entry (progression : list (stage * Q))
    (created_date total_cycle_days : Z) (stage_name : stage) (stage_pct : Q)
  : M Z :=
  let days_to_stage := py_int (inject_Z total_cycle_days * stage_pct)%Q in
  let stage_entry_date := created_date + days_to_stage in
  let prev_stages := map fst progression in
  current_index <- list_index prev_stages stage_name ;;
  if (0 <? current_index)%nat then
    prev <- list_get prev_stages (current_index - 1) ;;
    prev_stage_pct <- dict_get progression prev ;;
    add_randomness created_date total_cycle_days
      stage_pct prev_stage_pct stage_entry_date
  else ret stage_entry_date.

(** Closed-won branch: the loop over [stage_progression.items()]. *)
Fixpoint won_entry_dates (progression : list (stage * Q))
    (created_date expected_close_date total_cycle_days : Z)
    (items : list (stage * Q)) (stage_dates : dict) : M dict :=
  match items with
  | [] => ret stage_dates
  | (stage_name, stage_pct) :: rest =>
      let continue :=
        won_entry_dates progression created_date expected_close_date
          total_cycle_days rest in
      if stage_eqb stage_name Lead_Qualification then continue stage_dates
      else if stage_eqb stage_name Closed_Won then
        continue (set (Stage_Date Closed_Lost) None
                   (set (Stage_Date Closed_Won) (Some expected_close_date)
                      stage_dates))
      else if stage_eqb stage_name Closed_Lost then continue stage_dates
      else
        stage_entry_date <- dated_entry progression created_date
                              total_cycle_days stage_name stage_pct ;;
        continue (set (Stage_Date stage_name) (Some stage_entry_date)
                    stage_dates)
  end.

(** Open branch: the loop over [stage_progression.items()]. *)
Fixpoint open_entry_dates (progression : list (stage * Q))
    (created_date total_cycle_days : Z) (progress_ratio : Q)
    (items : list (stage * Q)) (stage_dates : dict) : M dict :=
  match items with
  | [] => ret stage_dates
  | (stage_name, stage_pct) :: rest =>
      let continue :=
        open_entry_dates progression created_date total_cycle_days
          progress_ratio rest in
      if stage_eqb stage_name Lead_Qualification then continue stage_dates
      else if stage_eqb stage_name Closed_Lost
              || stage_eqb stage_name Closed_Won then
        continue (set (Stage_Date stage_name) None stage_dates)
      else if Qle_bool stage_pct progress_ratio then
        stage_entry_date <- dated_entry progression created_date
                              total_cycle_days stage_name stage_pct ;;
        continue (set (Stage_Date stage_name) (Some stage_entry_date)
                    stage_dates)
      else
        continue (set (Stage_Date stage_name) None stage_dates)
  end.

Definition stage_names_ordered : list stage :=
  [Lead_Qualification; Discovery; Proposal; Negotiation; Contract_Review;
   Closed_Lost; Closed_Won].

Definition is_closed (s : stage) : bool :=
  stage_eqb s Closed_Lost || stage_eqb s Closed_Won.

(** The inner loop of the days calculation: the first later stage with a
    date. *)
Fixpoint next_stage_date_of (stage_dates : dict) (later : list stage)
  : option Z :=
  match later with
  | [] => None
  | next_stage_name :: rest =>
      match stage_dates (Stage_Date next_stage_name) with
      | Some (Some d) => Some d
      | _ => next_stage_date_of stage_dates rest
      end
  end.

(** The body of the outer loop of the days calculation for one stage:
    [None] for a stage without a date, the distance to the next dated stage
    when there is one, and otherwise the distance to the close date (closed
    deals) or to the current date (open deals), floored at zero.  [later]
    is [stage_names_ordered[i+1:]]. *)
Definition days_in_current_stage (stage_dates : dict) (final_stage : stage)
    (expected_close_date : Z) (stage_name : stage) (later : list stage)
  : option Z :=
  match stage_dates (Stage_Date stage_name) with
  | Some (Some current_stage_date) =>
      match next_stage_date_of stage_dates later with
      | Some next_stage_date => Some (next_stage_date - current_stage_date)
      | None =>
          let days_in_current_stage :=
            if is_closed final_stage
            then expected_close_date - current_stage_date
            else current_time - current_stage_date in
          Some (Z.max 0 days_in_current_stage)
      end
  | _ => None
  end.

(** The outer loop of the days calculation. *)
Fixpoint days_loop (stage_dates : dict) (final_stage : stage)
    (expected_close_date : Z) (stages : list stage) (days_in_stage : dict)
  : dict :=
  match stages with
  | [] => days_in_stage
  | stage_name :: later =>
      days_loop stage_dates final_stage expected_close_date later
        (set (Days_in_Stage stage_name)
           (days_in_current_stage stage_dates final_stage
              expected_close_date stage_name later)
           days_in_stage)
  end.

(** Closed-lost branch. *)
Definition lost_stage_dates (progression : list (stage * Q))
    (created_date expected_close_date total_cycle_days : Z)
    (highest_stage_reached : stage) (stage_dates : dict) : M dict :=
  let stages_reached := stages_reached_of highest_stage_reached stage_names in
  stage_dates <- lost_entry_dates progression created_date total_cycle_days
                   stages_reached (enumerate stages_reached) stage_dates ;;
  let stage_dates :=
    set (Stage_Date Closed_Won) None
      (set (Stage_Date Closed_Lost) (Some expected_close_date) stage_dates) in
  ret (null_unreached stages_reached stage_dates).

(** Open branch. *)
Definition open_stage_dates (progression : list (stage * Q))
    (created_date total_cycle_days : Z) (stage_dates : dict) : M dict :=
  let deal_age := current_time - created_date in
  if total_cycle_days =? 0 then raise ZeroDivisionError
  else
    let progress_ratio :=
      py_min 0.9 (inject_Z deal_age / inject_Z total_cycle_days)%Q in
    open_entry_dates progression created_date total_cycle_days
      progress_ratio progression stage_dates.

Definition calculate_stage_progression (self : GlobalSalesDataGenerator)
    (seg : segment) (created_date expected_close_date : Z)
    (final_stage : stage) (highest_stage_reached : option stage)
    (is_competitive is_icp : bool) : M dict :=
  let total_cycle_days := expected_close_date - created_date in
  let '(_, ct) := get_deal_configuration self seg is_competitive is_icp in
  let progression := stage_progression ct seg is_competitive in
  let stage_dates :=
    set (Stage_Date Lead_Qualification) (Some created_date) empty in
  stage_dates <-
    (* [final_stage == "6 - Closed Lost" and highest_stage_reached] *)
    match (if stage_eqb final_stage Closed_Lost
           then highest_stage_reached else None) with
    | Some highest =>
        lost_stage_dates progression created_date expected_close_date
          total_cycle_days highest stage_dates
    | None =>
        if stage_eqb final_stage Closed_Won then
          won_entry_dates progression created_date expected_close_date
            total_cycle_days progression stage_dates
        else
          open_stage_dates progression created_date total_cycle_days
            stage_dates
    end ;;
  let days_in_stage :=
    days_loop stage_dates final_stage expected_close_date
      stage_names_ordered empty in
  ret (update stage_dates days_in_stage).

(** ** Deal progression *)

Definition calculate_deal_progression (self : GlobalSalesDataGenerator)
    (seg : segment) (created_date : Z) (is_competitive is_icp : bool)
  : M (stage * Z * option stage) :=
  let '(segment_config, ct) :=
    get_deal_configuration self seg is_competitive is_icp in
  let base_cycle := avg_cycle_days segment_config in
  x <- np_random_normal (inject_Z base_cycle) (inject_Z base_cycle * 0.3)%Q ;;
  let actual_cycle := Z.max 20 (py_int x) in
  let expected_close_date := created_date + actual_cycle in
  let deal_age := current_time - created_date in
  if expected_close_date <=? current_time then
    '(final_stage, highest_stage_reached) <-
      determine_deal_outcome_and_highest_stage self seg is_competitive is_icp ;;
    ret (final_stage, expected_close_date, Some highest_stage_reached)
  else
    let progress_ratio :=
      py_min 0.9 (inject_Z deal_age / inject_Z actual_cycle)%Q in
    let below := Qltb progress_ratio in
    if config_type_eqb ct Non_ICP && segment_eqb seg Enterprise then
      if below 0.10%Q then ret (Lead_Qualification, expected_close_date, None)
      else if below 0.60%Q then ret (Discovery, expected_close_date, None)
      else if below 0.75%Q then ret (Proposal, expected_close_date, None)
      else if below 0.90%Q then ret (Negotiation, expected_close_date, None)
      else ret (Contract_Review, expected_close_date, None)
    else if is_competitive then
      if below 0.10%Q then ret (Lead_Qualification, expected_close_date, None)
      else if below 0.20%Q then ret (Discovery, expected_close_date, None)
      else if below 0.25%Q then ret (Proposal, expected_close_date, None)
      else if below 0.80%Q then ret (Negotiation, expected_close_date, None)
      else ret (Contract_Review, expected_close_date, None)
    else
      if below 0.15%Q then ret (Lead_Qualification, expected_close_date, None)
      else if below 0.35%Q then ret (Discovery, expected_close_date, None)
      else if below 0.55%Q then ret (Proposal, expected_close_date, None)
      else if below 0.75%Q then ret (Negotiation, expected_close_date, None)
      else ret (Contract_Review, expected_close_date, None).

(** ** Deal assembler *)

(** The fields of an opportunity record the engine computes; the labels
    taken from reference data (account, region, owner) and the fiscal
    quarter label are left out. *)
Record opportunity : Type := {
  Stage : stage;
  Amount : Z;
  Expected_Revenue : Z;
  Probability_Percent : Z;
  Segment : segment;
  Created_Date : Z;
  Close_Date : Z;
  Age_Days : Z;
  Highest_Stage_Reached : option stage;
  Competitive_Deal : bool;
  Primary_Competitor : option string;
  Is_ICP_Account : bool;
  stage_data : dict
}.

(** The point-in-time probability table of an open deal. *)
Definition stage_probs (ct : config_type) (seg : segment)
    (is_competitive : bool) : list (stage * Z) :=
  if config_type_eqb ct Non_ICP && segment_eqb seg Enterprise then
    [ (Lead_Qualification, 8); (Discovery, 12); (Proposal, 30);
      (Negotiation, 50); (Contract_Review, 70) ]
  else if is_competitive then
    [ (Lead_Qualification, 10); (Discovery, 15); (Proposal, 25);
      (Negotiation, 35); (Contract_Review, 60) ]
  else
    [ (Lead_Qualification, 15); (Discovery, 25); (Proposal, 40);
      (Negotiation, 65); (Contract_Review, 85) ].

(** One iteration of the loop of [generate_opportunities], from the deal
    progression calculation to the finished record.  What the iteration
    sampled before that point (segment, created date, the two challenge
    flags and the amount) comes in as arguments. *)
Definition generate_opportunity (self : GlobalSalesDataGenerator)
    (seg : segment) (created_date : Z) (is_competitive is_icp : bool)
    (amount : Z) : M opportunity :=
  '(stage, close_date, highest_stage_reached) <-
    calculate_deal_progression self seg created_date is_competitive is_icp ;;
  stage_data <-
    calculate_stage_progression self seg created_date close_date stage
      highest_stage_reached is_competitive is_icp ;;
  '(probability, expected_revenue) <-
    (if stage_eqb stage Closed_Won then ret (100, inject_Z amount)
     else if stage_eqb stage Closed_Lost then ret (0, inject_Z 0)
     else
       let '(_, ct) := get_deal_configuration self seg is_competitive is_icp in
       probability <- dict_get (stage_probs ct seg is_competitive) stage ;;
       ret (probability,
            (inject_Z amount * (inject_Z probability / inject_Z 100))%Q)) ;;
  let age_days := current_time - created_date in
  competitor <-
    (if is_competitive then c <- random_choice (competitors self) ;; ret (Some c)
     else ret None) ;;
  ret {| Stage := stage;
         Amount := amount;
         Expected_Revenue := py_int expected_revenue;
         Probability_Percent := probability;
         Segment := seg;
         Created_Date := created_date;
         Close_Date := close_date;
         Age_Days := age_days;
         Highest_Stage_Reached :=
           if stage_eqb stage Closed_Lost then highest_stage_reached
           else None;
         Competitive_Deal := is_competitive;
         Primary_Competitor := competitor;
         Is_ICP_Account := is_icp;
         stage_data := stage_data |}.

(** ** Discrete events ([salesforce_mimic_opp_creation.py]) *)

Module Salesforce.

Inductive stage : Set :=
| Lead_Qualification     (* "1 - Lead Qualification" *)
| Discovery              (* "2 - Discovery" *)
| Proposal_Development   (* "3 - Proposal Development" *)
| Negotiation            (* "4 - Negotiation" *)
| Contract_Review        (* "5 - Contract Review" *)
| Closed_Lost            (* "6 - Closed Lost" *)
| Closed_Won.            (* "7 - Closed Won" *)

Definition stage_eqb (a b : stage) : bool :=
  match a, b with
  | Lead_Qualification, Lead_Qualification
  | Discovery, Discovery
  | Proposal_Development, Proposal_Development
  | Negotiation, Negotiation
  | Contract_Review, Contract_Review
  | Closed_Lost, Closed_Lost
  | Closed_Won, Closed_Won => true
  | _, _ => false
  end.

Record event_config : Type := {
  start_date : datetime;
  affected_stage : stage;
  conversion_impact : Q;
  velocity_impact : Q
}.

Record seasonal_multiplier : Type := { volume : Q; win_rate : Q }.

(** The attributes of the generator object the event code reads;
    [events] keeps the insertion order of the dict. *)
Record SalesforceDataGenerator : Type := {
  stages : list stage;
  base_conversion_rates : list (stage * Q);
  events : list (string * event_config)
}.

Open Scope Q_scope.

(** The tables [__init__] installs. *)
Definition init : SalesforceDataGenerator := {|
  stages := [Lead_Qualification; Discovery; Proposal_Development;
             Negotiation; Contract_Review; Closed_Lost; Closed_Won];
  base_conversion_rates :=
    [ (Lead_Qualification, 0.75); (Discovery, 0.65);
      (Proposal_Development, 0.55); (Negotiation, 0.70);
      (Contract_Review, 0.85) ];
  events :=
    [ ("security_process_change"%string,
       {| start_date := {| year := 2024; month := 4; day := 1 |};
          affected_stage := Contract_Review;
          conversion_impact := -0.15; velocity_impact := 1.4 |});
      ("pricing_model_change"%string,
       {| start_date := {| year := 2024; month := 7; day := 1 |};
          affected_stage := Negotiation;
          conversion_impact := -0.20; velocity_impact := 1.3 |});
      ("competitive_pressure"%string,
       {| start_date := {| year := 2024; month := 6; day := 1 |};
          affected_stage := Discovery;
          conversion_impact := -0.10; velocity_impact := 1.25 |}) ]
|}.

Definition get_seasonal_multiplier (date : datetime) : seasonal_multiplier :=
  let m := month date in
  if ((m =? 1) || (m =? 2) || (m =? 3))%Z then
    {| volume := 1.3; win_rate := 0.9 |}
  else if ((m =? 4) || (m =? 5) || (m =? 6))%Z then
    {| volume := 1.0; win_rate := 1.0 |}
  else if ((m =? 7) || (m =? 8) || (m =? 9))%Z then
    {| volume := 0.8; win_rate := 1.05 |}
  else
    {| volume := 1.2; win_rate := 1.1 |}.

(** The test of the event loop:
    [date >= start_date and stage == affected_stage]. *)
Definition event_applies (ec : event_config) (stage_name : stage)
    (date : datetime) : bool :=
  datetime_le (start_date ec) date && stage_eqb stage_name (affected_stage ec).

(** The loop over [self.events.items()], with its two accumulators. *)
Fixpoint event_loop (items : list (string * event_config))
    (stage_name : stage) (date : datetime)
    (conversion_modifier velocity_modifier : Q) : Q * Q :=
  match items with
  | [] => (conversion_modifier, velocity_modifier)
  | (_, ec) :: rest =>
      if event_applies ec stage_name date then
        event_loop rest stage_name date
          (conversion_modifier * (1 + conversion_impact ec))
          (velocity_modifier * velocity_impact ec)
      else
        event_loop rest stage_name date conversion_modifier velocity_modifier
  end.

Definition get_event_impact (self : SalesforceDataGenerator)
    (stage_name : stage) (date : datetime) : Q * Q :=
  event_loop (events self) stage_name date 1.0 1.0.

Fixpoint assoc (k : stage) (d : list (stage * Q)) : option Q :=
  match d with
  | [] => None
  | (k', v) :: rest => if stage_eqb k' k then Some v else assoc k rest
  end.

(** The part of one iteration of the loop of [calculate_stage_progression]
    that computes the conversion probability of the current stage and the
    average time spent in it. *)
Definition stage_parameters (self : SalesforceDataGenerator)
    (current_stage : stage) (current_date : datetime) (base_cycle : Z)
    (win_rate_modifier cycle_modifier : Q) : exn + (Q * Q) :=
  let seasonal := get_seasonal_multiplier current_date in
  let '(conversion_impact, velocity_impact) :=
    get_event_impact self current_stage current_date in
  match assoc current_stage (base_conversion_rates self) with
  | None => inl KeyError
  | Some base_conversion =>
      let stage_conversion :=
        base_conversion * win_rate_modifier * win_rate seasonal
        * conversion_impact in
      let stage_conversion := py_max 0.1 (py_min 0.95 stage_conversion) in
      let n := (Z.of_nat (List.length (stages self)) - 2)%Z in
      if (n =? 0)%Z then inl ZeroDivisionError
      else
        let avg_stage_time :=
          (inject_Z base_cycle / inject_Z n) * cycle_modifier
          * velocity_impact in
        inr (stage_conversion, avg_stage_time)
  end.

(** The same generator with another event table. *)
Definition with_events (self : SalesforceDataGenerator)
    (es : list (string * event_config)) : SalesforceDataGenerator :=
  {| stages := stages self;
     base_conversion_rates := base_conversion_rates self;
     events := es |}.

Close Scope Q_scope.

End Salesforce.

(** * Vocabulary of the statements *)

(** [date >= start], read on the fields of the two datetimes. *)
Definition on_or_after (date start : datetime) : Prop :=
  year start < year date \/
  (year start = year date /\
   (month start < month date \/
    (month start = month date /\ day start <= day date))).

(** The value the [k]-th next call of [random.random()] returns. *)
Definition draw (st : rng_state) (k : nat) : Q :=
  uniform_of (py_tape st (py_pos st + k)).

(** The stage dates before any branch runs. *)
Definition stage_dates0 (created_date : Z) : dict :=
  set (Stage_Date Lead_Qualification) (Some created_date) empty.

(** What a stage-dates dict holds for the seven stages. *)
Definition timeline (sd : dict) (created_date : Z)
    (o2 o3 o4 o5 t6 t7 : option Z) : Prop :=
  sd (Stage_Date Lead_Qualification) = Some (Some created_date) /\
  sd (Stage_Date Discovery) = Some o2 /\
  sd (Stage_Date Proposal) = Some o3 /\
  sd (Stage_Date Negotiation) = Some o4 /\
  sd (Stage_Date Contract_Review) = Some o5 /\
  sd (Stage_Date Closed_Lost) = Some t6 /\
  sd (Stage_Date Closed_Won) = Some t7.

(** The stage dates a [timeline] describes, as a dict. *)
Definition dict_of_timeline (created_date : Z)
    (o2 o3 o4 o5 t6 t7 : option Z) : dict :=
  fun k =>
    match k with
    | Stage_Date s =>
        Some match s with
             | Lead_Qualification => Some created_date
             | Discovery => o2
             | Proposal => o3
             | Negotiation => o4
             | Contract_Review => o5
             | Closed_Lost => t6
             | Closed_Won => t7
             end
    | Days_in_Stage _ => None
    end.

(** A date, when present, is at least one day after the created date. *)
Definition after_created (created_date : Z) (o : option Z) : Prop :=
  match o with
  | Some d => created_date + 1 <= d
  | None => True
  end.

(** The three shapes of the stage dates of a deal. *)
Definition lost_timeline (sd : dict) (created_date expected_close_date : Z)
    (highest : stage) : Prop :=
  exists o2 o3 o4 o5,
    timeline sd created_date o2 o3 o4 o5 (Some expected_close_date) None /\
    after_created created_date o2 /\ after_created created_date o3 /\
    after_created created_date o4 /\ after_created created_date o5 /\
    (stage_num highest < 2 -> o2 = None) /\
    (stage_num highest < 3 -> o3 = None) /\
    (stage_num highest < 4 -> o4 = None) /\
    (stage_num highest < 5 -> o5 = None).

Definition won_timeline (sd : dict) (created_date expected_close_date : Z)
  : Prop :=
  exists e2 e3 e4 e5,
    timeline sd created_date (Some e2) (Some e3) (Some e4) (Some e5)
      None (Some expected_close_date) /\
    created_date + 1 <= e2 /\ created_date + 1 <= e3 /\
    created_date + 1 <= e4 /\ created_date + 1 <= e5.

Definition open_timeline (sd : dict) (created_date : Z) : Prop :=
  exists o2 o3 o4 o5,
    timeline sd created_date o2 o3 o4 o5 None None /\
    after_created created_date o2 /\ after_created created_date o3 /\
    after_created created_date o4 /\ after_created created_date o5.

(** The result dict for given stage dates. *)
Definition with_days (sd : dict) (final_stage : stage)
    (expected_close_date : Z) : dict :=
  update sd (days_loop sd final_stage expected_close_date
               stage_names_ordered empty).

(** The stages after a stage in [stage_names_ordered]. *)
Definition later_stages (s : stage) : list stage :=
  skipn (Z.to_nat (stage_num s)) stage_names_ordered.

(** The sum of the non-null days fields of a result dict. *)
Definition days_value (d : dict) (s : stage) : Z :=
  match d (Days_in_Stage s) with
  | Some (Some n) => n
  | _ => 0
  end.

Definition total_days_in_stage (d : dict) : Z :=
  fold_right Z.add 0 (map (days_value d) stage_names_ordered).

(** Entry dates never decrease along the stage order. *)
Definition entry_dates_monotone (d : dict) : Prop :=
  forall s s' a b,
    stage_num s <= stage_num s' ->
    d (Stage_Date s) = Some (Some a) -> d (Stage_Date s') = Some (Some b) ->
    a <= b.

(** No days field is negative. *)
Definition days_nonnegative (d : dict) : Prop :=
  forall s n, d (Days_in_Stage s) = Some (Some n) -> 0 <= n.

(** A generator whose tables the engine can run on: at most one conversion
    rate per named stage, and at least one competitor. *)
Definition well_configured (self : GlobalSalesDataGenerator) : Prop :=
  (forall seg is_competitive is_icp,
      (List.length
         (stage_conversion_rates
            (fst (get_deal_configuration self seg is_competitive is_icp)))
       <= List.length stage_names)%nat) /\
  competitors self <> [].

(** A random tape given by its first cells (zero afterwards). *)
Definition tape_of (cells : list Z) : nat -> Z := fun n => nth n cells 0.


(** The random state of the outcome-simulator example: the second draw is
    the largest uniform value, every other draw is zero. *)
Definition walk_state : rng_state :=
  {| py_tape := fun n => if (n =? 1)%nat then 2 ^ 53 - 1 else 0;
     py_pos := 0; np_tape := fun _ => 0%Q; np_pos := 0 |}.

(** The random state of the timeline examples: every [random.random()]
    draw of the outcome walk is zero, the four jitter draws that follow
    make [random.randint] return 0, +25, 0 and 0, and the normal deviate
    is -5/6. *)
Definition jitter_state : rng_state :=
  {| py_tape := tape_of [0; 0; 0; 0; 0; 2; 54; 4; 4];
     py_pos := 0; np_tape := fun _ => (-5 # 6)%Q; np_pos := 0 |}.

(** A random state whose second outcome draw is one half. *)
Definition lost_state : rng_state :=
  {| py_tape := tape_of [0; 2 ^ 52; 0];
     py_pos := 0; np_tape := fun _ => (-5 # 6)%Q; np_pos := 0 |}.

(** 2024-01-01. *)
Definition jan_2024 : Z := 738886.

(** * Further functions of the generators *)

(** ** More of the [random] and [numpy.random] interfaces *)

(** [random.uniform(a, b)] is [a + (b - a) * random()]. *)
Definition random_uniform (a b : Q) : M Q :=
  u <- random_random ;; ret (a + (b - a) * u)%Q.

(** [np.random.exponential(scale)] is [scale] times a standard exponential
    deviate, read here from the [numpy.random] tape; a negative scale is a
    [ValueError]. *)
Definition np_random_exponential (scale : Q) : M Q :=
  if Qltb scale 0 then raise ValueError
  else e <- np_next ;; ret (scale * e)%Q.

(** ** Growth multiplier and deal amount *)

(** [self.quarterly_growth_rate] and [self.growth_volatility], as
    [__init__] sets them. *)
Definition quarterly_growth_rate : Q := 0.25.
Definition growth_volatility : Q := 0.10.

(** Quarters between the base date (January 2023 by default) and a date. *)
Definition quarters_elapsed (created_date base_date : datetime) : Z :=
  (year created_date - year base_date) * 4
  + (month created_date - 1) / 3
  - (month base_date - 1) / 3.

(** The power is exact here.  In Python [(1 + 0.25) ** quarters_elapsed]
    is a float power, which raises [OverflowError] from about 3180 quarters
    on (the year 2818); statements about the amount bound the year. *)
Definition get_growth_multiplier (created_date base_date : datetime) : M Q :=
  let base_growth :=
    ((1 + quarterly_growth_rate) ^ quarters_elapsed created_date base_date)%Q in
  volatility <- random_uniform (1 - growth_volatility)%Q
                               (1 + growth_volatility)%Q ;;
  ret (base_growth * volatility)%Q.

(** The deal amount calculation of [generate_opportunities]: a base amount
    from the segment's range, scaled by the growth multiplier. *)
Definition sample_amount (self : GlobalSalesDataGenerator) (seg : segment)
    (created_date : datetime) : M Z :=
  match amount_range (segments self seg) with
  | None => raise KeyError
  | Some (min_amount, max_amount) =>
      base_amount <- random_randint min_amount max_amount ;;
      growth_multiplier <- get_growth_multiplier created_date baseline_date ;;
      ret (py_int (inject_Z base_amount * growth_multiplier)%Q)
  end.

(** One iteration of the loop of [generate_opportunities] from the amount
    calculation on, for a deal whose created date, segment and challenge
    flags have been drawn: the amount, then the progression, the timeline
    and the record. *)
Definition generate_opportunities_iteration (self : GlobalSalesDataGenerator)
    (seg : segment) (created_date : datetime) (is_competitive is_icp : bool)
  : M opportunity :=
  amount <- sample_amount self seg created_date ;;
  generate_opportunity self seg (toordinal created_date) is_competitive
    is_icp amount.

(** ** Created date *)

(** The create-date selection of [generate_opportunities]: an
    exponentially distributed number of days back from the end date, at
    most the whole span.  Dates are ordinals. *)
Definition sample_created_date (start_date end_date : Z) : M Z :=
  let total_days := end_date - start_date in
  x <- np_random_exponential (inject_Z total_days / 4)%Q ;;
  let days_from_end := py_int x in
  let days_from_end := Z.min days_from_end total_days in
  ret (end_date - days_from_end).

(** ** Calendar arithmetic *)

(** [date.fromordinal(n)], as the [datetime] module computes it. *)
Definition days_before_month_common (m : Z) : Z :=
  nth (Z.to_nat m) [-1; 0; 31; 59; 90; 120; 151; 181; 212; 243; 273; 304; 334]
      0.

Definition days_in_month_common (m : Z) : Z :=
  nth (Z.to_nat m) [-1; 31; 28; 31; 30; 31; 30; 31; 31; 30; 31; 30; 31] 0.

Definition fromordinal (n : Z) : datetime :=
  let n := n - 1 in
  let n400 := n / 146097 in
  let n := n mod 146097 in
  let y := n400 * 400 + 1 in
  let n100 := n / 36524 in
  let n := n mod 36524 in
  let n4 := n / 1461 in
  let n := n mod 1461 in
  let n1 := n / 365 in
  let n := n mod 365 in
  let y := y + n100 * 100 + n4 * 4 + n1 in
  if (n1 =? 4) || (n100 =? 4) then
    {| year := y - 1; month := 12; day := 31 |}
  else
    let leapyear := (n1 =? 3) && (negb (n4 =? 24) || (n100 =? 3)) in
    let m := Z.shiftr (n + 50) 5 in
    let preceding :=
      days_before_month_common m
      + (if (2 <? m) && leapyear then 1 else 0) in
    if n <? preceding then
      let m := m - 1 in
      let preceding :=
        preceding
        - (days_in_month_common m
           + (if (m =? 2) && leapyear then 1 else 0)) in
      {| year := y; month := m; day := n - preceding + 1 |}
    else
      {| year := y; month := m; day := n - preceding + 1 |}.

(** [datetime.max.toordinal()]. *)
Definition max_ordinal : Z := 3652059.

(** ** Opportunity progression ([salesforce_mimic_opp_creation.py]) *)

Module SalesforcePipeline.

Import Salesforce.

(** The exceptions of this part: those of [exn], and the [OverflowError]
    of a date leaving the range of [datetime]. *)
Inductive error : Set :=
| Builtin (e : exn)
| OverflowError.

Definition R (A : Type) : Type := rng_state -> error + (A * rng_state).

Definition ret {A : Type} (a : A) : R A := fun st => inr (a, st).

Definition bind {A B : Type} (m : R A) (k : A -> R B) : R B :=
  fun st => match m st with
            | inl e => inl e
            | inr (a, st') => k a st'
            end.

Definition raise {A : Type} (e : error) : R A := fun _ => inl e.

(** Code of the monad [M] run in [R]. *)
Definition lift {A : Type} (m : M A) : R A :=
  fun st => match m st with
            | inl e => inl (Builtin e)
            | inr x => inr x
            end.

Definition lift_result {A : Type} (x : exn + A) : R A :=
  match x with
  | inl e => raise (Builtin e)
  | inr a => ret a
  end.

Declare Scope pipeline_scope.
Delimit Scope pipeline_scope with pipeline.
Notation "x <- m ;; k" := (bind m (fun x => k))
  (at level 61, m at next level, right associativity) : pipeline_scope.
Notation "' pat <- m ;; k" := (bind m (fun x => match x with pat => k end))
  (at level 61, pat pattern, m at next level, right associativity)
  : pipeline_scope.
Open Scope pipeline_scope.

(** A dict with string keys, in insertion order. *)
Fixpoint lookup {V : Type} (k : string) (d : list (string * V)) : option V :=
  match d with
  | [] => None
  | (k', v) :: rest => if String.eqb k' k then Some v else lookup k rest
  end.

(** [d[k]]. *)
Definition getitem {V : Type} (d : list (string * V)) (k : string) : R V :=
  match lookup k d with
  | Some v => ret v
  | None => raise (Builtin KeyError)
  end.

(** [date + timedelta(days=n)]. *)
Definition add_days (date : datetime) (n : Z) : R datetime :=
  let o := toordinal date + n in
  if (0 <? o) && (o <=? max_ordinal) then ret (fromordinal o)
  else raise OverflowError.

Record segment_info : Type := {
  min_amount : Z;
  max_amount : Z;
  avg_cycle_days : Z;
  base_win_rate : Q;
  complexity_factor : Q
}.

Record product_info : Type := {
  complexity : string;
  win_rate_modifier : Q;
  cycle_modifier : Q
}.

Record rep_info : Type := {
  experience : string;
  specialty : string;
  skill_multiplier : Q;
  location : string;
  region : string
}.

(** The attributes of the generator object this part reads besides those
    of [SalesforceDataGenerator]; each is a dict in insertion order. *)
Record tables : Type := {
  segments : list (string * segment_info);
  products : list (string * product_info);
  reps : list (string * rep_info)
}.

Open Scope Q_scope.
Open Scope string_scope.

(** One sales rep of [geo_structure], with the region the flattening loop
    of [__init__] stores in it. *)
Definition rep (region name experience specialty : string)
    (skill_multiplier : Q) (location : string) : string * rep_info :=
  (name, {| experience := experience; specialty := specialty;
            skill_multiplier := skill_multiplier; location := location;
            region := region |}).

(** The tables [__init__] installs; [reps] is [geo_structure] flattened. *)
Definition init_tables : tables := {|
  segments :=
    [ ("Enterprise",
       {| min_amount := 100000; max_amount := 2000000; avg_cycle_days := 180;
          base_win_rate := 0.35; complexity_factor := 1.5 |});
      ("Mid-Market",
       {| min_amount := 25000; max_amount := 150000; avg_cycle_days := 90;
          base_win_rate := 0.45; complexity_factor := 1.0 |});
      ("SMB",
       {| min_amount := 5000; max_amount := 35000; avg_cycle_days := 45;
          base_win_rate := 0.25; complexity_factor := 0.7 |}) ];
  products :=
    [ ("API Enterprise",
       {| complexity := "high"; win_rate_modifier := 1.2;
          cycle_modifier := 1.1 |});
      ("Team Subscription",
       {| complexity := "low"; win_rate_modifier := 0.8;
          cycle_modifier := 0.7 |});
      ("Custom Enterprise",
       {| complexity := "very_high"; win_rate_modifier := 1.0;
          cycle_modifier := 1.4 |});
      ("Developer Tools",
       {| complexity := "medium"; win_rate_modifier := 1.1;
          cycle_modifier := 0.9 |}) ];
  reps :=
    [ rep "North America" "Sarah Chen" "senior" "enterprise" 1.3 "US West";
      rep "North America" "Mike Rodriguez" "senior" "enterprise" 1.2 "US East";
      rep "North America" "Alex Thompson" "junior" "smb" 0.9 "US Central";
      rep "North America" "Jordan Kim" "junior" "smb" 0.85 "Canada";
      rep "North America" "Taylor Brown" "mid" "general" 0.7 "Mexico";
      rep "North America" "Jamie Wilson" "mid" "mid_market" 1.1 "US West";
      rep "North America" "Chris Davis" "senior" "api" 1.25 "US East";
      rep "North America" "Morgan Lee" "mid" "enterprise" 1.0 "US Central";
      rep "North America" "Casey Martinez" "junior" "smb" 0.88 "Mexico";
      rep "Europe" "Emma Clarke" "senior" "enterprise" 1.25 "UK & Ireland";
      rep "Europe" "Hans Mueller" "senior" "enterprise" 1.15 "DACH";
      rep "Europe" "Sophie Dubois" "mid" "mid_market" 1.05 "France";
      rep "Europe" "Erik Larsson" "mid" "general" 1.0 "Nordics";
      rep "Europe" "Marco Rossi" "junior" "smb" 0.82 "Southern Europe";
      rep "Europe" "Anna van Berg" "mid" "api" 1.12 "Benelux";
      rep "Europe" "James O'Connor" "junior" "smb" 0.87 "UK & Ireland";
      rep "Asia Pacific" "Yuki Tanaka" "senior" "enterprise" 1.2 "Japan";
      rep "Asia Pacific" "Oliver Smith" "senior" "mid_market" 1.18
          "Australia & NZ";
      rep "Asia Pacific" "Priya Sharma" "mid" "api" 1.08 "India";
      rep "Asia Pacific" "Li Wei" "mid" "general" 0.95 "Southeast Asia";
      rep "Asia Pacific" "Kim Min-jun" "junior" "smb" 0.9 "Korea";
      rep "Asia Pacific" "Raj Patel" "junior" "smb" 0.75 "India";
      rep "Latin America" "Carlos Silva" "mid" "enterprise" 1.1 "Brazil";
      rep "Latin America" "Isabella Garcia" "mid" "mid_market" 1.05
          "Argentina";
      rep "Latin America" "Diego Morales" "junior" "general" 0.85 "Colombia";
      rep "Latin America" "Camila Rodriguez" "junior" "smb" 0.8 "Chile" ]
|}.

(** The regional modifiers of [calculate_stage_progression]: cycle and
    complexity. *)
Definition regional_modifiers : list (string * (Q * Q)) :=
  [ ("North America", (1.0, 1.0)); ("Europe", (1.15, 1.1));
    ("Asia Pacific", (1.25, 1.2)); ("Latin America", (1.1, 1.05)) ].

Close Scope string_scope.

(** ** Rep selection *)

Definition get_reps_for_region (t : tables) (region_name : string)
  : list string :=
  map fst (filter (fun '(_, info) => String.eqb (region info) region_name)
                  (reps t)).

(** [self.reps[rep]["specialty"] in options]; a missing rep is a
    [KeyError]. *)
Fixpoint filter_specialty (t : tables) (options : list string)
    (names : list string) : R (list string) :=
  match names with
  | [] => ret []
  | name :: rest =>
      info <- getitem (reps t) name ;;
      rest' <- filter_specialty t options rest ;;
      ret (if existsb (String.eqb (specialty info)) options
           then name :: rest' else rest')
  end.

Definition select_rep_for_account (t : tables)
    (region_name segment_name : string) : R string :=
  let available_reps := get_reps_for_region t region_name in
  available_reps <-
    (if String.eqb segment_name "Enterprise" then
       specialized_reps <-
         filter_specialty t ["enterprise"; "general"]%string available_reps ;;
       ret (match specialized_reps with
            | [] => available_reps
            | _ => specialized_reps
            end)
     else if String.eqb segment_name "SMB" then
       specialized_reps <-
         filter_specialty t ["smb"; "general"]%string available_reps ;;
       ret (match specialized_reps with
            | [] => available_reps
            | _ => specialized_reps
            end)
     else ret available_reps) ;;
  lift (random_choice available_reps).

(** ** Stage progression *)

(** One entry of the progression list: a stage with its conversion
    probability, or the closing entry with its outcome. *)
Record progression_entry : Type := {
  entry_stage : stage;
  entry_date : datetime;
  days_in_stage : Z;
  conversion_probability : option Q;
  outcome : option string
}.

(** The [while] loop of [calculate_stage_progression] with its [else]
    clause.  [remaining] is [len(self.stages) - 2 - current_stage_index]:
    every iteration that does not break raises the index by one, so the
    loop condition fails exactly when [remaining] is zero, and then the
    [else] clause appends the Closed Won entry. *)
Fixpoint stage_loop (self : SalesforceDataGenerator) (base_cycle : Z)
    (win_rate_modifier cycle_modifier : Q) (remaining : nat)
    (current_stage_index : nat) (current_date : datetime)
    (progression : list progression_entry) : R (list progression_entry) :=
  match remaining with
  | O =>
      ret (progression ++
           [{| entry_stage := Closed_Won; entry_date := current_date;
               days_in_stage := 0; conversion_probability := None;
               outcome := Some "Closed Won"%string |}])
  | S remaining' =>
      current_stage <-
        lift (list_get (stages self) current_stage_index) ;;
      '(stage_conversion, avg_stage_time) <-
        lift_result
          (stage_parameters self current_stage current_date base_cycle
             win_rate_modifier cycle_modifier) ;;
      x <- lift (np_random_exponential avg_stage_time) ;;
      let stage_days := Z.max 1 (py_int x) in
      let progression :=
        progression ++
        [{| entry_stage := current_stage; entry_date := current_date;
            days_in_stage := stage_days;
            conversion_probability := Some stage_conversion;
            outcome := None |}] in
      u <- lift random_random ;;
      if Qle_bool u stage_conversion then
        current_date <- add_days current_date stage_days ;;
        stage_loop self base_cycle win_rate_modifier cycle_modifier
          remaining' (current_stage_index + 1) current_date progression
      else
        closing_date <- add_days current_date stage_days ;;
        ret (progression ++
             [{| entry_stage := Closed_Lost; entry_date := closing_date;
                 days_in_stage := 0; conversion_probability := None;
                 outcome := Some "Closed Lost"%string |}])
  end.

Definition calculate_stage_progression (self : SalesforceDataGenerator)
    (t : tables) (segment_name product rep_name : string)
    (created_date : datetime) (region_name : string)
  : R (list progression_entry) :=
  segment_config <- getitem (segments t) segment_name ;;
  product_config <- getitem (products t) product ;;
  rep_config <- getitem (reps t) rep_name ;;
  let base_cycle := avg_cycle_days segment_config in
  let cycle_modifier :=
    cycle_modifier product_config * (2.0 - skill_multiplier rep_config) in
  let win_rate_modifier :=
    win_rate_modifier product_config * skill_multiplier rep_config in
  regional_mod <- getitem regional_modifiers region_name ;;
  let cycle_modifier := cycle_modifier * fst regional_mod in
  let win_rate_modifier :=
    win_rate_modifier * ((2.0 - snd regional_mod) / 1.0) in
  stage_loop self base_cycle win_rate_modifier cycle_modifier
    (List.length (stages self) - 2) 0 created_date [].

(** ** Opportunity state *)

(** The label number of a stage. *)
Definition stage_num (s : stage) : Z :=
  match s with
  | Lead_Qualification => 1 | Discovery => 2 | Proposal_Development => 3
  | Negotiation => 4 | Contract_Review => 5 | Closed_Lost => 6
  | Closed_Won => 7
  end.

(** The part of one iteration of [generate_opportunities] that reads the
    progression: current stage, close date, probability, expected revenue
    and days in the current stage. *)
Record opportunity_state : Type := {
  Stage : stage;
  Close_Date : datetime;
  Probability : Z;
  Expected_Revenue : Q;
  Days_In_Current_Stage : Z
}.

Definition opportunity_state_of (progression : list progression_entry)
    (amount : Z) : R opportunity_state :=
  match rev progression with
  | [] => raise (Builtin IndexError)
  | last_entry :: before =>
      let current_stage := entry_stage last_entry in
      let close_date := entry_date last_entry in
      let '(probability, expected_revenue) :=
        if stage_eqb current_stage Closed_Lost
           || stage_eqb current_stage Closed_Won then
          if stage_eqb current_stage Closed_Won
          then (100%Z, inject_Z amount)
          else (0%Z, inject_Z 0)
        else
          let probability :=
            Z.max 10 (100 - (stage_num current_stage - 1) * 15) in
          (probability,
           inject_Z amount * (inject_Z probability / inject_Z 100)) in
      ret {| Stage := current_stage;
             Close_Date := close_date;
             Probability := probability;
             Expected_Revenue := expected_revenue;
             Days_In_Current_Stage :=
               match before with
               | previous :: _ => days_in_stage previous
               | [] => 0%Z
               end |}
  end.

(** Progression and state of one opportunity, as one iteration of
    [generate_opportunities] chains them. *)
Definition progress_opportunity (self : SalesforceDataGenerator)
    (t : tables) (segment_name product rep_name : string)
    (created_date : datetime) (region_name : string) (amount : Z)
  : R (list progression_entry * opportunity_state) :=
  progression <- calculate_stage_progression self t segment_name product
                   rep_name created_date region_name ;;
  state <- opportunity_state_of progression amount ;;
  ret (progression, state).

Close Scope Q_scope.
Close Scope pipeline_scope.

End SalesforcePipeline.

(** * Vocabulary of the further statements *)

(** A random state whose first six outcome draws are zero, zero, zero,
    zero, zero and the largest uniform value. *)
Definition six_rates_state : rng_state :=
  {| py_tape := fun n => if (n =? 5)%nat then 2 ^ 53 - 1 else 0;
     py_pos := 0; np_tape := fun _ => 0%Q; np_pos := 0 |}.

(** The tables of [__init__] with a sixth Enterprise base conversion rate. *)
Definition six_rates : GlobalSalesDataGenerator :=
  {| segments := fun s =>
       {| amount_range := amount_range (segments init s);
          avg_cycle_days := avg_cycle_days (segments init s);
          win_rate := win_rate (segments init s);
          stage_conversion_rates :=
            stage_conversion_rates (segments init s) ++ [0.5%Q] |};
     competitive_segments := competitive_segments init;
     non_icp_segments := non_icp_segments init;
     base_competitive_rates := base_competitive_rates init;
     competitive_growth_rates := competitive_growth_rates init;
     base_icp_rates := base_icp_rates init;
     icp_decline_rates := icp_decline_rates init;
     competitors := competitors init |}.

(** The tables of [__init__] with every base conversion rate at 1.0. *)
Definition certain_rates : GlobalSalesDataGenerator :=
  {| segments := fun s =>
       {| amount_range := amount_range (segments init s);
          avg_cycle_days := avg_cycle_days (segments init s);
          win_rate := win_rate (segments init s);
          stage_conversion_rates := [1.0; 1.0; 1.0; 1.0; 1.0]%Q |};
     competitive_segments := competitive_segments init;
     non_icp_segments := non_icp_segments init;
     base_competitive_rates := base_competitive_rates init;
     competitive_growth_rates := competitive_growth_rates init;
     base_icp_rates := base_icp_rates init;
     icp_decline_rates := icp_decline_rates init;
     competitors := competitors init |}.

(** The cycle length [calculate_deal_progression] samples from a state. *)
Definition sampled_cycle (cfg : segment_config) (st : rng_state) : Z :=
  Z.max 20
    (py_int (inject_Z (avg_cycle_days cfg)
             + inject_Z (avg_cycle_days cfg) * 0.3
               * np_tape st (np_pos st))%Q).

(** The stage [calculate_deal_progression] reports for an open deal, as a
    function of its progress ratio. *)
Definition reported_open_stage (ct : config_type) (seg : segment)
    (is_competitive : bool) (progress_ratio : Q) : stage :=
  let below := Qltb progress_ratio in
  if config_type_eqb ct Non_ICP && segment_eqb seg Enterprise then
    if below 0.10%Q then Lead_Qualification
    else if below 0.60%Q then Discovery
    else if below 0.75%Q then Proposal
    else if below 0.90%Q then Negotiation
    else Contract_Review
  else if is_competitive then
    if below 0.10%Q then Lead_Qualification
    else if below 0.20%Q then Discovery
    else if below 0.25%Q then Proposal
    else if below 0.80%Q then Negotiation
    else Contract_Review
  else
    if below 0.15%Q then Lead_Qualification
    else if below 0.35%Q then Discovery
    else if below 0.55%Q then Proposal
    else if below 0.75%Q then Negotiation
    else Contract_Review.

(** Ten days after the current date. *)
Definition late_sep_2025 : datetime :=
  {| year := 2025; month := 9; day := 23 |}.
(** Each entry of a progression is dated at the previous entry's date plus
    the previous entry's days, the first one at [start]. *)
Fixpoint dates_chained (start : datetime)
    (progression : list SalesforcePipeline.progression_entry) : Prop :=
  match progression with
  | [] => True
  | e :: rest =>
      SalesforcePipeline.entry_date e = start /\
      dates_chained
        (fromordinal (toordinal start + SalesforcePipeline.days_in_stage e))
        rest
  end.

(** What every stage entry of a progression satisfies: at least one day in
    the stage, no outcome, and a conversion probability within
    [[0.1, 0.95]]. *)
Definition stage_entry_ok (e : SalesforcePipeline.progression_entry) : Prop :=
  1 <= SalesforcePipeline.days_in_stage e /\
  SalesforcePipeline.outcome e = None /\
  exists p, SalesforcePipeline.conversion_probability e = Some p /\
            (0.1 <= p)%Q /\ (p <= 0.95)%Q.

(** The two closing entries. *)
Definition closes_won (e : SalesforcePipeline.progression_entry) : Prop :=
  SalesforcePipeline.entry_stage e = Salesforce.Closed_Won /\
  SalesforcePipeline.outcome e = Some "Closed Won"%string /\
  SalesforcePipeline.days_in_stage e = 0 /\
  SalesforcePipeline.conversion_probability e = None.

Definition closes_lost (e : SalesforcePipeline.progression_entry) : Prop :=
  SalesforcePipeline.entry_stage e = Salesforce.Closed_Lost /\
  SalesforcePipeline.outcome e = Some "Closed Lost"%string /\
  SalesforcePipeline.days_in_stage e = 0 /\
  SalesforcePipeline.conversion_probability e = None.

(** The specialty stored for a rep is one of the given ones. *)
Definition has_specialty (t : SalesforcePipeline.tables)
    (options : list string) (name : string) : bool :=
  match SalesforcePipeline.lookup name (SalesforcePipeline.reps t) with
  | Some info =>
      existsb (String.eqb (SalesforcePipeline.specialty info)) options
  | None => false
  end.

(** The list [select_rep_for_account] draws from: the reps of the region,
    narrowed to the segment's specialties when that leaves anyone. *)
Definition specialized_or_all (t : SalesforcePipeline.tables)
    (options available : list string) : list string :=
  match filter (has_specialty t options) available with
  | [] => available
  | _ => filter (has_specialty t options) available
  end.

Definition preferred_reps (t : SalesforcePipeline.tables)
    (region_name segment_name : string) : list string :=
  let available := SalesforcePipeline.get_reps_for_region t region_name in
  if String.eqb segment_name "Enterprise" then
    specialized_or_all t ["enterprise"; "general"]%string available
  else if String.eqb segment_name "SMB" then
    specialized_or_all t ["smb"; "general"]%string available
  else available.

(** Tables on which the progression loop finds what it reads: a base
    conversion rate for every stage before the two closing ones, and
    non-negative cycle lengths, cycle modifiers and velocity impacts, with
    no skill multiplier above 2. *)
Definition pipeline_configured (self : Salesforce.SalesforceDataGenerator)
    (t : SalesforcePipeline.tables) : Prop :=
  (forall s,
      In s (firstn (List.length (Salesforce.stages self) - 2)
                   (Salesforce.stages self)) ->
      Salesforce.assoc s (Salesforce.base_conversion_rates self) <> None) /\
  Forall (fun item => (0 <= Salesforce.velocity_impact (snd item))%Q)
         (Salesforce.events self) /\
  Forall (fun item => 0 <= SalesforcePipeline.avg_cycle_days (snd item))
         (SalesforcePipeline.segments t) /\
  Forall (fun item => (0 <= SalesforcePipeline.cycle_modifier (snd item))%Q)
         (SalesforcePipeline.products t) /\
  Forall (fun item => (SalesforcePipeline.skill_multiplier (snd item) <= 2)%Q)
         (SalesforcePipeline.reps t).

(** A random state for the progression examples: every exponential deviate
    is 3/2; the first two uniform draws are zero and the third is the
    largest uniform value. *)
Definition progression_state : rng_state :=
  {| py_tape := fun n => if (n =? 2)%nat then 2 ^ 53 - 1 else 0;
     py_pos := 0; np_tape := fun _ => (3 # 2)%Q; np_pos := 0 |}.

Definition mar_2024 : datetime := {| year := 2024; month := 3; day := 11 |}.

(** * Properties *)

Lemma current_time_ordinal :
  current_time = toordinal {| year := 2025; month := 9; day := 13 |}.
Proof. vm_compute. reflexivity. Qed.

(** The proofs below treat the current date as a symbol. *)
Opaque current_time.

(** ** Configuration resolver *)

(** C6.  For every segment and pair of flags the resolver returns exactly
    one classification together with that classification's table, chosen by
    fixed priority: Non-ICP (Enterprise only) first, then Competitive, then
    Base. *)
Theorem get_deal_configuration_priority :
  forall (self : GlobalSalesDataGenerator) (seg : segment)
         (is_competitive is_icp : bool),
    let worst_case := seg = Enterprise /\ is_icp = false in
    let '(cfg, ct) := get_deal_configuration self seg is_competitive is_icp in
    (ct = Non_ICP <-> worst_case) /\
    (ct = Competitive <-> ~ worst_case /\ is_competitive = true) /\
    (ct = Base <-> ~ worst_case /\ is_competitive = false) /\
    cfg = match ct with
          | Non_ICP => non_icp_segments self seg
          | Competitive => competitive_segments self seg
          | Base => segments self seg
          end.
Proof.
  intros self seg is_competitive is_icp.
  unfold get_deal_configuration.
  destruct seg, is_icp, is_competitive; cbn;
    repeat split; intros; try discriminate; try tauto;
    try (intros [? ?]; discriminate);
    match goal with
    | H : _ /\ _ |- _ => destruct H; try discriminate; tauto
    end.
Qed.

(** ** Trend functions *)

Lemma Qltb_true (a b : Q) : Qltb a b = true <-> (a < b)%Q.
Proof.
  unfold Qltb. rewrite negb_true_iff.
  destruct (Qle_bool b a) eqn:E.
  - apply Qle_bool_iff in E. split; [discriminate|].
    intros H. exfalso. exact (Qlt_not_le _ _ H E).
  - split; [intros _|reflexivity].
    apply Qnot_le_lt. intros H. apply Qle_bool_iff in H. congruence.
Qed.

Lemma Qltb_false (a b : Q) : Qltb a b = false <-> (b <= a)%Q.
Proof.
  unfold Qltb. rewrite negb_false_iff. apply Qle_bool_iff.
Qed.

Lemma py_min_le_mono (x y c : Q) :
  (x <= y)%Q -> (py_min x c <= py_min y c)%Q.
Proof.
  intros Hxy. unfold py_min.
  destruct (Qltb c x) eqn:Ex, (Qltb c y) eqn:Ey.
  - apply Qle_refl.
  - apply Qltb_false in Ey. apply Qltb_true in Ex.
    exfalso. apply (Qlt_not_le _ _ Ex). eapply Qle_trans; eassumption.
  - apply Qltb_true in Ey. apply Qltb_false in Ex. exact Ex.
  - exact Hxy.
Qed.

Lemma py_min_below (x c : Q) : (x <= c)%Q -> (py_min x c == x)%Q.
Proof.
  intros H. unfold py_min. destruct (Qltb c x) eqn:E.
  - apply Qltb_true in E. exfalso. exact (Qlt_not_le _ _ E H).
  - reflexivity.
Qed.

Lemma py_min_above (x c : Q) : (c <= x)%Q -> (py_min x c == c)%Q.
Proof.
  intros H. unfold py_min. destruct (Qltb c x) eqn:E.
  - reflexivity.
  - apply Qltb_false in E. apply Qle_antisym; assumption.
Qed.

Lemma py_min_cases (x c : Q) :
  (py_min x c == x /\ x <= c)%Q \/ (py_min x c == c /\ c <= x)%Q.
Proof.
  unfold py_min. destruct (Qltb c x) eqn:E.
  - right. split; [reflexivity|]. apply Qltb_true in E. apply Qlt_le_weak, E.
  - left. split; [reflexivity|]. apply Qltb_false in E. exact E.
Qed.

(** Later valid dates have at least as many elapsed months. *)
Lemma months_elapsed_mono (d1 d2 : datetime) :
  valid_datetime d1 = true -> valid_datetime d2 = true ->
  datetime_lt d1 d2 = true ->
  months_elapsed d1 <= months_elapsed d2.
Proof.
  unfold valid_datetime, datetime_lt, months_elapsed. cbn.
  intros V1 V2 H.
  repeat rewrite andb_true_iff in V1. repeat rewrite andb_true_iff in V2.
  repeat rewrite Z.leb_le in *.
  rewrite orb_true_iff, andb_true_iff, orb_true_iff, andb_true_iff in H.
  repeat rewrite Z.ltb_lt in H. repeat rewrite Z.eqb_eq in H.
  lia.
Qed.

(** C7.  With the tables of [__init__] and two valid dates
    [date1 < date2]: the competitive-pressure rate at [date2] is at least
    the rate at [date1].  The rate of a date is [min(trend, cap)] for the
    linear trend [base + growth * months], where [months] counts whole
    calendar months since January 2023,
    [(year - 2023) * 12 + month - 1]: it is the trend while the trend is
    within the segment's cap and the cap from the month the trend reaches
    it.  Below the cap the rate rises strictly from one calendar month to a
    later one; once the trend has reached the cap the rate stays at the
    cap.
    (The epoch plays no role: the statement holds for every pair of valid
    dates.) *)
Theorem calculate_competitive_rate_monotone :
  forall (seg : segment) (date1 date2 : datetime),
    valid_datetime date1 = true -> valid_datetime date2 = true ->
    datetime_lt date1 date2 = true ->
    let rate := calculate_competitive_rate init seg in
    let months d := (year d - 2023) * 12 + month d - 1 in
    let growth := competitive_growth_rates init seg in
    let trend d :=
      (base_competitive_rates init seg + growth * inject_Z (months d))%Q in
    (rate date1 <= rate date2)%Q /\
    months date1 <= months date2 /\
    (forall d,
        ((trend d <= max_rates seg)%Q -> (rate d == trend d)%Q) /\
        ((max_rates seg <= trend d)%Q -> (rate d == max_rates seg)%Q)) /\
    ((trend date2 <= max_rates seg)%Q ->
     (rate date1 == trend date1)%Q /\ (rate date2 == trend date2)%Q) /\
    ((max_rates seg <= trend date1)%Q ->
     (rate date1 == max_rates seg)%Q /\ (rate date2 == max_rates seg)%Q) /\
    (months date1 < months date2 -> (rate date1 < max_rates seg)%Q ->
     (rate date1 < rate date2)%Q).
Proof.
  intros seg date1 date2 V1 V2 Hlt rate months growth trend.
  assert (Hm : months date1 <= months date2)
    by exact (months_elapsed_mono date1 date2 V1 V2 Hlt).
  assert (Hrate : forall d, rate d = py_min (trend d) (max_rates seg))
    by reflexivity.
  assert (Hg : (0 < growth)%Q) by (destruct seg; reflexivity).
  assert (Htrend : (trend date1 <= trend date2)%Q).
  { subst trend. cbv beta. apply Qplus_le_r.
    rewrite (Qmult_comm growth (inject_Z (months date1))).
    rewrite (Qmult_comm growth (inject_Z (months date2))).
    apply Qmult_le_compat_r; [|apply Qlt_le_weak; exact Hg].
    rewrite <- Zle_Qle. exact Hm. }
  assert (Hstrict : months date1 < months date2 ->
                    (trend date1 < trend date2)%Q).
  { intros Hlater. subst trend. cbv beta.
    apply Qplus_lt_r.
    rewrite (Qmult_comm growth (inject_Z (months date1))).
    rewrite (Qmult_comm growth (inject_Z (months date2))).
    apply Qmult_lt_compat_r; [exact Hg|].
    rewrite <- Zlt_Qlt. exact Hlater. }
  split; [rewrite !Hrate; apply py_min_le_mono; exact Htrend|].
  split; [exact Hm|]. split; [|split; [|split]].
  - intros d. rewrite Hrate. split; [apply py_min_below|apply py_min_above].
  - intros Hcap. rewrite !Hrate.
    split; apply py_min_below; [|exact Hcap].
    eapply Qle_trans; eassumption.
  - intros Hcap. rewrite !Hrate.
    split; apply py_min_above; [exact Hcap|].
    eapply Qle_trans; eassumption.
  - intros Hlater Hbelow. specialize (Hstrict Hlater).
    rewrite Hrate in Hbelow. rewrite !Hrate.
    destruct (py_min_cases (trend date1) (max_rates seg)) as [[E1 L1]|[E1 L1]];
      destruct (py_min_cases (trend date2) (max_rates seg))
        as [[E2 L2]|[E2 L2]];
      rewrite E1 in Hbelow |- *; rewrite E2.
    + exact Hstrict.
    + exact Hbelow.
    + exfalso. exact (Qlt_irrefl _ Hbelow).
    + exfalso. exact (Qlt_irrefl _ Hbelow).
Qed.

Lemma calculate_competitive_rate_monotone_witness :
  let d1 := {| year := 2023; month := 11; day := 20 |} in
  let d2 := {| year := 2024; month := 2; day := 3 |} in
  let d3 := {| year := 2026; month := 5; day := 1 |} in
  (calculate_competitive_rate init Mid_Market d1
   == 0.20 + 0.020 * inject_Z 10)%Q /\
  (calculate_competitive_rate init Mid_Market d2
   == 0.20 + 0.020 * inject_Z 13)%Q /\
  (calculate_competitive_rate init Mid_Market d1
   < calculate_competitive_rate init Mid_Market d2)%Q /\
  (calculate_competitive_rate init Mid_Market d3 == 0.70)%Q.
Proof.
  intros d1 d2 d3.
  destruct (calculate_competitive_rate_monotone Mid_Market d1 d2
              eq_refl eq_refl eq_refl)
    as (_ & _ & Hpoint & _ & _ & Hstrict).
  split; [|split; [|split]].
  - eapply Qeq_trans; [apply (proj1 (Hpoint d1))|]; reflexivity ||
      (intros H; discriminate H).
  - eapply Qeq_trans; [apply (proj1 (Hpoint d2))|]; reflexivity ||
      (intros H; discriminate H).
  - apply Hstrict; reflexivity.
  - eapply Qeq_trans; [apply (proj2 (Hpoint d3))|]; reflexivity ||
      (intros H; discriminate H).
Defined.

(** ** Outcome simulator *)

Lemma py_advance_0 (st : rng_state) : py_advance 0 st = st.
Proof. destruct st. unfold py_advance. cbn. rewrite Nat.add_0_r. reflexivity. Qed.

Lemma py_advance_add (a b : nat) (st : rng_state) :
  py_advance a (py_advance b st) = py_advance (b + a) st.
Proof. unfold py_advance. cbn. rewrite Nat.add_assoc. reflexivity. Qed.

Lemma draw_advance (st : rng_state) (n k : nat) :
  draw (py_advance n st) k = draw st (n + k).
Proof. unfold draw, py_advance. cbn. rewrite Nat.add_assoc. reflexivity. Qed.

Lemma random_random_run (st : rng_state) :
  random_random st = inr (draw st 0, py_advance 1 st).
Proof. unfold random_random, bind, py_next, ret, draw. rewrite Nat.add_0_r. reflexivity. Qed.

(** The walk stops at the first step whose draw is not below its rate. *)
Lemma outcome_loop_lost (rates : list Q) :
  forall (n k : nat) (rate : Q) (s : stage) (st : rng_state),
    nth_error rates k = Some rate ->
    nth_error stage_names (n + k) = Some s ->
    (forall j r, (j < k)%nat -> nth_error rates j = Some r ->
                 Qltb (draw st j) r = true) ->
    Qltb (draw st k) rate = false ->
    outcome_loop (combine (seq n (List.length rates)) rates) n st
    = inr ((Closed_Lost, s), py_advance (k + 1) st).
Proof.
  induction rates as [|r0 rates IH]; intros n k rate s st Hk Hs Hbelow Hfail.
  - destruct k; discriminate.
  - cbn [List.length seq combine outcome_loop]. unfold bind at 1.
    rewrite random_random_run.
    destruct k as [|k].
    + cbn in Hk. injection Hk as ->. rewrite Hfail.
      rewrite Nat.add_0_r in Hs.
      unfold bind, list_get. rewrite Hs. reflexivity.
    + rewrite (Hbelow 0%nat r0 (Nat.lt_0_succ k) eq_refl).
      replace (n + 1)%nat with (S n) by lia.
      rewrite (IH (S n) k rate s (py_advance 1 st)).
      * rewrite py_advance_add. reflexivity.
      * exact Hk.
      * replace (S n + k)%nat with (n + S k)%nat by lia. exact Hs.
      * intros j r Hj Hr. rewrite draw_advance.
        apply (Hbelow (S j) r); [lia|exact Hr].
      * rewrite draw_advance. exact Hfail.
Qed.

(** If every draw is below its rate the walk ends in a win. *)
Lemma outcome_loop_won (rates : list Q) :
  forall (n : nat) (st : rng_state),
    (forall j r, nth_error rates j = Some r -> Qltb (draw st j) r = true) ->
    outcome_loop (combine (seq n (List.length rates)) rates) n st
    = inr ((Closed_Won, Contract_Review), py_advance (List.length rates) st).
Proof.
  induction rates as [|r0 rates IH]; intros n st Hbelow.
  - cbn. rewrite py_advance_0. reflexivity.
  - cbn [List.length seq combine outcome_loop]. unfold bind at 1.
    rewrite random_random_run.
    rewrite (Hbelow 0%nat r0 eq_refl).
    replace (n + 1)%nat with (S n) by lia.
    rewrite (IH (S n) (py_advance 1 st)).
    + rewrite py_advance_add. reflexivity.
    + intros j r Hr. rewrite draw_advance. apply (Hbelow (S j) r Hr).
Qed.

(** C1.  The simulator walks the conversion rates of the deal's
    configuration in order and draws one uniform value per step.  If the
    draws of steps [0 .. k-1] are below their rates and the draw of step [k]
    is not, it returns Closed Lost with the [k]-th stage name as the highest
    stage reached, having consumed [k + 1] draws; if every draw is below its
    rate it returns Closed Won with "5 - Contract Review", having consumed
    one draw per rate. *)
Theorem determine_deal_outcome_walk :
  forall (self : GlobalSalesDataGenerator) (seg : segment)
         (is_competitive is_icp : bool) (st : rng_state),
    let rates :=
      stage_conversion_rates
        (fst (get_deal_configuration self seg is_competitive is_icp)) in
    let run :=
      determine_deal_outcome_and_highest_stage self seg is_competitive is_icp
        st in
    (forall (k : nat) (rate : Q) (s : stage),
        nth_error rates k = Some rate ->
        nth_error stage_names k = Some s ->
        (forall j r, (j < k)%nat -> nth_error rates j = Some r ->
                     Qltb (draw st j) r = true) ->
        Qltb (draw st k) rate = false ->
        run = inr ((Closed_Lost, s), py_advance (k + 1) st)) /\
    ((forall j r, nth_error rates j = Some r -> Qltb (draw st j) r = true) ->
     run = inr ((Closed_Won, Contract_Review),
                py_advance (List.length rates) st)).
Proof.
  intros self seg is_competitive is_icp st rates run.
  subst rates run. unfold determine_deal_outcome_and_highest_stage.
  destruct (get_deal_configuration self seg is_competitive is_icp)
    as [cfg ct]. cbn [fst]. unfold enumerate.
  split.
  - intros k rate s Hk Hs Hbelow Hfail.
    apply (outcome_loop_lost _ 0%nat k rate s st Hk Hs Hbelow Hfail).
  - intros Hbelow. apply outcome_loop_won. exact Hbelow.
Qed.

Lemma determine_deal_outcome_walk_witness :
  determine_deal_outcome_and_highest_stage init Enterprise false true
    walk_state
  = inr ((Closed_Lost, Discovery), py_advance 2 walk_state)
  /\ determine_deal_outcome_and_highest_stage init Enterprise false true
       (py_advance 2 walk_state)
     = inr ((Closed_Won, Contract_Review),
            py_advance 5 (py_advance 2 walk_state)).
Proof.
  split.
  - apply (proj1 (determine_deal_outcome_walk init Enterprise false true
                    walk_state) 1%nat (0.70)%Q Discovery).
    + reflexivity.
    + reflexivity.
    + intros [|j] r Hj Hr.
      * cbn in Hr. injection Hr as <-. reflexivity.
      * exfalso. apply (Nat.nlt_0_r j). apply Nat.succ_lt_mono. exact Hj.
    + reflexivity.
  - apply (proj2 (determine_deal_outcome_walk init Enterprise false true
                    (py_advance 2 walk_state))).
    intros j r Hr.
    do 5 (destruct j as [|j];
          [cbn in Hr; injection Hr as <-; reflexivity|]).
    destruct j; discriminate Hr.
Defined.

(** ** Timeline builder *)

Lemma py_int_nonneg (q : Q) : (0 <= q)%Q -> 0 <= py_int q.
Proof.
  intros H. unfold py_int. apply Z.quot_pos; [|reflexivity].
  unfold Qle in H. cbn in H. lia.
Qed.

Lemma py_int_inject_Z (z : Z) : py_int (inject_Z z) = z.
Proof. unfold py_int. cbn. apply Z.quot_1_r. Qed.

(** [random.randint(-b, b)] returns an integer of that range and consumes
    one draw. *)
Lemma random_randint_sym_run (b : Z) (st : rng_state) :
  0 <= b ->
  exists j, - b <= j <= b /\
            random_randint (- b) b st = inr (j, py_advance 1 st).
Proof.
  intros Hb. unfold random_randint.
  destruct (b <? - b) eqn:E; [apply Z.ltb_lt in E; lia|].
  exists (- b + py_tape st (py_pos st) mod (b - - b + 1)). split.
  - pose proof (Z.mod_pos_bound (py_tape st (py_pos st)) (b - - b + 1)).
    lia.
  - reflexivity.
Qed.

(** The jitter block succeeds on a cycle of non-negative length and yields
    a date at least one day after the created date. *)
Lemma add_randomness_run (created_date total_cycle_days : Z)
    (stage_pct prev_stage_pct : Q) (entry : Z) (st : rng_state) :
  0 <= total_cycle_days ->
  (prev_stage_pct <= stage_pct)%Q ->
  exists e, created_date + 1 <= e /\
            add_randomness created_date total_cycle_days stage_pct
              prev_stage_pct entry st = inr (e, py_advance 1 st).
Proof.
  intros HT Hpct. unfold add_randomness.
  set (dur := py_int (inject_Z total_cycle_days * (stage_pct - prev_stage_pct))).
  assert (Hdur : 0 <= dur).
  { apply py_int_nonneg. apply Qmult_le_0_compat.
    - change 0%Q with (inject_Z 0). rewrite <- Zle_Qle. exact HT.
    - apply -> Qle_minus_iff. exact Hpct. }
  assert (Hb : 0 <= py_int (inject_Z dur * 0.2)).
  { apply py_int_nonneg. apply Qmult_le_0_compat.
    - change 0%Q with (inject_Z 0). rewrite <- Zle_Qle. exact Hdur.
    - apply Qle_bool_iff. reflexivity. }
  destruct (random_randint_sym_run _ st Hb) as (j & _ & Hrun).
  unfold bind. rewrite Hrun.
  eexists. split; [|reflexivity]. lia.
Qed.

Arguments add_randomness : simpl never.
Arguments py_int : simpl never.

(** Runs the next jitter block of the goal, or splits on the next test of a
    stage fraction against the progress ratio. *)
Ltac run_monad :=
  repeat (progress (cbn;
                    cbv beta iota delta
                      [bind ret raise dict_get list_get list_index])).

Ltac timeline_step HT :=
  run_monad;
  match goal with
  | |- context [add_randomness ?c ?T ?p ?q ?e ?st] =>
      let e' := fresh "e" in
      let He := fresh "He" in
      let Hrun := fresh "Hrun" in
      destruct (add_randomness_run c T p q e st HT
                  ltac:(apply Qle_bool_iff; reflexivity))
        as (e' & He & Hrun);
      rewrite Hrun; clear Hrun
  | |- context [Qle_bool ?a ?b] => destruct (Qle_bool a b)
  end.

Lemma lost_stage_dates_run (ct : config_type) (seg : segment)
    (is_competitive : bool) (created_date expected_close_date : Z)
    (highest : stage) (st : rng_state) :
  created_date <= expected_close_date ->
  In highest stage_names ->
  exists sd st' o2 o3 o4 o5,
    lost_stage_dates (stage_progression ct seg is_competitive) created_date
      expected_close_date (expected_close_date - created_date) highest
      (stage_dates0 created_date) st = inr (sd, st') /\
    timeline sd created_date o2 o3 o4 o5 (Some expected_close_date) None /\
    after_created created_date o2 /\ after_created created_date o3 /\
    after_created created_date o4 /\ after_created created_date o5 /\
    (stage_num highest < 2 -> o2 = None) /\
    (stage_num highest < 3 -> o3 = None) /\
    (stage_num highest < 4 -> o4 = None) /\
    (stage_num highest < 5 -> o5 = None).
Proof.
  intros Hle Hin.
  assert (HT : 0 <= expected_close_date - created_date) by lia.
  generalize dependent (expected_close_date - created_date). intros T HT.
  unfold lost_stage_dates, stage_dates0.
  assert (Htab : exists tab, stage_progression ct seg is_competitive = tab /\
    In tab [stage_progression Non_ICP Enterprise false; stage_progression Competitive SMB true; stage_progression Base SMB false]).
  { eexists. split; [reflexivity|].
    destruct ct, seg, is_competitive; cbn; tauto. }
  destruct Htab as (tab & -> & Htab).
  cbn in Hin.
  destruct Htab as [<-|[<-|[<-|[]]]];
    destruct Hin as [<-|[<-|[<-|[<-|[<-|[]]]]]];
    repeat timeline_step HT; run_monad;
    do 6 eexists; (split; [reflexivity|]);
    unfold timeline; cbn; repeat split; try reflexivity; try assumption; try lia.
Qed.

Lemma stage_progression_cases (ct : config_type) (seg : segment)
    (is_competitive : bool) :
  In (stage_progression ct seg is_competitive)
     [stage_progression Non_ICP Enterprise false;
      stage_progression Competitive SMB true;
      stage_progression Base SMB false].
Proof. destruct ct, seg, is_competitive; cbn; tauto. Qed.

Lemma won_entry_dates_run (ct : config_type) (seg : segment)
    (is_competitive : bool) (created_date expected_close_date : Z)
    (st : rng_state) :
  created_date <= expected_close_date ->
  exists sd st' e2 e3 e4 e5,
    won_entry_dates (stage_progression ct seg is_competitive) created_date
      expected_close_date (expected_close_date - created_date)
      (stage_progression ct seg is_competitive)
      (stage_dates0 created_date) st = inr (sd, st') /\
    timeline sd created_date (Some e2) (Some e3) (Some e4) (Some e5)
      None (Some expected_close_date) /\
    created_date + 1 <= e2 /\ created_date + 1 <= e3 /\
    created_date + 1 <= e4 /\ created_date + 1 <= e5.
Proof.
  intros Hle.
  assert (HT : 0 <= expected_close_date - created_date) by lia.
  generalize dependent (expected_close_date - created_date). intros T HT.
  unfold stage_dates0.
  pose proof (stage_progression_cases ct seg is_competitive) as Htab.
  destruct Htab as [<-|[<-|[<-|[]]]];
    repeat timeline_step HT; run_monad;
    do 6 eexists; (split; [reflexivity|]);
    unfold timeline; cbn; repeat split; assumption.
Qed.

Lemma open_stage_dates_run (ct : config_type) (seg : segment)
    (is_competitive : bool) (created_date expected_close_date : Z)
    (st : rng_state) :
  created_date < expected_close_date ->
  exists sd st' o2 o3 o4 o5,
    open_stage_dates (stage_progression ct seg is_competitive) created_date
      (expected_close_date - created_date) (stage_dates0 created_date) st
    = inr (sd, st') /\
    timeline sd created_date o2 o3 o4 o5 None None /\
    after_created created_date o2 /\ after_created created_date o3 /\
    after_created created_date o4 /\ after_created created_date o5.
Proof.
  intros Hlt. unfold open_stage_dates.
  destruct (expected_close_date - created_date =? 0) eqn:E;
    [apply Z.eqb_eq in E; lia|clear E].
  assert (HT : 0 <= expected_close_date - created_date) by lia.
  generalize dependent (expected_close_date - created_date). intros T HT.
  generalize (py_min 0.9 (inject_Z (current_time - created_date) / inject_Z T)).
  intros progress_ratio.
  unfold stage_dates0.
  pose proof (stage_progression_cases ct seg is_competitive) as Htab.
  destruct Htab as [<-|[<-|[<-|[]]]];
    repeat timeline_step HT; run_monad;
    do 6 eexists; (split; [reflexivity|]);
    unfold timeline, after_created; cbn; repeat split; assumption.
Qed.

(** The days calculation reads the stage dates only. *)
Lemma next_stage_date_of_ext (sd sd' : dict) (later : list stage) :
  (forall s, sd (Stage_Date s) = sd' (Stage_Date s)) ->
  next_stage_date_of sd later = next_stage_date_of sd' later.
Proof.
  intros Hext. induction later as [|s later IH]; [reflexivity|].
  cbn. rewrite Hext, IH. reflexivity.
Qed.

Lemma days_loop_ext (sd sd' : dict) (final_stage : stage)
    (expected_close_date : Z) (stages : list stage) :
  (forall s, sd (Stage_Date s) = sd' (Stage_Date s)) ->
  forall days_in_stage,
    days_loop sd final_stage expected_close_date stages days_in_stage
    = days_loop sd' final_stage expected_close_date stages days_in_stage.
Proof.
  intros Hext. induction stages as [|s later IH]; intros dis; [reflexivity|].
  cbn [days_loop]. unfold days_in_current_stage.
  rewrite Hext, (next_stage_date_of_ext sd sd' later Hext). apply IH.
Qed.

Lemma timeline_ext (sd : dict) (created_date : Z)
    (o2 o3 o4 o5 t6 t7 : option Z) :
  timeline sd created_date o2 o3 o4 o5 t6 t7 ->
  forall s, sd (Stage_Date s)
            = dict_of_timeline created_date o2 o3 o4 o5 t6 t7 (Stage_Date s).
Proof.
  intros (H1 & H2 & H3 & H4 & H5 & H6 & H7) s. destruct s; assumption.
Qed.

(** Conservation: whenever the first stage is dated at the created date
    and the last dated stage at the close date, the days of a closed deal
    add up to the length of the cycle, whatever the dates in between. *)
Lemma total_days_closed (sd : dict) (final_stage : stage)
    (created_date expected_close_date : Z) (o2 o3 o4 o5 t6 t7 : option Z) :
  is_closed final_stage = true ->
  timeline sd created_date o2 o3 o4 o5 t6 t7 ->
  (t7 = Some expected_close_date \/
   (t7 = None /\ t6 = Some expected_close_date)) ->
  total_days_in_stage (with_days sd final_stage expected_close_date)
  = expected_close_date - created_date.
Proof.
  intros Hclosed Htl Hlast.
  unfold total_days_in_stage, with_days, days_value, update.
  rewrite (days_loop_ext sd _ _ _ _ (timeline_ext _ _ _ _ _ _ _ _ Htl)).
  destruct Hlast as [-> | [-> ->]];
    destruct o2, o3, o4, o5; try destruct t6;
    cbn; rewrite ?Hclosed; lia.
Qed.

Lemma calculate_stage_progression_lost (self : GlobalSalesDataGenerator)
    (seg : segment) (created_date expected_close_date : Z) (highest : stage)
    (is_competitive is_icp : bool) (st : rng_state) :
  created_date <= expected_close_date ->
  In highest stage_names ->
  exists sd st',
    calculate_stage_progression self seg created_date expected_close_date
      Closed_Lost (Some highest) is_competitive is_icp st
    = inr (with_days sd Closed_Lost expected_close_date, st') /\
    lost_timeline sd created_date expected_close_date highest.
Proof.
  intros Hle Hin. unfold calculate_stage_progression.
  destruct (get_deal_configuration self seg is_competitive is_icp) as [cfg ct].
  destruct (lost_stage_dates_run ct seg is_competitive created_date
              expected_close_date highest st Hle Hin)
    as (sd & st' & o2 & o3 & o4 & o5 & Hrun & Htl).
  exists sd, st'. split.
  - cbn [stage_eqb stage_num Z.eqb Pos.eqb]. unfold bind.
    fold (stage_dates0 created_date). rewrite Hrun. reflexivity.
  - exists o2, o3, o4, o5. exact Htl.
Qed.

Lemma calculate_stage_progression_won (self : GlobalSalesDataGenerator)
    (seg : segment) (created_date expected_close_date : Z)
    (highest : option stage) (is_competitive is_icp : bool)
    (st : rng_state) :
  created_date <= expected_close_date ->
  exists sd st',
    calculate_stage_progression self seg created_date expected_close_date
      Closed_Won highest is_competitive is_icp st
    = inr (with_days sd Closed_Won expected_close_date, st') /\
    won_timeline sd created_date expected_close_date.
Proof.
  intros Hle. unfold calculate_stage_progression.
  destruct (get_deal_configuration self seg is_competitive is_icp) as [cfg ct].
  destruct (won_entry_dates_run ct seg is_competitive created_date
              expected_close_date st Hle)
    as (sd & st' & e2 & e3 & e4 & e5 & Hrun & Htl).
  exists sd, st'. split.
  - cbn [stage_eqb stage_num Z.eqb Pos.eqb]. unfold bind.
    fold (stage_dates0 created_date). rewrite Hrun. reflexivity.
  - exists e2, e3, e4, e5. exact Htl.
Qed.

Lemma calculate_stage_progression_open (self : GlobalSalesDataGenerator)
    (seg : segment) (created_date expected_close_date : Z)
    (stage_name : stage) (is_competitive is_icp : bool) (st : rng_state) :
  created_date < expected_close_date ->
  In stage_name stage_names ->
  exists sd st',
    calculate_stage_progression self seg created_date expected_close_date
      stage_name None is_competitive is_icp st
    = inr (with_days sd stage_name expected_close_date, st') /\
    open_timeline sd created_date.
Proof.
  intros Hlt Hin. unfold calculate_stage_progression.
  destruct (get_deal_configuration self seg is_competitive is_icp) as [cfg ct].
  destruct (open_stage_dates_run ct seg is_competitive created_date
              expected_close_date st Hlt)
    as (sd & st' & o2 & o3 & o4 & o5 & Hrun & Htl).
  exists sd, st'. split.
  - assert (Hs : stage_eqb stage_name Closed_Lost = false /\
                 stage_eqb stage_name Closed_Won = false).
    { cbn in Hin. destruct Hin as [<-|[<-|[<-|[<-|[<-|[]]]]]]; split; reflexivity. }
    destruct Hs as [-> ->]. unfold bind.
    fold (stage_dates0 created_date). rewrite Hrun. reflexivity.
  - exists o2, o3, o4, o5. exact Htl.
Qed.

(** ** Deal progression *)

Lemma outcome_loop_result (items : list (nat * Q)) :
  forall (idx : nat) (st st' : rng_state) (r : stage * stage),
    outcome_loop items idx st = inr (r, st') ->
    r = (Closed_Won, Contract_Review) \/
    exists h, In h stage_names /\ r = (Closed_Lost, h).
Proof.
  induction items as [|[i rate] items IH]; intros idx st st' r Hrun.
  - cbn in Hrun. injection Hrun as <- _. left. reflexivity.
  - cbn [outcome_loop] in Hrun. unfold bind at 1 in Hrun.
    rewrite random_random_run in Hrun.
    destruct (Qltb (draw st 0) rate).
    + exact (IH _ _ _ _ Hrun).
    + unfold bind, list_get in Hrun.
      destruct (nth_error stage_names idx) as [h|] eqn:E; [|discriminate].
      injection Hrun as <- _. right. exists h. split; [|reflexivity].
      exact (nth_error_In _ _ E).
Qed.

(** What [calculate_deal_progression] returns: a close date at least 20
    days after the created date; an outcome when that date has passed, and
    one of the five pipeline stages otherwise. *)
Lemma calculate_deal_progression_result (self : GlobalSalesDataGenerator)
    (seg : segment) (created_date : Z) (is_competitive is_icp : bool)
    (st st' : rng_state) (r : stage * Z * option stage) :
  calculate_deal_progression self seg created_date is_competitive is_icp st
  = inr (r, st') ->
  exists close_date,
    created_date + 20 <= close_date /\
    ((close_date <= current_time /\
      (r = (Closed_Won, close_date, Some Contract_Review) \/
       exists h, In h stage_names /\ r = (Closed_Lost, close_date, Some h)))
     \/
     (current_time < close_date /\
      exists s, In s stage_names /\ r = (s, close_date, None))).
Proof.
  unfold calculate_deal_progression.
  destruct (get_deal_configuration self seg is_competitive is_icp)
    as [cfg ct] eqn:Ecfg.
  unfold bind at 1, np_random_normal, bind at 1, np_next, ret at 1.
  set (actual_cycle := Z.max 20 _).
  assert (Hcycle : 20 <= actual_cycle) by (subst actual_cycle; lia).
  generalize dependent actual_cycle. intros actual_cycle Hcycle Hrun.
  exists (created_date + actual_cycle). split; [lia|].
  destruct (created_date + actual_cycle <=? current_time) eqn:E.
  - apply Z.leb_le in E. left. split; [exact E|].
    unfold bind, determine_deal_outcome_and_highest_stage in Hrun.
    rewrite Ecfg in Hrun.
    destruct (outcome_loop _ _ _) as [e|[[final highest] st1]] eqn:Eout;
      [discriminate|].
    injection Hrun as <- _.
    destruct (outcome_loop_result _ _ _ _ _ Eout) as [H|(h & Hin & H)];
      injection H as -> ->.
    + left. reflexivity.
    + right. exists h. split; [exact Hin|reflexivity].
  - apply Z.leb_gt in E. right. split; [exact E|].
    cbn [stage_names In].
    repeat match type of Hrun with
           | context [if ?c then _ else _] => destruct c
           end;
      injection Hrun as <- _; eexists; (split; [|reflexivity]); tauto.
Qed.

(** ** Deal assembler *)

Lemma bind_inr_inv {A B : Type} (m : M A) (k : A -> M B)
    (st st' : rng_state) (b : B) :
  bind m k st = inr (b, st') ->
  exists a st1, m st = inr (a, st1) /\ k a st1 = inr (b, st').
Proof.
  unfold bind. destruct (m st) as [e|[a st1]]; [discriminate|].
  intros H. exists a, st1. split; [reflexivity|exact H].
Qed.

Lemma ret_inr_inv {A : Type} (a a' : A) (st st' : rng_state) :
  ret a st = inr (a', st') -> a' = a.
Proof. unfold ret. intros H. injection H as -> _. reflexivity. Qed.

Lemma days_loop_stage_date (sd : dict) (final_stage : stage)
    (expected_close_date : Z) (stages : list stage) (s : stage) :
  forall days_in_stage,
    days_loop sd final_stage expected_close_date stages days_in_stage
      (Stage_Date s)
    = days_in_stage (Stage_Date s).
Proof.
  induction stages as [|s0 later IH]; intros dis; [reflexivity|].
  cbn [days_loop]. rewrite IH. reflexivity.
Qed.

(** The date fields of the result are the stage dates. *)
Lemma with_days_stage_date (sd : dict) (final_stage : stage)
    (expected_close_date : Z) (s : stage) :
  with_days sd final_stage expected_close_date (Stage_Date s)
  = sd (Stage_Date s).
Proof.
  unfold with_days, update. rewrite days_loop_stage_date. reflexivity.
Qed.

Lemma stage_probs_range (ct : config_type) (seg : segment)
    (is_competitive : bool) (s : stage) (p : Z) :
  assoc s (stage_probs ct seg is_competitive) = Some p -> 0 < p < 100.
Proof.
  destruct ct, seg, is_competitive, s; cbn; intros H;
    try discriminate; injection H as <-; lia.
Qed.

(** Everything the assembler guarantees about a record it returns. *)
Lemma generate_opportunity_inv (self : GlobalSalesDataGenerator)
    (seg : segment) (created_date : Z) (is_competitive is_icp : bool)
    (amount : Z) (st st' : rng_state) (r : opportunity) :
  generate_opportunity self seg created_date is_competitive is_icp amount st
  = inr (r, st') ->
  Amount r = amount /\ Created_Date r = created_date /\
  Age_Days r = current_time - created_date /\
  created_date + 20 <= Close_Date r /\
  exists sd,
    stage_data r = with_days sd (Stage r) (Close_Date r) /\
    ((Stage r = Closed_Won /\ Close_Date r <= current_time /\
      Probability_Percent r = 100 /\ Expected_Revenue r = amount /\
      Highest_Stage_Reached r = None /\
      won_timeline sd created_date (Close_Date r))
     \/
     (Stage r = Closed_Lost /\ Close_Date r <= current_time /\
      Probability_Percent r = 0 /\ Expected_Revenue r = 0 /\
      exists h, In h stage_names /\ Highest_Stage_Reached r = Some h /\
                lost_timeline sd created_date (Close_Date r) h)
     \/
     (In (Stage r) stage_names /\ current_time < Close_Date r /\
      0 < Probability_Percent r < 100 /\
      Highest_Stage_Reached r = None /\
      open_timeline sd created_date)).
Proof.
  unfold generate_opportunity. intros Hrun.
  apply bind_inr_inv in Hrun as ([[stage close] highest] & st1 & Eprog & Hrun).
  apply bind_inr_inv in Hrun as (data & st2 & Edata & Hrun).
  apply bind_inr_inv in Hrun as ([p e] & st3 & Eprob & Hrun).
  apply bind_inr_inv in Hrun as (c & st4 & _ & Hrun).
  apply ret_inr_inv in Hrun. subst r.
  cbn [Stage Amount Expected_Revenue Probability_Percent Created_Date
       Close_Date Age_Days Highest_Stage_Reached stage_data].
  apply calculate_deal_progression_result in Eprog
    as (close' & Hclose & Hcases).
  destruct Hcases as [[Hpast [H|(h & Hin & H)]] | [Hfut (s & Hin & H)]];
    injection H as -> -> ->.
  - destruct (calculate_stage_progression_won self seg created_date close'
                (Some Contract_Review) is_competitive is_icp st1
                ltac:(lia)) as (sd & st2' & Hsp & Htl).
    rewrite Hsp in Edata. injection Edata as <- _.
    cbn in Eprob. injection Eprob as <- <- _.
    repeat split; try lia.
    exists sd. split; [reflexivity|]. left.
    repeat split; try assumption. apply py_int_inject_Z.
  - destruct (calculate_stage_progression_lost self seg created_date close'
                h is_competitive is_icp st1 ltac:(lia) Hin)
      as (sd & st2' & Hsp & Htl).
    rewrite Hsp in Edata. injection Edata as <- _.
    cbn in Eprob. injection Eprob as <- <- _.
    repeat split; try lia.
    exists sd. split; [reflexivity|]. right. left.
    repeat split; try assumption.
    exists h. repeat split; assumption.
  - destruct (calculate_stage_progression_open self seg created_date close'
                s is_competitive is_icp st1 ltac:(lia) Hin)
      as (sd & st2' & Hsp & Htl).
    rewrite Hsp in Edata. injection Edata as <- _.
    assert (Hs : stage_eqb s Closed_Lost = false /\
                 stage_eqb s Closed_Won = false).
    { cbn in Hin. destruct Hin as [<-|[<-|[<-|[<-|[<-|[]]]]]];
        split; reflexivity. }
    destruct Hs as [Hs6 Hs7]. rewrite Hs6, Hs7 in Eprob. rewrite Hs6.
    destruct (get_deal_configuration self seg is_competitive is_icp)
      as [cfg ct].
    apply bind_inr_inv in Eprob as (p' & st3' & Eget & Eprob).
    injection Eprob as <- _ _.
    unfold dict_get in Eget.
    destruct (assoc s (stage_probs ct seg is_competitive)) as [p0|] eqn:Ep;
      [|discriminate].
    injection Eget as <- _.
    pose proof (stage_probs_range _ _ _ _ _ Ep) as Hp.
    repeat split; try lia.
    exists sd. split; [reflexivity|]. right. right.
    repeat split; try assumption; lia.
Qed.

(** ** Days in stage *)

(** The days field of a stage holds the value its loop iteration computes. *)
Lemma with_days_days_field (sd : dict) (final_stage : stage)
    (expected_close_date : Z) (s : stage) :
  with_days sd final_stage expected_close_date (Days_in_Stage s)
  = Some (days_in_current_stage sd final_stage expected_close_date s
            (later_stages s)).
Proof. destruct s; reflexivity. Qed.

Lemma later_stages_num (s s' : stage) :
  In s' (later_stages s) -> stage_num s < stage_num s'.
Proof.
  destruct s; cbn; intros H;
    repeat (destruct H as [<-|H]; [cbn; lia|]); destruct H.
Qed.

Lemma next_stage_date_of_none (sd : dict) (later : list stage) :
  (forall s', In s' later -> sd (Stage_Date s') = Some None) ->
  next_stage_date_of sd later = None.
Proof.
  induction later as [|s later IH]; intros Hnull; [reflexivity|].
  cbn. rewrite (Hnull s (or_introl eq_refl)).
  apply IH. intros s' Hin. apply Hnull. right. exact Hin.
Qed.

(** The days of a stage with no dated stage after it are floored at zero. *)
Lemma days_in_current_stage_last (sd : dict) (final_stage : stage)
    (expected_close_date : Z) (s : stage) (later : list stage) (n : Z) :
  next_stage_date_of sd later = None ->
  days_in_current_stage sd final_stage expected_close_date s later = Some n ->
  0 <= n.
Proof.
  unfold days_in_current_stage. intros ->.
  destruct (sd (Stage_Date s)) as [[d|]|]; try discriminate.
  intros H. injection H as <-. lia.
Qed.

(** ** Closed deals: conservation of days *)

(** C2.  For every record of a closed deal (Closed Won or Closed Lost), the
    non-null days-in-stage fields add up to exactly the number of days from
    the created date to the close date, and the entry date of the terminal
    stage is the close date itself. *)
Theorem closed_deal_days_conservation :
  forall (self : GlobalSalesDataGenerator) (seg : segment)
         (created_date : Z) (is_competitive is_icp : bool) (amount : Z)
         (st st' : rng_state) (r : opportunity),
    generate_opportunity self seg created_date is_competitive is_icp amount st
    = inr (r, st') ->
    is_closed (Stage r) = true ->
    total_days_in_stage (stage_data r) = Close_Date r - Created_Date r /\
    stage_data r (Stage_Date (Stage r)) = Some (Some (Close_Date r)).
Proof.
  intros self seg created_date is_competitive is_icp amount st st' r Hrun
         Hclosed.
  destruct (generate_opportunity_inv _ _ _ _ _ _ _ _ _ Hrun)
    as (_ & Hcreated & _ & _ & sd & Hdata & Hcases).
  rewrite Hdata, Hcreated, with_days_stage_date.
  destruct Hcases as [(Hs & _ & _ & _ & _ & e2 & e3 & e4 & e5 & Htl & _)
                     |[(Hs & _ & _ & _ & h & _ & _ & o2 & o3 & o4 & o5 & Htl & _)
                      |(Hin & _)]].
  - split.
    + apply (total_days_closed _ _ _ _ _ _ _ _ _ _ Hclosed Htl).
      left. reflexivity.
    + rewrite Hs. apply Htl.
  - split.
    + apply (total_days_closed _ _ _ _ _ _ _ _ _ _ Hclosed Htl).
      right. split; reflexivity.
    + rewrite Hs. apply Htl.
  - exfalso. cbn in Hin.
    destruct Hin as [H|[H|[H|[H|[H|[]]]]]]; rewrite <- H in Hclosed;
      discriminate.
Qed.

(** ** Closed-won and closed-lost records *)

(** In a closed-lost timeline every stage after the highest one reached,
    the Closed Lost stage apart, has a null entry date. *)
Lemma lost_timeline_later_null (sd : dict)
    (created_date expected_close_date : Z) (highest : stage) :
  In highest stage_names ->
  lost_timeline sd created_date expected_close_date highest ->
  forall s, stage_num highest < stage_num s -> s <> Closed_Lost ->
            sd (Stage_Date s) = Some None.
Proof.
  intros Hin (o2 & o3 & o4 & o5 & Htl & _ & _ & _ & _ & N2 & N3 & N4 & N5)
         s Hlater Hs.
  rewrite (timeline_ext _ _ _ _ _ _ _ _ Htl).
  assert (Hh : 1 <= stage_num highest <= 5).
  { cbn in Hin. destruct Hin as [<-|[<-|[<-|[<-|[<-|[]]]]]]; cbn; lia. }
  destruct s; cbn in Hlater |- *; try congruence; try lia; f_equal; auto.
Qed.

(** C5.  The record of every Closed Won deal has probability exactly 100
    and expected revenue exactly the deal amount. *)
Theorem closed_won_record :
  forall (self : GlobalSalesDataGenerator) (seg : segment)
         (created_date : Z) (is_competitive is_icp : bool) (amount : Z)
         (st st' : rng_state) (r : opportunity),
    generate_opportunity self seg created_date is_competitive is_icp amount st
    = inr (r, st') ->
    Stage r = Closed_Won ->
    Probability_Percent r = 100 /\ Expected_Revenue r = Amount r.
Proof.
  intros self seg created_date is_competitive is_icp amount st st' r Hrun Hwon.
  destruct (generate_opportunity_inv _ _ _ _ _ _ _ _ _ Hrun)
    as (Hamount & _ & _ & _ & sd & _ & Hcases).
  destruct Hcases as [(_ & _ & Hp & He & _)|[(Hs & _)|(Hin & _)]].
  - rewrite Hamount. split; assumption.
  - rewrite Hs in Hwon. discriminate.
  - exfalso. rewrite Hwon in Hin. cbn in Hin.
    repeat (destruct Hin as [Hin|Hin]; [discriminate|]). exact Hin.
Qed.

(** C4.  The record of every Closed Lost deal has probability 0 and
    expected revenue 0, records the highest stage reached, and has a null
    entry date for every stage after that stage other than the Closed Lost
    stage itself, which the deal entered on its close date. *)
Theorem closed_lost_record :
  forall (self : GlobalSalesDataGenerator) (seg : segment)
         (created_date : Z) (is_competitive is_icp : bool) (amount : Z)
         (st st' : rng_state) (r : opportunity),
    generate_opportunity self seg created_date is_competitive is_icp amount st
    = inr (r, st') ->
    Stage r = Closed_Lost ->
    Probability_Percent r = 0 /\ Expected_Revenue r = 0 /\
    stage_data r (Stage_Date Closed_Lost) = Some (Some (Close_Date r)) /\
    exists highest,
      Highest_Stage_Reached r = Some highest /\ In highest stage_names /\
      forall s, stage_num highest < stage_num s -> s <> Closed_Lost ->
                stage_data r (Stage_Date s) = Some None.
Proof.
  intros self seg created_date is_competitive is_icp amount st st' r Hrun
         Hlost.
  destruct (generate_opportunity_inv _ _ _ _ _ _ _ _ _ Hrun)
    as (_ & _ & _ & _ & sd & Hdata & Hcases).
  destruct Hcases as [(Hs & _)|[(_ & _ & Hp & He & h & Hin & Hh & Htl)|(Hin & _)]].
  - rewrite Hs in Hlost. discriminate.
  - pose proof Htl as HtlL.
    destruct Htl as (o2 & o3 & o4 & o5 & Htl & _).
    pose proof (timeline_ext _ _ _ _ _ _ _ _ Htl) as Hext.
    repeat split; try assumption.
    + rewrite Hdata, with_days_stage_date, Hext. reflexivity.
    + exists h. repeat split; try assumption.
      intros s Hlater Hs. rewrite Hdata, with_days_stage_date.
      apply (lost_timeline_later_null _ _ _ _ Hin HtlL s Hlater Hs).
  - exfalso. rewrite Hlost in Hin. cbn in Hin.
    repeat (destruct Hin as [Hin|Hin]; [discriminate|]). exact Hin.
Qed.

(** ** Open deals *)

(** C10.  The record of every deal whose close date is after the current
    date reports one of the five pipeline stages, has null Closed Lost and
    Closed Won entry dates, a null highest stage reached, and a probability
    strictly between 0 and 100. *)
Theorem open_deal_record :
  forall (self : GlobalSalesDataGenerator) (seg : segment)
         (created_date : Z) (is_competitive is_icp : bool) (amount : Z)
         (st st' : rng_state) (r : opportunity),
    generate_opportunity self seg created_date is_competitive is_icp amount st
    = inr (r, st') ->
    current_time < Close_Date r ->
    In (Stage r) stage_names /\
    stage_data r (Stage_Date Closed_Lost) = Some None /\
    stage_data r (Stage_Date Closed_Won) = Some None /\
    Highest_Stage_Reached r = None /\
    0 < Probability_Percent r < 100.
Proof.
  intros self seg created_date is_competitive is_icp amount st st' r Hrun
         Hopen.
  destruct (generate_opportunity_inv _ _ _ _ _ _ _ _ _ Hrun)
    as (_ & _ & _ & _ & sd & Hdata & Hcases).
  destruct Hcases as [(_ & Hpast & _)|[(_ & Hpast & _)
                     |(Hin & _ & Hp & Hh & o2 & o3 & o4 & o5 & Htl & _)]];
    try lia.
  pose proof (timeline_ext _ _ _ _ _ _ _ _ Htl) as Hext.
  repeat split; try assumption; try lia;
    rewrite Hdata, with_days_stage_date, Hext; reflexivity.
Qed.

(** ** The model of the assembler is total *)

Lemma bind_inr {A B : Type} (m : M A) (k : A -> M B)
    (st st1 : rng_state) (a : A) :
  m st = inr (a, st1) -> bind m k st = k a st1.
Proof. intros H. unfold bind. rewrite H. reflexivity. Qed.

Lemma outcome_loop_returns (rates : list Q) :
  forall (n : nat) (st : rng_state),
    (n + List.length rates <= List.length stage_names)%nat ->
    exists r st',
      outcome_loop (combine (seq n (List.length rates)) rates) n st
      = inr (r, st').
Proof.
  induction rates as [|r0 rates IH]; intros n st Hlen.
  - cbn. eexists. eexists. reflexivity.
  - cbn [List.length seq combine outcome_loop].
    rewrite (bind_inr _ _ _ _ _ (random_random_run st)).
    destruct (Qltb (draw st 0) r0).
    + replace (n + 1)%nat with (S n) by lia.
      apply IH. cbn [List.length] in Hlen. lia.
    + unfold bind, list_get.
      destruct (nth_error stage_names n) as [h|] eqn:E.
      * eexists. eexists. reflexivity.
      * apply nth_error_None in E. cbn [List.length] in Hlen. lia.
Qed.

Lemma calculate_deal_progression_returns (self : GlobalSalesDataGenerator)
    (seg : segment) (created_date : Z) (is_competitive is_icp : bool)
    (st : rng_state) :
  well_configured self ->
  exists r st',
    calculate_deal_progression self seg created_date is_competitive is_icp st
    = inr (r, st').
Proof.
  intros [Hrates _]. specialize (Hrates seg is_competitive is_icp).
  unfold calculate_deal_progression.
  destruct (get_deal_configuration self seg is_competitive is_icp)
    as [cfg ct] eqn:Ecfg. cbn [fst] in Hrates.
  unfold bind at 1, np_random_normal, bind at 1, np_next, ret at 1.
  generalize (Z.max 20
                (py_int (inject_Z (avg_cycle_days cfg)
                         + inject_Z (avg_cycle_days cfg) * 0.3
                           * np_tape st (np_pos st))%Q)).
  intros actual_cycle.
  destruct (created_date + actual_cycle <=? current_time).
  - unfold determine_deal_outcome_and_highest_stage. rewrite Ecfg.
    destruct (outcome_loop_returns (stage_conversion_rates cfg) 0
                (np_advance 1 st) Hrates) as ([final highest] & st1 & Hout).
    unfold enumerate. rewrite (bind_inr _ _ _ _ _ Hout).
    eexists. eexists. reflexivity.
  - repeat match goal with
           | |- context [if ?c then _ else _] => destruct c
           end;
      eexists; eexists; reflexivity.
Qed.

Lemma stage_probs_defined (ct : config_type) (seg : segment)
    (is_competitive : bool) (s : stage) :
  In s stage_names ->
  exists p, assoc s (stage_probs ct seg is_competitive) = Some p.
Proof.
  cbn. intros [<-|[<-|[<-|[<-|[<-|[]]]]]];
    destruct ct, seg, is_competitive; cbn; eexists; reflexivity.
Qed.

Lemma random_choice_returns {A : Type} (l : list A) (st : rng_state) :
  l <> [] -> exists a st', random_choice l st = inr (a, st').
Proof.
  destruct l as [|a l]; [congruence|]. intros _.
  unfold random_choice, bind, py_next, ret. eexists. eexists. reflexivity.
Qed.

(** On well-configured tables the model of the assembler raises no
    exception, whatever the deal and the random draws.  (Ordinals are
    unbounded here; Python raises [OverflowError] when the close date
    passes [datetime.max].) *)
Lemma generate_opportunity_returns (self : GlobalSalesDataGenerator)
    (seg : segment) (created_date : Z) (is_competitive is_icp : bool)
    (amount : Z) (st : rng_state) :
  well_configured self ->
  exists r st',
    generate_opportunity self seg created_date is_competitive is_icp amount st
    = inr (r, st').
Proof.
  intros Hwf.
  destruct (calculate_deal_progression_returns self seg created_date
              is_competitive is_icp st Hwf) as (r0 & st1 & Hprog).
  unfold generate_opportunity. rewrite (bind_inr _ _ _ _ _ Hprog).
  assert (Hcomp : forall st3,
             exists c st4,
               (if is_competitive
                then c <- random_choice (competitors self) ;; ret (Some c)
                else ret None) st3 = inr (c, st4)).
  { intros st3. destruct is_competitive.
    - destruct (random_choice_returns (competitors self) st3 (proj2 Hwf))
        as (c & st4 & Hc).
      rewrite (bind_inr _ _ _ _ _ Hc). eexists. eexists. reflexivity.
    - eexists. eexists. reflexivity. }
  destruct (calculate_deal_progression_result _ _ _ _ _ _ _ _ Hprog)
    as (close & Hclose & [[Hpast [H|(h & Hin & H)]] | [Hfut (s & Hin & H)]]);
    subst r0.
  - destruct (calculate_stage_progression_won self seg created_date close
                (Some Contract_Review) is_competitive is_icp st1
                ltac:(lia)) as (sd & st2 & Hsp & _).
    rewrite (bind_inr _ _ _ _ _ Hsp).
    cbn [stage_eqb stage_num Z.eqb Pos.eqb]. unfold bind at 1, ret at 1.
    destruct (Hcomp st2) as (c & st4 & Hc).
    rewrite (bind_inr _ _ _ _ _ Hc). eexists. eexists. reflexivity.
  - destruct (calculate_stage_progression_lost self seg created_date close
                h is_competitive is_icp st1 ltac:(lia) Hin)
      as (sd & st2 & Hsp & _).
    rewrite (bind_inr _ _ _ _ _ Hsp).
    cbn [stage_eqb stage_num Z.eqb Pos.eqb]. unfold bind at 1, ret at 1.
    destruct (Hcomp st2) as (c & st4 & Hc).
    rewrite (bind_inr _ _ _ _ _ Hc). eexists. eexists. reflexivity.
  - destruct (calculate_stage_progression_open self seg created_date close
                s is_competitive is_icp st1 ltac:(lia) Hin)
      as (sd & st2 & Hsp & _).
    rewrite (bind_inr _ _ _ _ _ Hsp).
    assert (Hs : stage_eqb s Closed_Lost = false /\
                 stage_eqb s Closed_Won = false).
    { cbn in Hin. destruct Hin as [<-|[<-|[<-|[<-|[<-|[]]]]]];
        split; reflexivity. }
    destruct Hs as [Hs6 Hs7]. rewrite Hs6, Hs7.
    destruct (get_deal_configuration self seg is_competitive is_icp)
      as [cfg ct].
    destruct (stage_probs_defined ct seg is_competitive s Hin) as (p & Hp).
    unfold bind at 1, bind at 1, dict_get. rewrite Hp. unfold ret at 1 2.
    destruct (Hcomp st2) as (c & st4 & Hc).
    rewrite (bind_inr _ _ _ _ _ Hc). eexists. eexists. reflexivity.
Qed.

Lemma init_well_configured : well_configured init.
Proof.
  split.
  - intros seg is_competitive is_icp.
    destruct seg, is_competitive, is_icp; cbn; lia.
  - discriminate.
Qed.

(** ** Deals created after the current date *)

(** A negative deal age gives a negative progress ratio. *)
Lemma negative_progress_ratio (deal_age actual_cycle : Z) :
  deal_age < 0 -> 0 < actual_cycle ->
  (py_min 0.9 (inject_Z deal_age / inject_Z actual_cycle) < 0)%Q.
Proof.
  intros Hage Hcycle.
  assert (Hneg : (inject_Z deal_age / inject_Z actual_cycle < 0)%Q).
  { destruct deal_age as [|a|a]; try lia.
    destruct actual_cycle as [|b|b]; try lia.
    unfold Qlt. cbn. lia. }
  unfold py_min.
  destruct (Qltb (inject_Z deal_age / inject_Z actual_cycle) 0.9) eqn:E.
  - exact Hneg.
  - apply Qltb_false in E. exfalso.
    apply (Qlt_irrefl 0%Q).
    apply Qlt_trans with (y := 0.9%Q); [reflexivity|].
    eapply Qle_lt_trans; eassumption.
Qed.

Lemma calculate_deal_progression_future (self : GlobalSalesDataGenerator)
    (seg : segment) (created_date : Z) (is_competitive is_icp : bool)
    (st st' : rng_state) (r : stage * Z * option stage) :
  current_time < created_date ->
  calculate_deal_progression self seg created_date is_competitive is_icp st
  = inr (r, st') ->
  fst (fst r) = Lead_Qualification.
Proof.
  intros Hfuture. unfold calculate_deal_progression.
  destruct (get_deal_configuration self seg is_competitive is_icp)
    as [cfg ct].
  unfold bind at 1, np_random_normal, bind at 1, np_next, ret at 1.
  set (actual_cycle := Z.max 20 _).
  assert (Hcycle : 20 <= actual_cycle) by (subst actual_cycle; lia).
  generalize dependent actual_cycle. intros actual_cycle Hcycle.
  destruct (created_date + actual_cycle <=? current_time) eqn:E;
    [apply Z.leb_le in E; lia|].
  pose proof (negative_progress_ratio (current_time - created_date)
                actual_cycle ltac:(lia) ltac:(lia)) as Hneg.
  assert (H10 : Qltb (py_min 0.9 (inject_Z (current_time - created_date)
                                  / inject_Z actual_cycle)) 0.10 = true).
  { apply Qltb_true. eapply Qlt_trans; [exact Hneg|reflexivity]. }
  assert (H15 : Qltb (py_min 0.9 (inject_Z (current_time - created_date)
                                  / inject_Z actual_cycle)) 0.15 = true).
  { apply Qltb_true. eapply Qlt_trans; [exact Hneg|reflexivity]. }
  rewrite H10, H15.
  destruct (config_type_eqb ct Non_ICP && segment_eqb seg Enterprise);
    [|destruct is_competitive];
    intros H; injection H as <- _; reflexivity.
Qed.

(** ** Entry dates and days of every record *)

(** Every record's stage dates form a timeline whose dates, the first
    apart, are at least one day after the created date. *)
Lemma record_timeline (self : GlobalSalesDataGenerator)
    (seg : segment) (created_date : Z) (is_competitive is_icp : bool)
    (amount : Z) (st st' : rng_state) (r : opportunity) :
  generate_opportunity self seg created_date is_competitive is_icp amount st
  = inr (r, st') ->
  exists sd o2 o3 o4 o5 t6 t7,
    stage_data r = with_days sd (Stage r) (Close_Date r) /\
    timeline sd created_date o2 o3 o4 o5 t6 t7 /\
    after_created created_date o2 /\ after_created created_date o3 /\
    after_created created_date o4 /\ after_created created_date o5 /\
    after_created created_date t6 /\ after_created created_date t7.
Proof.
  intros Hrun.
  destruct (generate_opportunity_inv _ _ _ _ _ _ _ _ _ Hrun)
    as (_ & _ & _ & Hclose & sd & Hdata & Hcases).
  exists sd.
  destruct Hcases
    as [(_ & _ & _ & _ & _ & e2 & e3 & e4 & e5 & Htl & H2 & H3 & H4 & H5)
       |[(_ & _ & _ & _ & h & _ & _ & o2 & o3 & o4 & o5 & Htl
          & H2 & H3 & H4 & H5 & _)
        |(_ & _ & _ & _ & o2 & o3 & o4 & o5 & Htl & H2 & H3 & H4 & H5)]].
  - exists (Some e2), (Some e3), (Some e4), (Some e5), None,
           (Some (Close_Date r)).
    cbn. repeat split; try assumption; try apply Htl; lia.
  - exists o2, o3, o4, o5, (Some (Close_Date r)), None.
    cbn. repeat split; try assumption; try apply Htl; lia.
  - exists o2, o3, o4, o5, None, None.
    cbn. repeat split; try assumption; apply Htl.
Qed.



(** ** Discrete events *)

Lemma event_loop_app (l1 l2 : list (string * Salesforce.event_config))
    (stage_name : Salesforce.stage) (date : datetime) :
  forall c v : Q,
    Salesforce.event_loop (l1 ++ l2) stage_name date c v
    = let '(c', v') := Salesforce.event_loop l1 stage_name date c v in
      Salesforce.event_loop l2 stage_name date c' v'.
Proof.
  induction l1 as [|[name ec] l1 IH]; intros c v; [reflexivity|].
  cbn [app Salesforce.event_loop].
  destruct (Salesforce.event_applies ec stage_name date); apply IH.
Qed.

(** An event that does not apply leaves the modifiers as they are. *)
Lemma event_loop_skip (before after : list (string * Salesforce.event_config))
    (name : string) (ec : Salesforce.event_config)
    (stage_name : Salesforce.stage) (date : datetime) (c v : Q) :
  Salesforce.event_applies ec stage_name date = false ->
  Salesforce.event_loop (before ++ (name, ec) :: after) stage_name date c v
  = Salesforce.event_loop (before ++ after) stage_name date c v.
Proof.
  intros Hoff. rewrite !event_loop_app.
  destruct (Salesforce.event_loop before stage_name date c v) as [c' v'].
  cbn [Salesforce.event_loop]. rewrite Hoff. reflexivity.
Qed.

Lemma event_loop_none (items : list (string * Salesforce.event_config))
    (stage_name : Salesforce.stage) (date : datetime) (c v : Q) :
  (forall name ec, In (name, ec) items ->
                   Salesforce.event_applies ec stage_name date = false) ->
  Salesforce.event_loop items stage_name date c v = (c, v).
Proof.
  induction items as [|[name ec] items IH]; intros Hoff; [reflexivity|].
  cbn [Salesforce.event_loop].
  rewrite (Hoff name ec (or_introl eq_refl)).
  apply IH. intros n e Hin. apply (Hoff n e). right. exact Hin.
Qed.

Lemma stage_eqb_eq (a b : Salesforce.stage) :
  Salesforce.stage_eqb a b = true <-> a = b.
Proof. destruct a, b; cbn; split; congruence. Qed.

Lemma datetime_le_on_or_after (start date : datetime) :
  datetime_le start date = true <-> on_or_after date start.
Proof.
  unfold datetime_le, datetime_lt, on_or_after.
  rewrite negb_true_iff, orb_false_iff, andb_false_iff, orb_false_iff,
    andb_false_iff.
  rewrite !Z.ltb_ge, !Z.eqb_neq. lia.
Qed.

(** The test of the event loop is the gate on the start date and the
    affected stage. *)
Lemma event_applies_iff (ec : Salesforce.event_config)
    (stage_name : Salesforce.stage) (date : datetime) :
  Salesforce.event_applies ec stage_name date = true <->
  on_or_after date (Salesforce.start_date ec) /\
  Salesforce.affected_stage ec = stage_name.
Proof.
  unfold Salesforce.event_applies.
  rewrite andb_true_iff, datetime_le_on_or_after, stage_eqb_eq.
  split; intros [H1 H2]; split; congruence.
Qed.

Lemma event_applies_false (ec : Salesforce.event_config)
    (stage_name : Salesforce.stage) (date : datetime) :
  ~ (on_or_after date (Salesforce.start_date ec) /\
     Salesforce.affected_stage ec = stage_name) ->
  Salesforce.event_applies ec stage_name date = false.
Proof.
  intros H. destruct (Salesforce.event_applies ec stage_name date) eqn:E;
    [|reflexivity].
  exfalso. apply H. apply event_applies_iff. exact E.
Qed.



(** ** Worked examples *)

Lemma jan_2024_ordinal :
  jan_2024 = toordinal {| year := 2024; month := 1; day := 1 |}.
Proof. vm_compute. reflexivity. Qed.

(** The Closed Won deal of [stage_dates_not_monotone]: its days still add
    up to the 210 days of its cycle. *)
Lemma closed_deal_days_conservation_witness :
  exists r st',
    generate_opportunity init Enterprise jan_2024 false false 1000 jitter_state
    = inr (r, st') /\
    total_days_in_stage (stage_data r) = Close_Date r - Created_Date r.
Proof.
  eexists. eexists. split; [vm_compute; reflexivity|].
  refine (proj1 (closed_deal_days_conservation init Enterprise jan_2024
                   false false 1000 jitter_state _ _ _ _)).
  - vm_compute. reflexivity.
  - reflexivity.
Defined.

Lemma closed_won_record_witness :
  exists r st',
    generate_opportunity init Enterprise jan_2024 false false 1000 jitter_state
    = inr (r, st') /\
    Probability_Percent r = 100 /\ Expected_Revenue r = Amount r.
Proof.
  eexists. eexists. split; [vm_compute; reflexivity|].
  refine (closed_won_record init Enterprise jan_2024 false false 1000
            jitter_state _ _ _ _).
  - vm_compute. reflexivity.
  - reflexivity.
Defined.

(** A Closed Lost deal: the second draw of the walk is one half, above the
    Enterprise non-ICP rate of the Discovery stage. *)
Lemma closed_lost_record_witness :
  exists r st',
    generate_opportunity init Enterprise jan_2024 false false 1000 lost_state
    = inr (r, st') /\
    Highest_Stage_Reached r = Some Discovery /\
    Probability_Percent r = 0 /\ Expected_Revenue r = 0.
Proof.
  eexists. eexists. split; [vm_compute; reflexivity|].
  split; [reflexivity|].
  refine (let H := closed_lost_record init Enterprise jan_2024 false false
                      1000 lost_state _ _ _ _ in
          conj (proj1 H) (proj1 (proj2 H))).
  - vm_compute. reflexivity.
  - reflexivity.
Defined.

(** An open deal: created 100 days before the current date with a 210-day
    cycle. *)
Lemma open_deal_record_witness :
  exists r st',
    generate_opportunity init Enterprise (current_time - 100) true false 1000
      lost_state
    = inr (r, st') /\
    In (Stage r) stage_names /\ Highest_Stage_Reached r = None.
Proof.
  eexists. eexists. split; [vm_compute; reflexivity|].
  refine (let H := open_deal_record init Enterprise (current_time - 100)
                      true false 1000 lost_state _ _ _ _ in
          conj (proj1 H) (proj1 (proj2 (proj2 (proj2 H))))).
  - vm_compute. reflexivity.
  - vm_compute. reflexivity.
Defined.



(** * Further properties *)

(** ** Trend functions *)

Lemma py_max_le_mono (x y c : Q) :
  (x <= y)%Q -> (py_max x c <= py_max y c)%Q.
Proof.
  intros Hxy. unfold py_max.
  destruct (Qltb x c) eqn:Ex, (Qltb y c) eqn:Ey.
  - apply Qle_refl.
  - apply Qltb_false in Ey. exact Ey.
  - apply Qltb_true in Ey. apply Qltb_false in Ex.
    exfalso. apply (Qlt_not_le _ _ Ey). eapply Qle_trans; eassumption.
  - exact Hxy.
Qed.

Lemma py_max_above (x c : Q) : (c <= x)%Q -> (py_max x c == x)%Q.
Proof.
  intros H. unfold py_max. destruct (Qltb x c) eqn:E.
  - apply Qltb_true in E. exfalso. exact (Qlt_not_le _ _ E H).
  - reflexivity.
Qed.

Lemma py_max_below (x c : Q) : (x <= c)%Q -> (py_max x c == c)%Q.
Proof.
  intros H. unfold py_max. destruct (Qltb x c) eqn:E.
  - reflexivity.
  - apply Qltb_false in E. apply Qle_antisym; assumption.
Qed.

Lemma py_max_cases (x c : Q) :
  (py_max x c == x /\ c <= x)%Q \/ (py_max x c == c /\ x <= c)%Q.
Proof.
  unfold py_max. destruct (Qltb x c) eqn:E.
  - right. split; [reflexivity|]. apply Qltb_true in E. apply Qlt_le_weak, E.
  - left. split; [reflexivity|]. apply Qltb_false in E. exact E.
Qed.

(** X1.  With the tables of [__init__] and two valid dates
    [date1 < date2]: the ICP targeting rate at [date2] is at most the rate
    at [date1].  The rate of a date is [max(trend, floor)] for the linear
    trend [base - decline * months], where [months] counts whole calendar
    months since January 2023, [(year - 2023) * 12 + month - 1]: it is the
    trend while the trend is at or above the segment's floor and the floor
    from the month the trend reaches it.  Above the floor the rate falls
    strictly from one calendar month to a later one; once the trend has
    reached the floor the rate stays at the floor. *)
Theorem calculate_icp_rate_monotone :
  forall (seg : segment) (date1 date2 : datetime),
    valid_datetime date1 = true -> valid_datetime date2 = true ->
    datetime_lt date1 date2 = true ->
    let rate := calculate_icp_rate init seg in
    let months d := (year d - 2023) * 12 + month d - 1 in
    let decline := icp_decline_rates init seg in
    let trend d :=
      (base_icp_rates init seg - decline * inject_Z (months d))%Q in
    (rate date2 <= rate date1)%Q /\
    months date1 <= months date2 /\
    (forall d,
        ((min_rates seg <= trend d)%Q -> (rate d == trend d)%Q) /\
        ((trend d <= min_rates seg)%Q -> (rate d == min_rates seg)%Q)) /\
    ((min_rates seg <= trend date2)%Q ->
     (rate date1 == trend date1)%Q /\ (rate date2 == trend date2)%Q) /\
    ((trend date1 <= min_rates seg)%Q ->
     (rate date1 == min_rates seg)%Q /\ (rate date2 == min_rates seg)%Q) /\
    (months date1 < months date2 -> (min_rates seg < rate date1)%Q ->
     (rate date2 < rate date1)%Q).
Proof.
  intros seg date1 date2 V1 V2 Hlt rate months decline trend.
  assert (Hm : months date1 <= months date2)
    by exact (months_elapsed_mono date1 date2 V1 V2 Hlt).
  assert (Hrate : forall d, rate d = py_max (trend d) (min_rates seg))
    by reflexivity.
  assert (Hd : (0 < decline)%Q) by (destruct seg; reflexivity).
  assert (Hprod : (decline * inject_Z (months date1)
                   <= decline * inject_Z (months date2))%Q).
  { rewrite (Qmult_comm decline (inject_Z (months date1))).
    rewrite (Qmult_comm decline (inject_Z (months date2))).
    apply Qmult_le_compat_r; [|apply Qlt_le_weak; exact Hd].
    rewrite <- Zle_Qle. exact Hm. }
  assert (Htrend : (trend date2 <= trend date1)%Q).
  { subst trend. cbv beta.
    generalize dependent (decline * inject_Z (months date1))%Q.
    generalize dependent (decline * inject_Z (months date2))%Q.
    intros. lra. }
  assert (Hstrict : months date1 < months date2 ->
                    (trend date2 < trend date1)%Q).
  { intros Hlater.
    assert (Hlt' : (decline * inject_Z (months date1)
                    < decline * inject_Z (months date2))%Q).
    { rewrite (Qmult_comm decline (inject_Z (months date1))).
      rewrite (Qmult_comm decline (inject_Z (months date2))).
      apply Qmult_lt_compat_r; [exact Hd|].
      rewrite <- Zlt_Qlt. exact Hlater. }
    subst trend. cbv beta.
    generalize dependent (decline * inject_Z (months date1))%Q.
    generalize dependent (decline * inject_Z (months date2))%Q.
    intros. lra. }
  split; [rewrite !Hrate; apply py_max_le_mono; exact Htrend|].
  split; [exact Hm|]. split; [|split; [|split]].
  - intros d. rewrite Hrate. split; [apply py_max_above|apply py_max_below].
  - intros Hfloor. rewrite !Hrate.
    split; apply py_max_above; [|exact Hfloor].
    eapply Qle_trans; eassumption.
  - intros Hfloor. rewrite !Hrate.
    split; apply py_max_below; [exact Hfloor|].
    eapply Qle_trans; eassumption.
  - intros Hlater Habove. specialize (Hstrict Hlater).
    rewrite Hrate in Habove. rewrite !Hrate.
    destruct (py_max_cases (trend date1) (min_rates seg)) as [[E1 L1]|[E1 L1]];
      destruct (py_max_cases (trend date2) (min_rates seg))
        as [[E2 L2]|[E2 L2]];
      rewrite E1 in Habove |- *; rewrite E2.
    + exact Hstrict.
    + exact Habove.
    + exfalso. exact (Qlt_irrefl _ Habove).
    + exfalso. exact (Qlt_irrefl _ Habove).
Qed.

Lemma calculate_icp_rate_monotone_witness :
  let d1 := {| year := 2023; month := 11; day := 20 |} in
  let d2 := {| year := 2024; month := 2; day := 3 |} in
  let d3 := {| year := 2026; month := 5; day := 1 |} in
  (calculate_icp_rate init Enterprise d1
   == 0.90 - 0.025 * inject_Z 10)%Q /\
  (calculate_icp_rate init Enterprise d2
   == 0.90 - 0.025 * inject_Z 13)%Q /\
  (calculate_icp_rate init Enterprise d2
   < calculate_icp_rate init Enterprise d1)%Q /\
  (calculate_icp_rate init Enterprise d3 == 0.30)%Q.
Proof.
  intros d1 d2 d3.
  destruct (calculate_icp_rate_monotone Enterprise d1 d2
              eq_refl eq_refl eq_refl)
    as (_ & _ & Hpoint & _ & _ & Hstrict).
  split; [|split; [|split]].
  - eapply Qeq_trans; [apply (proj1 (Hpoint d1))|]; reflexivity ||
      (intros H; discriminate H).
  - eapply Qeq_trans; [apply (proj1 (Hpoint d2))|]; reflexivity ||
      (intros H; discriminate H).
  - apply Hstrict; reflexivity.
  - eapply Qeq_trans; [apply (proj2 (Hpoint d3))|]; reflexivity ||
      (intros H; discriminate H).
Defined.

Lemma months_elapsed_nonneg (d : datetime) :
  valid_datetime d = true -> datetime_le baseline_date d = true ->
  0 <= months_elapsed d.
Proof.
  unfold valid_datetime, datetime_le, datetime_lt, months_elapsed. cbn.
  intros V H.
  repeat rewrite andb_true_iff in V. repeat rewrite Z.leb_le in V.
  rewrite negb_true_iff, orb_false_iff, andb_false_iff, orb_false_iff,
    andb_false_iff in H.
  repeat rewrite Z.ltb_ge in H. repeat rewrite Z.eqb_neq in H.
  lia.
Qed.

(** X2.  With the tables of [__init__], for every date on or after the
    January 2023 baseline both trend rates are probabilities: the
    competitive rate lies between the segment's base rate and its cap, the
    ICP rate between the segment's floor and its base rate, and all of
    these lie strictly between 0 and 1. *)
Theorem trend_rates_are_probabilities :
  forall (seg : segment) (date : datetime),
    valid_datetime date = true -> datetime_le baseline_date date = true ->
    (0 < base_competitive_rates init seg)%Q /\
    (base_competitive_rates init seg
     <= calculate_competitive_rate init seg date)%Q /\
    (calculate_competitive_rate init seg date <= max_rates seg)%Q /\
    (max_rates seg < 1)%Q /\
    (0 < min_rates seg)%Q /\
    (min_rates seg <= calculate_icp_rate init seg date)%Q /\
    (calculate_icp_rate init seg date <= base_icp_rates init seg)%Q /\
    (base_icp_rates init seg < 1)%Q.
Proof.
  intros seg date V Hepoch.
  pose proof (months_elapsed_nonneg date V Hepoch) as Hm.
  rewrite Zle_Qle in Hm. change (inject_Z 0) with 0%Q in Hm.
  unfold calculate_competitive_rate, calculate_icp_rate.
  generalize dependent (inject_Z (months_elapsed date)). intros m Hm.
  destruct (py_min_cases
              (base_competitive_rates init seg
               + competitive_growth_rates init seg
                 * m)%Q (max_rates seg))
    as [[-> Hc]|[-> Hc]];
    destruct (py_max_cases
                (base_icp_rates init seg
                 - icp_decline_rates init seg
                   * m)%Q (min_rates seg))
      as [[-> Hi]|[-> Hi]];
    destruct seg;
    cbn [init base_competitive_rates competitive_growth_rates base_icp_rates
         icp_decline_rates max_rates min_rates] in *;
    repeat split; lra.
Qed.

Lemma trend_rates_are_probabilities_witness :
  let d := {| year := 2025; month := 6; day := 30 |} in
  (calculate_competitive_rate init Mid_Market d <= max_rates Mid_Market)%Q /\
  (min_rates Enterprise <= calculate_icp_rate init Enterprise d)%Q.
Proof.
  intros d.
  pose proof (trend_rates_are_probabilities Mid_Market d eq_refl eq_refl)
    as Hm.
  pose proof (trend_rates_are_probabilities Enterprise d eq_refl eq_refl)
    as He.
  split.
  - exact (proj1 (proj2 (proj2 Hm))).
  - exact (proj1 (proj2 (proj2 (proj2 (proj2 (proj2 He)))))).
Defined.

(** ** Outcome simulator: edge rates and errors *)

(** Every uniform draw lies in [[0, 1)]. *)
Lemma draw_range (st : rng_state) (k : nat) :
  (0 <= draw st k)%Q /\ (draw st k < 1)%Q.
Proof.
  unfold draw, uniform_of.
  set (u := py_tape st (py_pos st + k)).
  assert (Hpow : Z.pos (2 ^ 53)%positive = 2 ^ 53) by reflexivity.
  assert (Hpos : 0 < 2 ^ 53) by reflexivity.
  pose proof (Z.mod_pos_bound u (2 ^ 53) Hpos) as [Hlo Hhi].
  unfold Qle, Qlt. cbn [Qnum Qden].
  rewrite Hpow, Z.mul_1_r, Z.mul_1_l, Z.mul_0_l. split; assumption.
Qed.

Lemma outcome_loop_no_win (items : list (nat * Q)) :
  forall (idx : nat) (st st' : rng_state) (res : stage * stage),
    (exists i r, In (i, r) items /\ (r <= 0)%Q) ->
    outcome_loop items idx st = inr (res, st') ->
    fst res = Closed_Lost.
Proof.
  induction items as [|[i0 r0] items IH]; intros idx st st' res Hzero Hrun.
  - destruct Hzero as (i & r & [] & _).
  - cbn [outcome_loop] in Hrun. unfold bind at 1 in Hrun.
    rewrite random_random_run in Hrun.
    destruct (Qltb (draw st 0) r0) eqn:E.
    + eapply IH; [|exact Hrun].
      destruct Hzero as (i & r & [Heq|Hin] & Hr).
      * exfalso. injection Heq as -> ->.
        apply Qltb_true in E.
        pose proof (proj1 (draw_range st 0)) as Hlo.
        apply (Qlt_irrefl 0%Q).
        eapply Qle_lt_trans; [exact Hlo|].
        eapply Qlt_le_trans; eassumption.
      * exists i, r. split; assumption.
    + unfold bind, list_get in Hrun.
      destruct (nth_error stage_names idx); [|discriminate].
      apply ret_inr_inv in Hrun. subst res. reflexivity.
Qed.

Lemma In_enumerate {A : Type} (l : list A) (a : A) :
  In a l -> forall n, exists i, In (i, a) (combine (seq n (List.length l)) l).
Proof.
  induction l as [|b l IH]; intros Hin n; [destruct Hin|].
  cbn [List.length seq combine].
  destruct Hin as [->|Hin].
  - exists n. left. reflexivity.
  - destruct (IH Hin (S n)) as (i & Hi). exists i. right. exact Hi.
Qed.

(** X3.  The simulator honours the two extreme rates exactly, whatever the
    random draws: if every conversion rate of the deal's configuration is
    at least 1.0 the deal is always Closed Won (one draw per rate), and if
    some conversion rate is 0.0 or less the deal is never Closed Won. *)
Theorem determine_deal_outcome_extreme_rates :
  forall (self : GlobalSalesDataGenerator) (seg : segment)
         (is_competitive is_icp : bool) (st : rng_state),
    let rates :=
      stage_conversion_rates
        (fst (get_deal_configuration self seg is_competitive is_icp)) in
    let run :=
      determine_deal_outcome_and_highest_stage self seg is_competitive is_icp
        st in
    ((forall r, In r rates -> (1 <= r)%Q) ->
     run = inr ((Closed_Won, Contract_Review),
                py_advance (List.length rates) st)) /\
    (forall r, In r rates -> (r <= 0)%Q ->
               forall res st', run = inr (res, st') ->
                               fst res = Closed_Lost).
Proof.
  intros self seg is_competitive is_icp st rates run. subst rates run.
  unfold determine_deal_outcome_and_highest_stage.
  destruct (get_deal_configuration self seg is_competitive is_icp)
    as [cfg ct]. cbn [fst]. unfold enumerate. split.
  - intros Hone. apply outcome_loop_won. intros j r Hr.
    apply Qltb_true.
    eapply Qlt_le_trans; [exact (proj2 (draw_range st j))|].
    apply Hone. exact (nth_error_In _ _ Hr).
  - intros r Hin Hr res st' Hrun.
    eapply outcome_loop_no_win; [|exact Hrun].
    destruct (In_enumerate _ _ Hin 0%nat) as (i & Hi).
    exists i, r. split; assumption.
Qed.

Lemma determine_deal_outcome_extreme_rates_witness :
  determine_deal_outcome_and_highest_stage certain_rates SMB false true
    walk_state
  = inr ((Closed_Won, Contract_Review), py_advance 5 walk_state).
Proof.
  apply (proj1 (determine_deal_outcome_extreme_rates certain_rates SMB false
                  true walk_state)).
  intros r Hin. cbn in Hin.
  repeat (destruct Hin as [<-|Hin]; [apply Qle_bool_iff; reflexivity|]).
  destruct Hin.
Defined.

Lemma outcome_loop_index_error (rates : list Q) :
  forall (n k : nat) (rate : Q) (st : rng_state),
    nth_error rates k = Some rate ->
    (List.length stage_names <= n + k)%nat ->
    (forall j r, (j < k)%nat -> nth_error rates j = Some r ->
                 Qltb (draw st j) r = true) ->
    Qltb (draw st k) rate = false ->
    outcome_loop (combine (seq n (List.length rates)) rates) n st
    = inl IndexError.
Proof.
  induction rates as [|r0 rates IH]; intros n k rate st Hk Hlen Hbelow Hfail.
  - destruct k; discriminate.
  - cbn [List.length seq combine outcome_loop]. unfold bind at 1.
    rewrite random_random_run.
    destruct k as [|k].
    + cbn in Hk. injection Hk as ->. rewrite Hfail.
      rewrite Nat.add_0_r in Hlen.
      unfold bind, list_get.
      rewrite (proj2 (nth_error_None stage_names n) Hlen). reflexivity.
    + rewrite (Hbelow 0%nat r0 (Nat.lt_0_succ k) eq_refl).
      replace (n + 1)%nat with (S n) by lia.
      apply (IH (S n) k rate (py_advance 1 st)).
      * exact Hk.
      * lia.
      * intros j r Hj Hr. rewrite draw_advance.
        apply (Hbelow (S j) r); [lia|exact Hr].
      * rewrite draw_advance. exact Hfail.
Qed.

(** X4.  The simulator names at most five stages.  With at most five
    conversion rates it raises nothing and returns either Closed Won with
    "5 - Contract Review" or Closed Lost with one of the five stage names;
    with more rates, a deal that passes the first five steps or more and
    then fails a step makes the stage-name lookup raise [IndexError]. *)
Theorem determine_deal_outcome_stage_lookup :
  forall (self : GlobalSalesDataGenerator) (seg : segment)
         (is_competitive is_icp : bool) (st : rng_state),
    let rates :=
      stage_conversion_rates
        (fst (get_deal_configuration self seg is_competitive is_icp)) in
    let run :=
      determine_deal_outcome_and_highest_stage self seg is_competitive is_icp
        st in
    ((List.length rates <= 5)%nat ->
     exists res st',
       run = inr (res, st') /\
       (res = (Closed_Won, Contract_Review) \/
        exists h, In h stage_names /\ res = (Closed_Lost, h))) /\
    (forall (k : nat) (rate : Q),
        nth_error rates k = Some rate ->
        (5 <= k)%nat ->
        (forall j r, (j < k)%nat -> nth_error rates j = Some r ->
                     Qltb (draw st j) r = true) ->
        Qltb (draw st k) rate = false ->
        run = inl IndexError).
Proof.
  intros self seg is_competitive is_icp st rates run. subst rates run.
  unfold determine_deal_outcome_and_highest_stage.
  destruct (get_deal_configuration self seg is_competitive is_icp)
    as [cfg ct]. cbn [fst]. unfold enumerate. split.
  - intros Hlen.
    destruct (outcome_loop_returns (stage_conversion_rates cfg) 0 st Hlen)
      as (res & st' & Hrun).
    exists res, st'. split; [exact Hrun|].
    exact (outcome_loop_result _ _ _ _ _ Hrun).
  - intros k rate Hk Hfive Hbelow Hfail.
    apply (outcome_loop_index_error _ 0%nat k rate st Hk Hfive Hbelow Hfail).
Qed.

Lemma determine_deal_outcome_stage_lookup_witness :
  determine_deal_outcome_and_highest_stage six_rates Enterprise false true
    six_rates_state = inl IndexError.
Proof.
  apply (proj2 (determine_deal_outcome_stage_lookup six_rates Enterprise
                  false true six_rates_state) 5%nat 0.5%Q).
  - reflexivity.
  - apply Nat.le_refl.
  - intros j r Hj Hr.
    do 5 (destruct j as [|j];
          [cbn in Hr; injection Hr as <-; reflexivity|]).
    exfalso. apply (Nat.lt_irrefl 5).
    apply Nat.le_lt_trans with (m := S (S (S (S (S j))))); [|exact Hj].
    do 5 apply -> Nat.succ_le_mono. apply Nat.le_0_l.
  - reflexivity.
Defined.

(** ** Timeline builder: fields, edge cases and errors *)

(** X5.  Every record carries all fourteen timeline fields: each of the
    seven stages has its date field and its days field present, and the
    days field is null exactly when the date field is null. *)
Theorem record_timeline_fields :
  forall (self : GlobalSalesDataGenerator) (seg : segment)
         (created_date : Z) (is_competitive is_icp : bool) (amount : Z)
         (st st' : rng_state) (r : opportunity),
    generate_opportunity self seg created_date is_competitive is_icp amount st
    = inr (r, st') ->
    forall s, exists entry_date days,
      stage_data r (Stage_Date s) = Some entry_date /\
      stage_data r (Days_in_Stage s) = Some days /\
      (entry_date = None <-> days = None).
Proof.
  intros self seg created_date is_competitive is_icp amount st st' r Hrun s.
  destruct (record_timeline _ _ _ _ _ _ _ _ _ Hrun)
    as (sd & o2 & o3 & o4 & o5 & t6 & t7 & Hdata & Htl & _).
  pose proof (timeline_ext _ _ _ _ _ _ _ _ Htl s) as Hs.
  rewrite Hdata, with_days_stage_date, with_days_days_field, Hs.
  eexists. eexists. split; [reflexivity|]. split; [reflexivity|].
  unfold days_in_current_stage. rewrite Hs.
  cbn [dict_of_timeline].
  destruct (match s with
            | Lead_Qualification => Some created_date
            | Discovery => o2 | Proposal => o3 | Negotiation => o4
            | Contract_Review => o5 | Closed_Lost => t6 | Closed_Won => t7
            end) as [d|].
  - destruct (next_stage_date_of sd (later_stages s)); split; discriminate.
  - split; reflexivity.
Qed.

Lemma record_timeline_fields_witness :
  exists r st',
    generate_opportunity init Enterprise jan_2024 false false 1000 lost_state
    = inr (r, st') /\
    exists entry_date days,
      stage_data r (Stage_Date Proposal) = Some entry_date /\
      stage_data r (Days_in_Stage Proposal) = Some days /\
      (entry_date = None <-> days = None).
Proof.
  eexists. eexists. split; [vm_compute; reflexivity|].
  refine (record_timeline_fields init Enterprise jan_2024 false false 1000
            lost_state _ _ _ Proposal).
  vm_compute. reflexivity.
Defined.

(** X6.  Called for a deal that is not closed (or for a Closed Lost deal
    without a highest stage) whose close date equals its created date, the
    timeline builder divides by the zero cycle length and raises
    [ZeroDivisionError]. *)
Theorem calculate_stage_progression_zero_cycle :
  forall (self : GlobalSalesDataGenerator) (seg : segment)
         (created_date : Z) (final_stage : stage)
         (highest_stage_reached : option stage)
         (is_competitive is_icp : bool) (st : rng_state),
    final_stage <> Closed_Won ->
    (final_stage = Closed_Lost -> highest_stage_reached = None) ->
    calculate_stage_progression self seg created_date created_date
      final_stage highest_stage_reached is_competitive is_icp st
    = inl ZeroDivisionError.
Proof.
  intros self seg created_date final_stage highest is_competitive is_icp st
         Hwon Hlost.
  unfold calculate_stage_progression.
  destruct (get_deal_configuration self seg is_competitive is_icp) as [cfg ct].
  rewrite Z.sub_diag.
  assert (Hbranch : (if stage_eqb final_stage Closed_Lost
                     then highest else None) = None).
  { destruct final_stage; try reflexivity. cbn. apply Hlost. reflexivity. }
  rewrite Hbranch.
  assert (Hw : stage_eqb final_stage Closed_Won = false).
  { destruct final_stage; try reflexivity. exfalso. apply Hwon. reflexivity. }
  rewrite Hw. reflexivity.
Qed.

Lemma calculate_stage_progression_zero_cycle_witness :
  calculate_stage_progression init Mid_Market jan_2024 jan_2024 Discovery
    None false true jitter_state
  = inl ZeroDivisionError.
Proof.
  apply calculate_stage_progression_zero_cycle.
  - discriminate.
  - discriminate.
Defined.



Lemma py_int_upper (q : Q) (n : Z) : (q <= inject_Z n)%Q -> py_int q <= n.
Proof.
  intros H. unfold py_int. apply Z.quot_le_upper_bound; [reflexivity|].
  unfold Qle in H. cbn in H. lia.
Qed.

Lemma py_int_lower (q : Q) (n : Z) : (inject_Z n <= q)%Q -> n <= py_int q.
Proof.
  intros H. unfold py_int. apply Z.quot_le_lower_bound; [reflexivity|].
  unfold Qle in H. cbn in H. lia.
Qed.

(** On a cycle of minus 100 days or less, a jitter block over at least 5%
    of the cycle asks [random.randint] for an empty range. *)
Lemma add_randomness_negative_cycle (created_date total_cycle_days : Z)
    (stage_pct prev_stage_pct : Q) (entry : Z) (st : rng_state) :
  total_cycle_days <= -100 ->
  (0.05 <= stage_pct - prev_stage_pct)%Q ->
  add_randomness created_date total_cycle_days stage_pct prev_stage_pct
    entry st = inl ValueError.
Proof.
  intros HT Hpct. unfold add_randomness.
  assert (Hdur : py_int (inject_Z total_cycle_days
                         * (stage_pct - prev_stage_pct)) <= -5).
  { apply py_int_upper. rewrite Zle_Qle in HT.
    change (inject_Z (-100)) with (-100 # 1)%Q in HT.
    change (inject_Z (-5)) with (-5 # 1)%Q.
    generalize dependent (inject_Z total_cycle_days). intros t Ht.
    generalize dependent (stage_pct - prev_stage_pct)%Q. intros d Hd.
    assert (Hmul : (t * d <= (-100 # 1) * d)%Q)
      by (apply Qmult_le_compat_r; [exact Ht|lra]).
    lra. }
  generalize dependent (py_int (inject_Z total_cycle_days
                                * (stage_pct - prev_stage_pct))).
  intros dur Hdur.
  assert (Hb : py_int (inject_Z dur * 0.2) <= -1).
  { apply py_int_upper. rewrite Zle_Qle in Hdur.
    change (inject_Z (-5)) with (-5 # 1)%Q in Hdur.
    change (inject_Z (-1)) with (-1 # 1)%Q.
    generalize dependent (inject_Z dur). intros t Ht. lra. }
  unfold bind, random_randint.
  destruct (py_int (inject_Z dur * 0.2) <? - py_int (inject_Z dur * 0.2))
    eqn:E; [reflexivity|].
  apply Z.ltb_ge in E. lia.
Qed.

(** X8.  A Closed Won timeline asked for a close date 100 days or more
    before the created date is not built: the first jitter block asks
    [random.randint] for an empty range and the call raises
    [ValueError]. *)
Theorem calculate_stage_progression_negative_cycle :
  forall (self : GlobalSalesDataGenerator) (seg : segment)
         (created_date expected_close_date : Z)
         (highest_stage_reached : option stage)
         (is_competitive is_icp : bool) (st : rng_state),
    expected_close_date <= created_date - 100 ->
    calculate_stage_progression self seg created_date expected_close_date
      Closed_Won highest_stage_reached is_competitive is_icp st
    = inl ValueError.
Proof.
  intros self seg created_date expected_close_date highest is_competitive
         is_icp st Hneg.
  unfold calculate_stage_progression.
  destruct (get_deal_configuration self seg is_competitive is_icp) as [cfg ct].
  assert (HT : expected_close_date - created_date <= -100) by lia.
  generalize dependent (expected_close_date - created_date). intros T HT.
  cbn [stage_eqb stage_num Z.eqb Pos.eqb].
  pose proof (stage_progression_cases ct seg is_competitive) as Htab.
  destruct Htab as [<-|[<-|[<-|[]]]];
    run_monad;
    rewrite add_randomness_negative_cycle
      by (try assumption; apply Qle_bool_iff; reflexivity);
    reflexivity.
Qed.

Lemma calculate_stage_progression_negative_cycle_witness :
  calculate_stage_progression init Enterprise jan_2024 (jan_2024 - 120)
    Closed_Won (Some Contract_Review) true true jitter_state
  = inl ValueError.
Proof.
  apply calculate_stage_progression_negative_cycle. discriminate.
Defined.

(** ** Deal progression and assembled fields *)

(** X9.  In every record the close date is at least 20 days after the
    created date; the deal is closed (Closed Won or Closed Lost) exactly
    when its close date is not after the current date; the highest stage
    reached is recorded exactly for Closed Lost deals; and the age is the
    current date minus the created date. *)
Theorem record_cycle_and_closure :
  forall (self : GlobalSalesDataGenerator) (seg : segment)
         (created_date : Z) (is_competitive is_icp : bool) (amount : Z)
         (st st' : rng_state) (r : opportunity),
    generate_opportunity self seg created_date is_competitive is_icp amount st
    = inr (r, st') ->
    Created_Date r + 20 <= Close_Date r /\
    (is_closed (Stage r) = true <-> Close_Date r <= current_time) /\
    (Highest_Stage_Reached r <> None <-> Stage r = Closed_Lost) /\
    Age_Days r = current_time - Created_Date r.
Proof.
  intros self seg created_date is_competitive is_icp amount st st' r Hrun.
  destruct (generate_opportunity_inv _ _ _ _ _ _ _ _ _ Hrun)
    as (_ & Hcreated & Hage & Hclose & sd & _ & Hcases).
  rewrite Hcreated. split; [exact Hclose|].
  destruct Hcases as [(Hs & Hpast & _ & _ & Hh & _)
                     |[(Hs & Hpast & _ & _ & h & _ & Hh & _)
                      |(Hin & Hfut & _ & Hh & _)]].
  - rewrite Hs, Hh. split; [|split].
    + split; intros _; [exact Hpast|reflexivity].
    + split; intros H; [exfalso; apply H; reflexivity|discriminate H].
    + exact Hage.
  - rewrite Hs, Hh. split; [|split].
    + split; intros _; [exact Hpast|reflexivity].
    + split; intros _; [reflexivity|discriminate].
    + exact Hage.
  - rewrite Hh.
    assert (Hopen : is_closed (Stage r) = false /\ Stage r <> Closed_Lost).
    { cbn in Hin. destruct Hin as [H|[H|[H|[H|[H|[]]]]]]; rewrite <- H;
        split; (reflexivity || discriminate). }
    destruct Hopen as [Hopen Hne]. rewrite Hopen. split; [|split].
    + split; intros H; [discriminate H|exfalso; lia].
    + split; intros H; [exfalso; apply H; reflexivity|exfalso; exact (Hne H)].
    + exact Hage.
Qed.

Lemma record_cycle_and_closure_witness :
  exists r st',
    generate_opportunity init Enterprise jan_2024 false false 1000 lost_state
    = inr (r, st') /\
    Created_Date r + 20 <= Close_Date r.
Proof.
  eexists. eexists. split; [vm_compute; reflexivity|].
  refine (proj1 (record_cycle_and_closure init Enterprise jan_2024 false
                   false 1000 lost_state _ _ _)).
  vm_compute. reflexivity.
Defined.

Lemma py_min_le_l (a b : Q) : (py_min a b <= a)%Q.
Proof.
  unfold py_min. destruct (Qltb b a) eqn:E.
  - apply Qltb_true in E. apply Qlt_le_weak. exact E.
  - apply Qle_refl.
Qed.

(** The open branch on the Enterprise non-ICP curve never dates the
    Contract Review stage: its fraction, 0.95, is above the 0.9 cap of the
    progress ratio. *)
Lemma open_stage_dates_non_icp (is_competitive : bool)
    (created_date expected_close_date : Z) (st : rng_state) :
  created_date < expected_close_date ->
  exists sd st',
    open_stage_dates (stage_progression Non_ICP Enterprise is_competitive)
      created_date (expected_close_date - created_date)
      (stage_dates0 created_date) st
    = inr (sd, st') /\
    sd (Stage_Date Contract_Review) = Some None.
Proof.
  intros Hlt. unfold open_stage_dates.
  destruct (expected_close_date - created_date =? 0) eqn:E;
    [apply Z.eqb_eq in E; lia|clear E].
  assert (HT : 0 <= expected_close_date - created_date) by lia.
  generalize dependent (expected_close_date - created_date). intros T HT.
  assert (H95 : Qle_bool 0.95
                  (py_min 0.9 (inject_Z (current_time - created_date)
                               / inject_Z T)) = false).
  { destruct (Qle_bool 0.95 _) eqn:E; [|reflexivity].
    apply Qle_bool_iff in E. exfalso.
    pose proof (py_min_le_l 0.9 (inject_Z (current_time - created_date)
                                 / inject_Z T)) as Hcap.
    generalize dependent (py_min 0.9 (inject_Z (current_time - created_date)
                                      / inject_Z T)).
    intros pr E Hcap. lra. }
  generalize dependent (py_min 0.9 (inject_Z (current_time - created_date)
                                    / inject_Z T)).
  intros progress_ratio H95.
  unfold stage_dates0. run_monad. rewrite ?H95.
  repeat timeline_step HT; run_monad;
    eexists; eexists; (split; [reflexivity|]); reflexivity.
Qed.

(** X10.  In the record of every open Enterprise deal with a non-ICP
    account the Contract Review entry date is null, even when the reported
    stage is "5 - Contract Review": the stage is reported from progress
    thresholds, the date from the timing curve, and the curve's 95% is never
    reached by a progress ratio capped at 90%. *)
Theorem open_non_icp_contract_review_undated :
  forall (self : GlobalSalesDataGenerator) (created_date : Z)
         (is_competitive : bool) (amount : Z)
         (st st' : rng_state) (r : opportunity),
    generate_opportunity self Enterprise created_date is_competitive false
      amount st
    = inr (r, st') ->
    current_time < Close_Date r ->
    stage_data r (Stage_Date Contract_Review) = Some None.
Proof.
  intros self created_date is_competitive amount st st' r Hrun.
  unfold generate_opportunity in Hrun.
  apply bind_inr_inv in Hrun as ([[stage close] highest] & st1 & Eprog & Hrun).
  apply bind_inr_inv in Hrun as (data & st2 & Edata & Hrun).
  apply bind_inr_inv in Hrun as ([p e] & st3 & _ & Hrun).
  apply bind_inr_inv in Hrun as (c & st4 & _ & Hrun).
  apply ret_inr_inv in Hrun. subst r. cbn [Close_Date stage_data].
  intros Hopen.
  apply calculate_deal_progression_result in Eprog
    as (close' & Hclose & [[Hpast [H|(h & Hin & H)]] | [Hfut (s & Hin & H)]]);
    injection H as -> -> ->; try lia.
  unfold calculate_stage_progression in Edata.
  cbn [get_deal_configuration segment_eqb negb andb] in Edata.
  assert (Hs : stage_eqb s Closed_Lost = false /\
               stage_eqb s Closed_Won = false).
  { cbn in Hin. destruct Hin as [<-|[<-|[<-|[<-|[<-|[]]]]]];
      split; reflexivity. }
  destruct Hs as [Hs6 Hs7]. rewrite Hs6, Hs7 in Edata.
  destruct (open_stage_dates_non_icp is_competitive created_date close' st1
              ltac:(lia)) as (sd & st2' & Hsd & Hnull).
  unfold bind in Edata. fold (stage_dates0 created_date) in Edata.
  rewrite Hsd in Edata. apply ret_inr_inv in Edata. subst data.
  fold (with_days sd s close').
  rewrite with_days_stage_date. exact Hnull.
Qed.

Lemma open_non_icp_contract_review_undated_witness :
  exists r st',
    generate_opportunity init Enterprise (current_time - 200) false false
      1000 lost_state
    = inr (r, st') /\
    Stage r = Contract_Review /\
    stage_data r (Stage_Date Contract_Review) = Some None.
Proof.
  eexists. eexists. split; [vm_compute; reflexivity|].
  split; [reflexivity|].
  refine (open_non_icp_contract_review_undated init (current_time - 200)
            false 1000 lost_state _ _ _ _).
  - vm_compute. reflexivity.
  - vm_compute. reflexivity.
Defined.

(** What the assembler copies into a record, and the expected revenue of an
    open deal. *)
Lemma generate_opportunity_fields (self : GlobalSalesDataGenerator)
    (seg : segment) (created_date : Z) (is_competitive is_icp : bool)
    (amount : Z) (st st' : rng_state) (r : opportunity) :
  generate_opportunity self seg created_date is_competitive is_icp amount st
  = inr (r, st') ->
  Segment r = seg /\ Competitive_Deal r = is_competitive /\
  Is_ICP_Account r = is_icp /\
  (is_competitive = false -> Primary_Competitor r = None) /\
  (is_competitive = true ->
   exists c, Primary_Competitor r = Some c /\ In c (competitors self)) /\
  (is_closed (Stage r) = false ->
   Expected_Revenue r
   = py_int (inject_Z amount
             * (inject_Z (Probability_Percent r) / inject_Z 100))%Q).
Proof.
  unfold generate_opportunity. intros Hrun.
  apply bind_inr_inv in Hrun as ([[stage close] highest] & st1 & _ & Hrun).
  apply bind_inr_inv in Hrun as (data & st2 & _ & Hrun).
  apply bind_inr_inv in Hrun as ([p e] & st3 & Eprob & Hrun).
  apply bind_inr_inv in Hrun as (c & st4 & Ecomp & Hrun).
  apply ret_inr_inv in Hrun. subst r.
  cbn [Stage Segment Competitive_Deal Is_ICP_Account Primary_Competitor
       Expected_Revenue Probability_Percent].
  split; [reflexivity|]. split; [reflexivity|]. split; [reflexivity|].
  split; [|split].
  - intros ->. apply ret_inr_inv in Ecomp. exact Ecomp.
  - intros ->.
    apply bind_inr_inv in Ecomp as (c0 & st5 & Echoice & Ecomp).
    apply ret_inr_inv in Ecomp. subst c.
    exists c0. split; [reflexivity|].
    unfold random_choice in Echoice.
    destruct (competitors self) as [|a l] eqn:El; [discriminate|].
    apply bind_inr_inv in Echoice as (u & st6 & _ & Echoice).
    apply ret_inr_inv in Echoice. subst c0.
    apply nth_In.
    apply Nat2Z.inj_lt. rewrite Z2Nat.id.
    + apply Z.mod_pos_bound. cbn [List.length]. lia.
    + apply Z.mod_pos_bound. cbn [List.length]. lia.
  - unfold is_closed. intros Hopen.
    apply orb_false_iff in Hopen as [Hl Hw]. rewrite Hl, Hw in Eprob.
    destruct (get_deal_configuration self seg is_competitive is_icp)
      as [cfg ct].
    apply bind_inr_inv in Eprob as (p' & st5 & _ & Eprob).
    apply ret_inr_inv in Eprob. injection Eprob as -> ->. reflexivity.
Qed.

(** X11.  For a non-negative amount, the expected revenue of every record
    lies between 0 and the amount. *)
Theorem expected_revenue_bounds :
  forall (self : GlobalSalesDataGenerator) (seg : segment)
         (created_date : Z) (is_competitive is_icp : bool) (amount : Z)
         (st st' : rng_state) (r : opportunity),
    generate_opportunity self seg created_date is_competitive is_icp amount st
    = inr (r, st') ->
    0 <= amount ->
    0 <= Expected_Revenue r <= Amount r.
Proof.
  intros self seg created_date is_competitive is_icp amount st st' r Hrun
         Hamount.
  destruct (generate_opportunity_inv _ _ _ _ _ _ _ _ _ Hrun)
    as (Ha & _ & _ & _ & sd & _ & Hcases).
  destruct (generate_opportunity_fields _ _ _ _ _ _ _ _ _ Hrun)
    as (_ & _ & _ & _ & _ & Hrev).
  rewrite Ha.
  destruct Hcases as [(_ & _ & _ & He & _)|[(_ & _ & _ & He & _)
                     |(Hin & _ & Hp & _)]]; try lia.
  assert (Hopen : is_closed (Stage r) = false).
  { cbn in Hin. destruct Hin as [H|[H|[H|[H|[H|[]]]]]]; rewrite <- H;
      reflexivity. }
  rewrite (Hrev Hopen).
  destruct Hp as [Hp0 Hp100].
  rewrite Zlt_Qlt in Hp0, Hp100. rewrite Zle_Qle in Hamount.
  change (inject_Z 0) with 0%Q in Hp0, Hamount.
  change (inject_Z 100) with (100 # 1)%Q in Hp100.
  unfold Qdiv. change (/ inject_Z 100)%Q with (1 # 100)%Q.
  generalize dependent (inject_Z (Probability_Percent r)). intros q Hq0 Hq100.
  assert (Hf0 : (0 <= q * (1 # 100))%Q) by lra.
  assert (Hf1 : (q * (1 # 100) <= 1)%Q) by lra.
  split.
  - apply py_int_lower. change (inject_Z 0) with 0%Q.
    apply Qmult_le_0_compat; assumption.
  - apply py_int_upper.
    rewrite <- (Qmult_1_r (inject_Z amount)) at 2.
    rewrite (Qmult_comm (inject_Z amount) (q * (1 # 100))).
    rewrite (Qmult_comm (inject_Z amount) 1).
    apply Qmult_le_compat_r; assumption.
Qed.

Lemma expected_revenue_bounds_witness :
  exists r st',
    generate_opportunity init Enterprise (current_time - 100) true false 1000
      lost_state
    = inr (r, st') /\
    0 <= Expected_Revenue r <= Amount r.
Proof.
  eexists. eexists. split; [vm_compute; reflexivity|].
  refine (expected_revenue_bounds init Enterprise (current_time - 100) true
            false 1000 lost_state _ _ _ _).
  - vm_compute. reflexivity.
  - discriminate.
Defined.

(** X12.  A record names a primary competitor exactly when the deal is
    competitive, and then it is one of the generator's competitors; the
    segment and the two challenge flags are copied into the record
    unchanged. *)
Theorem record_competitor_and_flags :
  forall (self : GlobalSalesDataGenerator) (seg : segment)
         (created_date : Z) (is_competitive is_icp : bool) (amount : Z)
         (st st' : rng_state) (r : opportunity),
    generate_opportunity self seg created_date is_competitive is_icp amount st
    = inr (r, st') ->
    Segment r = seg /\ Competitive_Deal r = is_competitive /\
    Is_ICP_Account r = is_icp /\
    (Competitive_Deal r = false -> Primary_Competitor r = None) /\
    (Competitive_Deal r = true ->
     exists c, Primary_Competitor r = Some c /\ In c (competitors self)).
Proof.
  intros self seg created_date is_competitive is_icp amount st st' r Hrun.
  destruct (generate_opportunity_fields _ _ _ _ _ _ _ _ _ Hrun)
    as (Hseg & Hcomp & Hicp & Hnone & Hsome & _).
  rewrite Hcomp. repeat split; assumption.
Qed.

Lemma record_competitor_and_flags_witness :
  exists r st',
    generate_opportunity init Enterprise (current_time - 100) true false 1000
      lost_state
    = inr (r, st') /\
    exists c, Primary_Competitor r = Some c /\ In c (competitors init).
Proof.
  eexists. eexists. split; [vm_compute; reflexivity|].
  refine (proj2 (proj2 (proj2 (proj2
            (record_competitor_and_flags init Enterprise (current_time - 100)
               true false 1000 lost_state _ _ _)))) _).
  - vm_compute. reflexivity.
  - reflexivity.
Defined.

(** ** Sampling of the amount and the created date *)

Lemma random_randint_run (a b : Z) (st : rng_state) :
  a <= b ->
  exists n, a <= n <= b /\ random_randint a b st = inr (n, py_advance 1 st).
Proof.
  intros Hab. unfold random_randint.
  destruct (b <? a) eqn:E; [apply Z.ltb_lt in E; lia|].
  exists (a + py_tape st (py_pos st) mod (b - a + 1)). split.
  - pose proof (Z.mod_pos_bound (py_tape st (py_pos st)) (b - a + 1)). lia.
  - reflexivity.
Qed.

Lemma random_uniform_run (a b : Q) (st : rng_state) :
  (a <= b)%Q ->
  exists v, (a <= v)%Q /\ (v <= b)%Q /\
            random_uniform a b st = inr (v, py_advance 1 st).
Proof.
  intros Hab. unfold random_uniform.
  rewrite (bind_inr _ _ _ _ _ (random_random_run st)).
  destruct (draw_range st 0) as [Hlo Hhi].
  generalize dependent (draw st 0). intros u Hlo Hhi.
  eexists. split; [|split; [|reflexivity]].
  - assert (H : (0 <= (b - a) * u)%Q)
      by (apply Qmult_le_0_compat; [lra|exact Hlo]).
    lra.
  - assert (H : ((b - a) * u <= (b - a) * 1)%Q).
    { rewrite (Qmult_comm (b - a) u), (Qmult_comm (b - a) 1).
      apply Qmult_le_compat_r; lra. }
    lra.
Qed.

Lemma quarters_elapsed_nonneg (d : datetime) :
  valid_datetime d = true -> datetime_le baseline_date d = true ->
  0 <= quarters_elapsed d baseline_date.
Proof.
  unfold valid_datetime, datetime_le, datetime_lt, quarters_elapsed. cbn.
  intros V H.
  repeat rewrite andb_true_iff in V. repeat rewrite Z.leb_le in V.
  rewrite negb_true_iff, orb_false_iff, andb_false_iff, orb_false_iff,
    andb_false_iff in H.
  repeat rewrite Z.ltb_ge in H. repeat rewrite Z.eqb_neq in H.
  assert (Hq : 0 <= (month d - 1) / 3) by (apply Z.div_pos; lia).
  lia.
Qed.

(** For dates on or after the baseline the growth multiplier is at least
    0.9: compound growth of at least 1 times a volatility of 0.9 to 1.1. *)
Lemma get_growth_multiplier_run (d : datetime) (st : rng_state) :
  valid_datetime d = true -> datetime_le baseline_date d = true ->
  exists g, (0.9 <= g)%Q /\
            get_growth_multiplier d baseline_date st
            = inr (g, py_advance 1 st).
Proof.
  intros V Hepoch. unfold get_growth_multiplier.
  assert (Hgrowth : (1 <= (1 + quarterly_growth_rate)
                          ^ quarters_elapsed d baseline_date)%Q).
  { apply Qpower_1_le; [|apply quarters_elapsed_nonneg; assumption].
    apply Qle_bool_iff. reflexivity. }
  destruct (random_uniform_run (1 - growth_volatility)
              (1 + growth_volatility) st ltac:(apply Qle_bool_iff; reflexivity))
    as (v & Hlo & _ & Hrun).
  rewrite (bind_inr _ _ _ _ _ Hrun).
  eexists. split; [|reflexivity].
  assert (Hv : (0.9 <= v)%Q).
  { eapply Qle_trans; [|exact Hlo]. apply Qle_bool_iff. reflexivity. }
  generalize dependent ((1 + quarterly_growth_rate)
                        ^ quarters_elapsed d baseline_date)%Q.
  intros bg Hbg.
  assert (H : (1 * v <= bg * v)%Q)
    by (apply Qmult_le_compat_r; [exact Hbg|lra]).
  lra.
Qed.

(** The amount of a deal created on or after the baseline, in the exact
    arithmetic of the model. *)
Lemma sample_amount_run (seg : segment) (created_date : datetime)
    (st : rng_state) :
  valid_datetime created_date = true ->
  datetime_le baseline_date created_date = true ->
  exists amount min_amount max_amount,
    sample_amount init seg created_date st
    = inr (amount, py_advance 2 st) /\
    amount_range (segments init seg) = Some (min_amount, max_amount) /\
    0 < amount /\ 9 * min_amount <= 10 * amount.
Proof.
  intros V Hepoch. unfold sample_amount.
  assert (Hrange : exists lo hi,
             amount_range (segments init seg) = Some (lo, hi) /\
             0 < lo <= hi /\ lo mod 10 = 0).
  { destruct seg; cbn; eexists; eexists;
      (split; [reflexivity|]); split; try reflexivity; split;
      try reflexivity; discriminate. }
  destruct Hrange as (lo & hi & -> & Hlohi & Hten).
  destruct (random_randint_run lo hi st ltac:(lia)) as (base & Hbase & Hrun).
  rewrite (bind_inr _ _ _ _ _ Hrun).
  destruct (get_growth_multiplier_run created_date (py_advance 1 st)
              V Hepoch) as (g & Hg & Hgrow).
  rewrite (bind_inr _ _ _ _ _ Hgrow). rewrite py_advance_add.
  eexists. exists lo, hi. split; [reflexivity|]. split; [reflexivity|].
  assert (Hlow : 9 * (lo / 10) <= py_int (inject_Z base * g)).
  { apply py_int_lower.
    assert (Hb : (inject_Z lo <= inject_Z base)%Q)
      by (rewrite <- Zle_Qle; lia).
    assert (Hlo0 : (0 <= inject_Z lo)%Q)
      by (change 0%Q with (inject_Z 0); rewrite <- Zle_Qle; lia).
    assert (Hdiv : (inject_Z (9 * (lo / 10)) == inject_Z lo * 0.9)%Q).
    { rewrite (Z.div_mod lo 10) at 2 by discriminate. rewrite Hten.
      rewrite Z.add_0_r. rewrite !inject_Z_mult.
      change (inject_Z 9) with (9 # 1)%Q.
      change (inject_Z 10) with (10 # 1)%Q. field. }
    rewrite Hdiv.
    generalize dependent (inject_Z base). intros b Hb.
    generalize dependent (inject_Z lo). intros l Hl0 Hdiv Hb.
    assert (H1 : (l * 0.9 <= l * g)%Q).
    { rewrite (Qmult_comm l 0.9), (Qmult_comm l g).
      apply Qmult_le_compat_r; assumption. }
    assert (H2 : (l * g <= b * g)%Q)
      by (apply Qmult_le_compat_r; [exact Hb|lra]).
    lra. }
  pose proof (Z.div_mod lo 10 ltac:(discriminate)) as Hdm.
  split; lia.
Qed.

(** X13.  With the tables of [__init__], the amount computed for a deal
    created between the January 2023 baseline and the end of the year 2500
    is positive and at least 90% of the segment's minimum amount; the
    computation raises nothing and consumes two [random] draws.  (The year
    bound keeps the float power of the growth multiplier far below the
    largest double, where Python would raise [OverflowError].) *)
Theorem sample_amount_lower_bound :
  forall (seg : segment) (created_date : datetime) (st : rng_state),
    valid_datetime created_date = true ->
    datetime_le baseline_date created_date = true ->
    year created_date <= 2500 ->
    exists amount min_amount max_amount,
      sample_amount init seg created_date st
      = inr (amount, py_advance 2 st) /\
      amount_range (segments init seg) = Some (min_amount, max_amount) /\
      0 < amount /\ 9 * min_amount <= 10 * amount.
Proof.
  intros seg created_date st V Hepoch _.
  exact (sample_amount_run seg created_date st V Hepoch).
Qed.

Lemma sample_amount_lower_bound_witness :
  exists amount min_amount max_amount,
    sample_amount init Mid_Market {| year := 2024; month := 8; day := 15 |}
      walk_state
    = inr (amount, py_advance 2 walk_state) /\
    amount_range (segments init Mid_Market) = Some (min_amount, max_amount) /\
    0 < amount /\ 9 * min_amount <= 10 * amount.
Proof.
  apply sample_amount_lower_bound; [reflexivity|reflexivity|].
  intros H. discriminate H.
Defined.

(** X14.  The created date drawn for a deal lies between the start date
    and the end date whenever the start date is not after the end date (the
    exponential deviate being non-negative); with the start date after the
    end date the negative scale makes [np.random.exponential] raise
    [ValueError]. *)
Theorem sample_created_date_range :
  forall (start_date end_date : Z) (st : rng_state),
    (start_date <= end_date ->
     (0 <= np_tape st (np_pos st))%Q ->
     exists created_date,
       sample_created_date start_date end_date st
       = inr (created_date, np_advance 1 st) /\
       start_date <= created_date <= end_date) /\
    (end_date < start_date ->
     sample_created_date start_date end_date st = inl ValueError).
Proof.
  intros start_date end_date st. unfold sample_created_date.
  unfold np_random_exponential. split.
  - intros Hspan Hdev.
    assert (Hscale : (0 <= inject_Z (end_date - start_date) / 4)%Q).
    { apply Qle_shift_div_l; [reflexivity|].
      rewrite Qmult_0_l. change 0%Q with (inject_Z 0).
      rewrite <- Zle_Qle. lia. }
    destruct (Qltb (inject_Z (end_date - start_date) / 4) 0) eqn:E.
    { apply Qltb_true in E. exfalso. exact (Qlt_not_le _ _ E Hscale). }
    unfold bind, np_next, ret. eexists. split; [reflexivity|].
    assert (Hx : 0 <= py_int (inject_Z (end_date - start_date) / 4
                              * np_tape st (np_pos st))).
    { apply py_int_nonneg. apply Qmult_le_0_compat; assumption. }
    lia.
  - intros Hspan.
    destruct (Qltb (inject_Z (end_date - start_date) / 4) 0) eqn:E;
      [reflexivity|].
    apply Qltb_false in E. exfalso.
    assert (Hneg : (inject_Z (end_date - start_date) < 0)%Q).
    { change 0%Q with (inject_Z 0). rewrite <- Zlt_Qlt. lia. }
    generalize dependent (inject_Z (end_date - start_date)). intros t E Ht.
    unfold Qdiv in E. change (/ 4)%Q with (1 # 4)%Q in E. lra.
Qed.

Lemma sample_created_date_range_witness :
  exists created_date,
    sample_created_date jan_2024 current_time
      {| py_tape := fun _ => 0; py_pos := 0;
         np_tape := fun _ => (3 # 2)%Q; np_pos := 0 |}
    = inr (created_date,
           np_advance 1 {| py_tape := fun _ => 0; py_pos := 0;
                           np_tape := fun _ => (3 # 2)%Q; np_pos := 0 |}) /\
    jan_2024 <= created_date <= current_time.
Proof.
  apply (proj1 (sample_created_date_range jan_2024 current_time _)).
  - discriminate.
  - discriminate.
Defined.

(** ** Reported stage of open deals *)

Lemma py_min_le_mono_r (a x y : Q) :
  (x <= y)%Q -> (py_min a x <= py_min a y)%Q.
Proof.
  intros Hxy. unfold py_min.
  destruct (Qltb x a) eqn:Ex, (Qltb y a) eqn:Ey.
  - exact Hxy.
  - apply Qltb_true in Ex. apply Qlt_le_weak. exact Ex.
  - apply Qltb_true in Ey. apply Qltb_false in Ex.
    exfalso. apply (Qlt_not_le _ _ Ey). eapply Qle_trans; eassumption.
  - apply Qle_refl.
Qed.

Lemma progress_ratio_mono (age1 age2 cycle : Z) :
  age2 <= age1 -> 0 < cycle ->
  (py_min 0.9 (inject_Z age2 / inject_Z cycle)
   <= py_min 0.9 (inject_Z age1 / inject_Z cycle))%Q.
Proof.
  intros Hage Hcycle. apply py_min_le_mono_r.
  unfold Qdiv. apply Qmult_le_compat_r.
  - rewrite <- Zle_Qle. exact Hage.
  - apply Qinv_le_0_compat. change 0%Q with (inject_Z 0).
    rewrite <- Zle_Qle. lia.
Qed.

(** An open result of [calculate_deal_progression] is the stage read off
    the progress ratio of the sampled cycle. *)
Lemma calculate_deal_progression_open (self : GlobalSalesDataGenerator)
    (seg : segment) (created_date : Z) (is_competitive is_icp : bool)
    (st st' : rng_state) (s : stage) (close_date : Z) :
  calculate_deal_progression self seg created_date is_competitive is_icp st
  = inr ((s, close_date, None), st') ->
  let '(cfg, ct) := get_deal_configuration self seg is_competitive is_icp in
  let cycle := sampled_cycle cfg st in
  close_date = created_date + cycle /\
  s = reported_open_stage ct seg is_competitive
        (py_min 0.9 (inject_Z (current_time - created_date)
                     / inject_Z cycle)).
Proof.
  unfold calculate_deal_progression.
  destruct (get_deal_configuration self seg is_competitive is_icp)
    as [cfg ct].
  unfold bind at 1, np_random_normal, bind at 1, np_next, ret at 1.
  fold (sampled_cycle cfg st).
  generalize (sampled_cycle cfg st). intros cycle Hrun.
  destruct (created_date + cycle <=? current_time).
  { apply bind_inr_inv in Hrun as ([f h] & st1 & _ & Hrun).
    apply ret_inr_inv in Hrun. discriminate Hrun. }
  unfold reported_open_stage. cbv zeta in Hrun |- *.
  generalize dependent (py_min 0.9 (inject_Z (current_time - created_date)
                                    / inject_Z cycle)).
  intros p Hrun.
  repeat match type of Hrun with
         | context [if ?c then _ else _] => destruct c
         end;
    apply ret_inr_inv in Hrun; injection Hrun as -> ->; split; reflexivity.
Qed.

Lemma reported_open_stage_mono (ct : config_type) (seg : segment)
    (is_competitive : bool) (p1 p2 : Q) :
  (p2 <= p1)%Q ->
  stage_num (reported_open_stage ct seg is_competitive p2)
  <= stage_num (reported_open_stage ct seg is_competitive p1).
Proof.
  intros Hp. unfold reported_open_stage. cbv zeta.
  destruct (config_type_eqb ct Non_ICP && segment_eqb seg Enterprise);
    [|destruct is_competitive];
    repeat match goal with
           | |- context [if Qltb ?a ?b then _ else _] =>
               let E := fresh "E" in
               destruct (Qltb a b) eqn:E;
               [apply Qltb_true in E|apply Qltb_false in E]
           end;
    first [cbn; lia|exfalso; lra].
Qed.

(** X15.  Between two open deals of the same segment and flags that drew
    the same cycle length, the one created earlier is never reported in an
    earlier stage than the one created later. *)
Theorem open_stage_monotone_in_age :
  forall (self : GlobalSalesDataGenerator) (seg : segment)
         (is_competitive is_icp : bool) (st st1 st2 : rng_state)
         (created1 created2 close1 close2 : Z) (stage1 stage2 : stage),
    created1 <= created2 ->
    calculate_deal_progression self seg created1 is_competitive is_icp st
    = inr ((stage1, close1, None), st1) ->
    calculate_deal_progression self seg created2 is_competitive is_icp st
    = inr ((stage2, close2, None), st2) ->
    stage_num stage2 <= stage_num stage1.
Proof.
  intros self seg is_competitive is_icp st st1 st2 created1 created2
         close1 close2 stage1 stage2 Hcreated H1 H2.
  pose proof (calculate_deal_progression_open _ _ _ _ _ _ _ _ _ H1) as O1.
  pose proof (calculate_deal_progression_open _ _ _ _ _ _ _ _ _ H2) as O2.
  destruct (get_deal_configuration self seg is_competitive is_icp)
    as [cfg ct].
  cbv zeta in O1, O2. destruct O1 as [_ ->]. destruct O2 as [_ ->].
  apply reported_open_stage_mono.
  apply progress_ratio_mono; [lia|].
  unfold sampled_cycle. lia.
Qed.

Lemma open_stage_monotone_in_age_witness :
  stage_num Discovery <= stage_num Contract_Review.
Proof.
  refine (open_stage_monotone_in_age init Enterprise false false lost_state
            _ _ (current_time - 200) (current_time - 100) _ _
            Contract_Review Discovery _ _ _).
  - discriminate.
  - vm_compute. reflexivity.
  - vm_compute. reflexivity.
Defined.

(** ** Deals created after the current date *)

Lemma days_before_year_mono (y1 y2 : Z) :
  y1 <= y2 -> days_before_year y1 <= days_before_year y2.
Proof.
  unfold days_before_year. cbv zeta. intros H.
  Z.div_mod_to_equations. lia.
Qed.

Lemma days_before_month_bound (y m : Z) :
  1 <= m <= 12 -> 0 <= days_before_month y m <= 335.
Proof.
  intros Hm.
  assert (H : m = 1 \/ m = 2 \/ m = 3 \/ m = 4 \/ m = 5 \/ m = 6 \/ m = 7 \/
              m = 8 \/ m = 9 \/ m = 10 \/ m = 11 \/ m = 12) by lia.
  unfold days_before_month.
  repeat destruct H as [H|H]; subst m;
    match goal with
    | |- context [Z.to_nat ?e] =>
        let n := eval vm_compute in (Z.to_nat e) in
        change (Z.to_nat e) with n
    end;
    cbn [days_before_month_aux]; unfold days_in_month; cbn;
    destruct (is_leap y); lia.
Qed.

Lemma days_in_month_bound (y m : Z) : days_in_month y m <= 31.
Proof.
  unfold days_in_month.
  destruct (m =? 2); [destruct (is_leap y); lia|].
  destruct ((m =? 4) || (m =? 6) || (m =? 9) || (m =? 11)); lia.
Qed.

(** A valid date after the current date is in 2025 or later. *)
Lemma future_date_year (d : datetime) :
  valid_datetime d = true -> current_time < toordinal d -> 2025 <= year d.
Proof.
  intros V Hfuture.
  unfold valid_datetime in V. repeat rewrite andb_true_iff in V.
  repeat rewrite Z.leb_le in V.
  destruct V as [[[[[Hy1 Hy2] Hm1] Hm2] Hd1] Hd2].
  pose proof (days_before_month_bound (year d) (month d) ltac:(lia)) as Hbm.
  pose proof (days_in_month_bound (year d) (month d)) as Hdm.
  assert (Hct : toordinal {| year := 2025; month := 9; day := 13 |}
                = days_before_year 2025 + 256) by (vm_compute; reflexivity).
  rewrite <- current_time_ordinal in Hct.
  destruct (Z_lt_le_dec (year d) 2025) as [Hearly|Hlate]; [|exact Hlate].
  exfalso.
  pose proof (days_before_year_mono (year d) 2024 ltac:(lia)) as Hmono.
  assert (H2024 : days_before_year 2024 + 366 = days_before_year 2025)
    by (vm_compute; reflexivity).
  unfold toordinal in Hfuture. lia.
Qed.

Lemma future_date_after_baseline (d : datetime) :
  valid_datetime d = true -> current_time < toordinal d ->
  datetime_le baseline_date d = true.
Proof.
  intros V Hfuture. pose proof (future_date_year d V Hfuture) as Hy.
  unfold datetime_le, datetime_lt, baseline_date. cbn [year month day].
  rewrite negb_true_iff, orb_false_iff, andb_false_iff.
  rewrite Z.ltb_ge, Z.eqb_neq. split; [lia|left; lia].
Qed.




(** ** Salesforce generator: stage parameters *)

Lemma py_max_ge_l (a b : Q) : (a <= py_max a b)%Q.
Proof.
  unfold py_max. destruct (Qltb a b) eqn:E.
  - apply Qltb_true in E. apply Qlt_le_weak. exact E.
  - apply Qle_refl.
Qed.

Lemma py_max_le (a b c : Q) :
  (a <= c)%Q -> (b <= c)%Q -> (py_max a b <= c)%Q.
Proof. intros Ha Hb. unfold py_max. destruct (Qltb a b); assumption. Qed.

(** The clamp of the conversion probability. *)
Lemma stage_conversion_range (self : Salesforce.SalesforceDataGenerator)
    (current_stage : Salesforce.stage) (current_date : datetime)
    (base_cycle : Z) (win_rate_modifier cycle_modifier : Q)
    (stage_conversion avg_stage_time : Q) :
  Salesforce.stage_parameters self current_stage current_date base_cycle
    win_rate_modifier cycle_modifier
  = inr (stage_conversion, avg_stage_time) ->
  (0.1 <= stage_conversion)%Q /\ (stage_conversion <= 0.95)%Q.
Proof.
  unfold Salesforce.stage_parameters.
  destruct (Salesforce.get_event_impact self current_stage current_date)
    as [ci vi].
  destruct (Salesforce.assoc current_stage
              (Salesforce.base_conversion_rates self)) as [base|];
    [|discriminate].
  destruct (Z.of_nat (List.length (Salesforce.stages self)) - 2 =? 0);
    [discriminate|].
  intros Hrun. injection Hrun as <- _. split.
  - apply py_max_ge_l.
  - apply py_max_le; [apply Qle_bool_iff; reflexivity|apply py_min_le_l].
Qed.

(** X16.  Whatever the modifiers, the season and the events, the
    conversion probability computed for a stage lies within
    [[0.1, 0.95]]; a stage without a base conversion rate (the two closing
    stages in the tables of [__init__]) is a [KeyError]. *)
Theorem stage_parameters_clamped :
  forall (self : Salesforce.SalesforceDataGenerator)
         (current_stage : Salesforce.stage) (current_date : datetime)
         (base_cycle : Z) (win_rate_modifier cycle_modifier : Q),
    let run :=
      Salesforce.stage_parameters self current_stage current_date base_cycle
        win_rate_modifier cycle_modifier in
    (forall stage_conversion avg_stage_time,
        run = inr (stage_conversion, avg_stage_time) ->
        (0.1 <= stage_conversion)%Q /\ (stage_conversion <= 0.95)%Q) /\
    (Salesforce.assoc current_stage (Salesforce.base_conversion_rates self)
     = None ->
     run = inl KeyError).
Proof.
  intros self current_stage current_date base_cycle win_rate_modifier
         cycle_modifier run. subst run. split.
  - intros conv avg Hrun. exact (stage_conversion_range _ _ _ _ _ _ _ _ Hrun).
  - intros Hnone. unfold Salesforce.stage_parameters.
    destruct (Salesforce.get_event_impact self current_stage current_date)
      as [ci vi].
    rewrite Hnone. reflexivity.
Qed.

Lemma stage_parameters_clamped_witness :
  Salesforce.stage_parameters Salesforce.init Salesforce.Closed_Won mar_2024
    180 1.56%Q 0.77%Q
  = inl KeyError.
Proof.
  exact (proj2 (stage_parameters_clamped Salesforce.init Salesforce.Closed_Won
                  mar_2024 180 1.56%Q 0.77%Q) eq_refl).
Defined.

(** ** Salesforce generator: stage progression *)

Lemma pipeline_bind_inv {A B : Type} (m : SalesforcePipeline.R A)
    (k : A -> SalesforcePipeline.R B) (st st' : rng_state) (b : B) :
  SalesforcePipeline.bind m k st = inr (b, st') ->
  exists a st1, m st = inr (a, st1) /\ k a st1 = inr (b, st').
Proof.
  unfold SalesforcePipeline.bind.
  destruct (m st) as [e|[a st1]]; [discriminate|].
  intros H. exists a, st1. split; [reflexivity|exact H].
Qed.

Lemma pipeline_ret_inv {A : Type} (a a' : A) (st st' : rng_state) :
  SalesforcePipeline.ret a st = inr (a', st') -> a' = a.
Proof.
  unfold SalesforcePipeline.ret. intros H. injection H as -> _. reflexivity.
Qed.

Lemma pipeline_lift_inv {A : Type} (m : M A) (st st' : rng_state) (a : A) :
  SalesforcePipeline.lift m st = inr (a, st') -> m st = inr (a, st').
Proof.
  unfold SalesforcePipeline.lift.
  destruct (m st) as [e|x]; [discriminate|].
  intros H. injection H as ->. reflexivity.
Qed.

Lemma pipeline_lift_result_inv {A : Type} (x : exn + A)
    (st st' : rng_state) (a : A) :
  SalesforcePipeline.lift_result x st = inr (a, st') -> x = inr a.
Proof.
  destruct x as [e|a0]; cbn; [discriminate|].
  intros H. apply pipeline_ret_inv in H. subst a. reflexivity.
Qed.

Lemma add_days_inv (date : datetime) (n : Z) (st st' : rng_state)
    (d : datetime) :
  SalesforcePipeline.add_days date n st = inr (d, st') ->
  d = fromordinal (toordinal date + n).
Proof.
  unfold SalesforcePipeline.add_days.
  destruct ((0 <? toordinal date + n) && (toordinal date + n <=? max_ordinal));
    [|discriminate].
  apply pipeline_ret_inv.
Qed.

Lemma skipn_nth_error {A : Type} (l : list A) :
  forall (i : nat) (a : A),
    nth_error l i = Some a -> skipn i l = a :: skipn (S i) l.
Proof.
  induction l as [|b l IH]; intros i a H.
  - destruct i; discriminate.
  - destruct i as [|i].
    + cbn in H. injection H as ->. reflexivity.
    + cbn in H. cbn [skipn]. apply (IH i a H).
Qed.

(** What the loop adds to the progression from any point on. *)
Lemma stage_loop_shape (self : Salesforce.SalesforceDataGenerator)
    (base_cycle : Z) (win_rate_modifier cycle_modifier : Q)
    (remaining : nat) :
  forall (idx : nat) (current_date : datetime)
         (acc : list SalesforcePipeline.progression_entry)
         (st st' : rng_state)
         (progression : list SalesforcePipeline.progression_entry),
    SalesforcePipeline.stage_loop self base_cycle win_rate_modifier
      cycle_modifier remaining idx current_date acc st
    = inr (progression, st') ->
    exists body closing,
      progression = acc ++ body ++ [closing] /\
      map SalesforcePipeline.entry_stage body
      = firstn (List.length body) (skipn idx (Salesforce.stages self)) /\
      Forall stage_entry_ok body /\
      dates_chained current_date (body ++ [closing]) /\
      ((closes_won closing /\ List.length body = remaining) \/
       (closes_lost closing /\
        (1 <= List.length body <= remaining)%nat)).
Proof.
  induction remaining as [|remaining IH];
    intros idx current_date acc st st' progression Hrun.
  - cbn [SalesforcePipeline.stage_loop] in Hrun.
    apply pipeline_ret_inv in Hrun. subst progression.
    exists [], {| SalesforcePipeline.entry_stage := Salesforce.Closed_Won;
                  SalesforcePipeline.entry_date := current_date;
                  SalesforcePipeline.days_in_stage := 0;
                  SalesforcePipeline.conversion_probability := None;
                  SalesforcePipeline.outcome := Some "Closed Won"%string |}.
    cbn. repeat split; auto. left. repeat split.
  - cbn [SalesforcePipeline.stage_loop] in Hrun.
    apply pipeline_bind_inv in Hrun as (current_stage & s1 & Hget & Hrun).
    apply pipeline_lift_inv in Hget. unfold list_get in Hget.
    destruct (nth_error (Salesforce.stages self) idx) as [s0|] eqn:Enth;
      [|discriminate].
    apply ret_inr_inv in Hget. subst current_stage.
    apply pipeline_bind_inv in Hrun as ([conv avg] & s2 & Hpar & Hrun).
    apply pipeline_lift_result_inv in Hpar.
    destruct (stage_conversion_range _ _ _ _ _ _ _ _ Hpar) as [Hlo Hhi].
    apply pipeline_bind_inv in Hrun as (x & s3 & _ & Hrun).
    apply pipeline_bind_inv in Hrun as (u & s4 & _ & Hrun).
    set (entry := {| SalesforcePipeline.entry_stage := s0;
                     SalesforcePipeline.entry_date := current_date;
                     SalesforcePipeline.days_in_stage := Z.max 1 (py_int x);
                     SalesforcePipeline.conversion_probability := Some conv;
                     SalesforcePipeline.outcome := None |}) in *.
    assert (Hentry : stage_entry_ok entry).
    { unfold stage_entry_ok. cbn. split; [lia|]. split; [reflexivity|].
      exists conv. repeat split; assumption. }
    destruct (Qle_bool u conv).
    + apply pipeline_bind_inv in Hrun as (d & s5 & Hadd & Hrun).
      apply add_days_inv in Hadd. subst d.
      replace (idx + 1)%nat with (S idx) in Hrun by lia.
      apply IH in Hrun as (body & closing & -> & Hstages & Hok & Hdates
                           & Hclose).
      exists (entry :: body), closing.
      split; [rewrite <- app_assoc; reflexivity|].
      split.
      { cbn [List.length map firstn]. rewrite (skipn_nth_error _ _ _ Enth).
        cbn [firstn]. rewrite Hstages. reflexivity. }
      split; [constructor; assumption|].
      split; [cbn [app dates_chained]; split; [reflexivity|exact Hdates]|].
      cbn [List.length].
      destruct Hclose as [[Hw Hlen]|[Hl Hlen]]; [left|right];
        (split; [assumption|lia]).
    + apply pipeline_bind_inv in Hrun as (d & s5 & Hadd & Hrun).
      apply add_days_inv in Hadd. subst d.
      apply pipeline_ret_inv in Hrun. subst progression.
      eexists [entry], _.
      split; [rewrite <- app_assoc; reflexivity|].
      split.
      { cbn [List.length map firstn]. rewrite (skipn_nth_error _ _ _ Enth).
        reflexivity. }
      split; [constructor; [assumption|constructor]|].
      split; [cbn; repeat split|].
      right. split; [repeat split|cbn; lia].
Qed.

(** X17.  Every progression [calculate_stage_progression] returns consists
    of stage entries followed by exactly one closing entry.  The stage
    entries run through [self.stages] in order from the first stage, each
    with at least one day in the stage and a conversion probability within
    [[0.1, 0.95]]; each entry is dated at the previous entry's date plus
    the previous entry's days, starting at the created date; the closing
    entry is Closed Won exactly after all [len(self.stages) - 2] stages,
    and Closed Lost after at least one stage otherwise. *)
Theorem calculate_stage_progression_shape :
  forall (self : Salesforce.SalesforceDataGenerator)
         (t : SalesforcePipeline.tables)
         (segment_name product rep_name : string) (created_date : datetime)
         (region_name : string) (st st' : rng_state)
         (progression : list SalesforcePipeline.progression_entry),
    SalesforcePipeline.calculate_stage_progression self t segment_name
      product rep_name created_date region_name st
    = inr (progression, st') ->
    exists body closing,
      progression = body ++ [closing] /\
      map SalesforcePipeline.entry_stage body
      = firstn (List.length body) (Salesforce.stages self) /\
      Forall stage_entry_ok body /\
      dates_chained created_date progression /\
      ((closes_won closing /\
        List.length body = (List.length (Salesforce.stages self) - 2)%nat) \/
       (closes_lost closing /\
        (1 <= List.length body
         <= List.length (Salesforce.stages self) - 2)%nat)).
Proof.
  intros self t segment_name product rep_name created_date region_name
         st st' progression Hrun.
  unfold SalesforcePipeline.calculate_stage_progression in Hrun.
  apply pipeline_bind_inv in Hrun as (sc & s1 & _ & Hrun).
  apply pipeline_bind_inv in Hrun as (pc & s2 & _ & Hrun).
  apply pipeline_bind_inv in Hrun as (rc & s3 & _ & Hrun).
  apply pipeline_bind_inv in Hrun as (rm & s4 & _ & Hrun).
  apply stage_loop_shape in Hrun
    as (body & closing & Hprog & Hstages & Hok & Hdates & Hclose).
  cbn [app skipn] in Hprog, Hstages.
  exists body, closing. subst progression.
  repeat split; assumption.
Qed.

Lemma calculate_stage_progression_shape_witness :
  match SalesforcePipeline.calculate_stage_progression Salesforce.init
          SalesforcePipeline.init_tables "Enterprise" "API Enterprise"
          "Sarah Chen" mar_2024 "North America" progression_state with
  | inr (progression, _) =>
      exists body closing,
        progression = body ++ [closing] /\
        map SalesforcePipeline.entry_stage body
        = firstn (List.length body) (Salesforce.stages Salesforce.init) /\
        Forall stage_entry_ok body /\
        dates_chained mar_2024 progression /\
        ((closes_won closing /\
          List.length body
          = (List.length (Salesforce.stages Salesforce.init) - 2)%nat) \/
         (closes_lost closing /\
          (1 <= List.length body
           <= List.length (Salesforce.stages Salesforce.init) - 2)%nat))
  | inl _ => False
  end.
Proof.
  destruct (SalesforcePipeline.calculate_stage_progression Salesforce.init
              SalesforcePipeline.init_tables "Enterprise" "API Enterprise"
              "Sarah Chen" mar_2024 "North America" progression_state)
    as [e|[progression st']] eqn:Hrun.
  - vm_compute in Hrun. discriminate Hrun.
  - exact (calculate_stage_progression_shape _ _ _ _ _ _ _ _ _ _ Hrun).
Defined.


(** ** Salesforce generator: opportunity state and rep selection *)



(** ** Rep selection *)

Lemma random_choice_In {A : Type} (l : list A) (st st' : rng_state) (a : A) :
  random_choice l st = inr (a, st') -> In a l.
Proof.
  destruct l as [|a0 l]; [discriminate|].
  unfold random_choice, bind, py_next, ret. intros H. injection H as <- _.
  destruct (Z.to_nat _) as [|m]; [left; reflexivity|].
  destruct (nth_in_or_default m l a0) as [Hin|Heq].
  - right. exact Hin.
  - rewrite Heq. left. reflexivity.
Qed.

Lemma lookup_In {V : Type} (k : string) (d : list (string * V)) :
  In k (map fst d) -> exists v, SalesforcePipeline.lookup k d = Some v.
Proof.
  induction d as [|[k' v] d IH]; [intros []|].
  cbn [map fst In SalesforcePipeline.lookup]. intros Hin.
  destruct (String.eqb k' k) eqn:E; [exists v; reflexivity|].
  destruct Hin as [->|Hin]; [rewrite String.eqb_refl in E; discriminate|].
  exact (IH Hin).
Qed.

Lemma get_reps_for_region_In (t : SalesforcePipeline.tables)
    (region_name name : string) :
  In name (SalesforcePipeline.get_reps_for_region t region_name) <->
  exists info, In (name, info) (SalesforcePipeline.reps t) /\
               SalesforcePipeline.region info = region_name.
Proof.
  unfold SalesforcePipeline.get_reps_for_region. rewrite in_map_iff. split.
  - intros ([name' info] & Hfst & Hin). cbn in Hfst. subst name'.
    apply filter_In in Hin as [Hin Hreg]. apply String.eqb_eq in Hreg.
    exists info. split; assumption.
  - intros (info & Hin & Hreg). exists (name, info). split; [reflexivity|].
    apply filter_In. split; [exact Hin|]. apply String.eqb_eq. exact Hreg.
Qed.

(** On names that are keys of [self.reps] the comprehension is a plain
    filter and raises nothing. *)
Lemma filter_specialty_run (t : SalesforcePipeline.tables)
    (options names : list string) (st : rng_state) :
  (forall name, In name names ->
                In name (map fst (SalesforcePipeline.reps t))) ->
  SalesforcePipeline.filter_specialty t options names st
  = inr (filter (has_specialty t options) names, st).
Proof.
  induction names as [|name names IH]; intros Hkeys; [reflexivity|].
  cbn [SalesforcePipeline.filter_specialty filter].
  destruct (lookup_In name (SalesforcePipeline.reps t)
              (Hkeys name (or_introl eq_refl))) as (info & Hinfo).
  unfold SalesforcePipeline.bind at 1, SalesforcePipeline.getitem.
  unfold has_specialty at 1. rewrite Hinfo.
  cbn [SalesforcePipeline.ret].
  unfold SalesforcePipeline.bind.
  rewrite IH by (intros n Hn; apply Hkeys; right; exact Hn).
  reflexivity.
Qed.

Lemma get_reps_for_region_keys (t : SalesforcePipeline.tables)
    (region_name name : string) :
  In name (SalesforcePipeline.get_reps_for_region t region_name) ->
  In name (map fst (SalesforcePipeline.reps t)).
Proof.
  intros Hin. apply get_reps_for_region_In in Hin as (info & Hin & _).
  apply in_map_iff. exists (name, info). split; [reflexivity|exact Hin].
Qed.

(** The list [random.choice] draws from. *)
Lemma select_rep_for_account_run (t : SalesforcePipeline.tables)
    (region_name segment_name : string) (st : rng_state) :
  SalesforcePipeline.select_rep_for_account t region_name segment_name st
  = SalesforcePipeline.lift
      (random_choice (preferred_reps t region_name segment_name)) st.
Proof.
  unfold SalesforcePipeline.select_rep_for_account, preferred_reps,
    specialized_or_all.
  unfold SalesforcePipeline.bind at 1.
  destruct (String.eqb segment_name "Enterprise").
  - unfold SalesforcePipeline.bind.
    rewrite filter_specialty_run by apply get_reps_for_region_keys.
    reflexivity.
  - destruct (String.eqb segment_name "SMB").
    + unfold SalesforcePipeline.bind.
      rewrite filter_specialty_run by apply get_reps_for_region_keys.
      reflexivity.
    + reflexivity.
Qed.

Lemma specialized_or_all_incl (t : SalesforcePipeline.tables)
    (options available : list string) (name : string) :
  In name (specialized_or_all t options available) -> In name available.
Proof.
  unfold specialized_or_all.
  destruct (filter (has_specialty t options) available) as [|a l] eqn:E;
    [trivial|].
  rewrite <- E. intros Hin. apply filter_In in Hin. exact (proj1 Hin).
Qed.

Lemma specialized_or_all_nil (t : SalesforcePipeline.tables)
    (options available : list string) :
  specialized_or_all t options available = [] -> available = [].
Proof.
  unfold specialized_or_all.
  destruct (filter (has_specialty t options) available); [trivial|].
  discriminate.
Qed.

Lemma specialized_or_all_specialty (t : SalesforcePipeline.tables)
    (options available : list string) (name other : string) :
  In other available -> has_specialty t options other = true ->
  In name (specialized_or_all t options available) ->
  has_specialty t options name = true.
Proof.
  intros Hother Hspec. unfold specialized_or_all.
  destruct (filter (has_specialty t options) available) as [|a l] eqn:E.
  - assert (Hin : In other (filter (has_specialty t options) available))
      by (apply filter_In; split; assumption).
    rewrite E in Hin. destruct Hin.
  - rewrite <- E. intros Hin. apply filter_In in Hin. exact (proj2 Hin).
Qed.

Lemma preferred_reps_incl (t : SalesforcePipeline.tables)
    (region_name segment_name name : string) :
  In name (preferred_reps t region_name segment_name) ->
  In name (SalesforcePipeline.get_reps_for_region t region_name).
Proof.
  unfold preferred_reps.
  destruct (String.eqb segment_name "Enterprise");
    [apply specialized_or_all_incl|].
  destruct (String.eqb segment_name "SMB");
    [apply specialized_or_all_incl|trivial].
Qed.

Lemma preferred_reps_nil (t : SalesforcePipeline.tables)
    (region_name segment_name : string) :
  preferred_reps t region_name segment_name = [] ->
  SalesforcePipeline.get_reps_for_region t region_name = [].
Proof.
  unfold preferred_reps.
  destruct (String.eqb segment_name "Enterprise");
    [apply specialized_or_all_nil|].
  destruct (String.eqb segment_name "SMB");
    [apply specialized_or_all_nil|trivial].
Qed.

(** X19.  [select_rep_for_account] returns a rep of the requested region:
    with no rep in the region it raises [IndexError] (from
    [random.choice]), and it never raises [KeyError]; otherwise it returns
    a rep whose stored region is the requested one, and for an Enterprise
    (SMB) account a rep of specialty enterprise or general (smb or
    general) whenever the region has such a rep. *)
Theorem select_rep_for_account_in_region :
  forall (t : SalesforcePipeline.tables) (region_name segment_name : string)
         (st : rng_state),
    let available := SalesforcePipeline.get_reps_for_region t region_name in
    (available = [] ->
     SalesforcePipeline.select_rep_for_account t region_name segment_name st
     = inl (SalesforcePipeline.Builtin IndexError)) /\
    (available <> [] ->
     exists name st',
       SalesforcePipeline.select_rep_for_account t region_name segment_name
         st = inr (name, st') /\
       (exists info, In (name, info) (SalesforcePipeline.reps t) /\
                     SalesforcePipeline.region info = region_name) /\
       (segment_name = "Enterprise"%string ->
        (exists other, In other available /\
           has_specialty t ["enterprise"; "general"]%string other = true) ->
        has_specialty t ["enterprise"; "general"]%string name = true) /\
       (segment_name = "SMB"%string ->
        (exists other, In other available /\
           has_specialty t ["smb"; "general"]%string other = true) ->
        has_specialty t ["smb"; "general"]%string name = true)).
Proof.
  intros t region_name segment_name st available. subst available. split.
  - intros Hnone. rewrite select_rep_for_account_run.
    assert (Hpref : preferred_reps t region_name segment_name = []).
    { unfold preferred_reps, specialized_or_all. rewrite Hnone. cbn.
      destruct (String.eqb segment_name "Enterprise"); [reflexivity|].
      destruct (String.eqb segment_name "SMB"); reflexivity. }
    rewrite Hpref. reflexivity.
  - intros Hsome. rewrite select_rep_for_account_run.
    assert (Hpref : preferred_reps t region_name segment_name <> [])
      by (intros Hnil; apply Hsome; exact (preferred_reps_nil _ _ _ Hnil)).
    destruct (random_choice_returns _ st Hpref) as (name & st' & Hrun).
    exists name, st'. unfold SalesforcePipeline.lift. rewrite Hrun.
    split; [reflexivity|].
    apply random_choice_In in Hrun.
    split; [|split].
    + apply get_reps_for_region_In.
      exact (preferred_reps_incl _ _ _ _ Hrun).
    + intros -> (other & Hother & Hspec).
      unfold preferred_reps in Hrun. cbn [String.eqb Ascii.eqb Bool.eqb] in Hrun.
      exact (specialized_or_all_specialty _ _ _ _ _ Hother Hspec Hrun).
    + intros -> (other & Hother & Hspec).
      unfold preferred_reps in Hrun. cbn [String.eqb Ascii.eqb Bool.eqb] in Hrun.
      exact (specialized_or_all_specialty _ _ _ _ _ Hother Hspec Hrun).
Qed.

Lemma select_rep_for_account_in_region_witness :
  SalesforcePipeline.get_reps_for_region SalesforcePipeline.init_tables
    "Europe" <> [] /\
  exists name st',
    SalesforcePipeline.select_rep_for_account SalesforcePipeline.init_tables
      "Europe" "SMB" progression_state = inr (name, st') /\
    (exists info,
        In (name, info)
           (SalesforcePipeline.reps SalesforcePipeline.init_tables) /\
        SalesforcePipeline.region info = "Europe"%string) /\
    has_specialty SalesforcePipeline.init_tables
      ["smb"; "general"]%string name = true.
Proof.
  assert (Hsome : SalesforcePipeline.get_reps_for_region
                    SalesforcePipeline.init_tables "Europe" <> [])
    by (vm_compute; discriminate).
  split; [exact Hsome|].
  destruct (proj2 (select_rep_for_account_in_region
                     SalesforcePipeline.init_tables "Europe" "SMB"
                     progression_state) Hsome)
    as (name & st' & Hrun & Hregion & _ & Hsmb).
  exists name, st'. split; [exact Hrun|]. split; [exact Hregion|].
  apply Hsmb; [reflexivity|].
  exists "Erik Larsson"%string. split; vm_compute; [|reflexivity].
  right. right. right. left. reflexivity.
Defined.

(** ** Errors of the progression *)

Lemma pipeline_bind_run {A B : Type} (m : SalesforcePipeline.R A)
    (k : A -> SalesforcePipeline.R B) (st st1 : rng_state) (a : A) :
  m st = inr (a, st1) -> SalesforcePipeline.bind m k st = k a st1.
Proof. intros H. unfold SalesforcePipeline.bind. rewrite H. reflexivity. Qed.

Lemma lookup_Some_In {V : Type} (k : string) (d : list (string * V)) (v : V) :
  SalesforcePipeline.lookup k d = Some v -> In (k, v) d.
Proof.
  induction d as [|[k' v'] d IH]; [discriminate|].
  cbn [SalesforcePipeline.lookup]. destruct (String.eqb k' k) eqn:E.
  - apply String.eqb_eq in E. intros H. injection H as ->. subst k'.
    left. reflexivity.
  - intros H. right. exact (IH H).
Qed.

Lemma pipeline_getitem_run {V : Type} (d : list (string * V)) (k : string)
    (v : V) (st : rng_state) :
  SalesforcePipeline.lookup k d = Some v ->
  SalesforcePipeline.getitem d k st = inr (v, st).
Proof.
  intros H. unfold SalesforcePipeline.getitem. rewrite H. reflexivity.
Qed.

Lemma event_loop_velocity_nonneg
    (items : list (string * Salesforce.event_config))
    (stage_name : Salesforce.stage) (date : datetime) :
  forall c v : Q,
    Forall (fun item => (0 <= Salesforce.velocity_impact (snd item))%Q)
           items ->
    (0 <= v)%Q ->
    (0 <= snd (Salesforce.event_loop items stage_name date c v))%Q.
Proof.
  induction items as [|[name ec] items IH]; intros c v Hall Hv;
    [exact Hv|].
  inversion Hall as [|x l Hec Hrest]; subst. cbn [snd] in Hec.
  cbn [Salesforce.event_loop].
  destruct (Salesforce.event_applies ec stage_name date).
  - apply IH; [exact Hrest|]. apply Qmult_le_0_compat; assumption.
  - apply IH; assumption.
Qed.

Lemma add_days_cases (date : datetime) (n : Z) (st : rng_state) :
  SalesforcePipeline.add_days date n st
  = inr (fromordinal (toordinal date + n), st) \/
  SalesforcePipeline.add_days date n st
  = inl SalesforcePipeline.OverflowError.
Proof.
  unfold SalesforcePipeline.add_days.
  destruct ((0 <? toordinal date + n) && (toordinal date + n <=? max_ordinal));
    [left|right]; reflexivity.
Qed.

(** With a rate for every stage the loop visits and a non-negative average
    stage time, the loop returns or stops on a date out of range. *)
Lemma stage_loop_errors (self : Salesforce.SalesforceDataGenerator)
    (base_cycle : Z) (win_rate_modifier cycle_modifier : Q) :
  (forall s,
      In s (firstn (List.length (Salesforce.stages self) - 2)
                   (Salesforce.stages self)) ->
      Salesforce.assoc s (Salesforce.base_conversion_rates self) <> None) ->
  Forall (fun item => (0 <= Salesforce.velocity_impact (snd item))%Q)
         (Salesforce.events self) ->
  0 <= base_cycle -> (0 <= cycle_modifier)%Q ->
  forall (remaining idx : nat) (current_date : datetime)
         (acc : list SalesforcePipeline.progression_entry) (st : rng_state),
    (idx + remaining = List.length (Salesforce.stages self) - 2)%nat ->
    (exists progression st',
        SalesforcePipeline.stage_loop self base_cycle win_rate_modifier
          cycle_modifier remaining idx current_date acc st
        = inr (progression, st')) \/
    SalesforcePipeline.stage_loop self base_cycle win_rate_modifier
      cycle_modifier remaining idx current_date acc st
    = inl SalesforcePipeline.OverflowError.
Proof.
  intros Hrates Hvel Hbase Hcm.
  induction remaining as [|remaining IH]; intros idx current_date acc st Hidx.
  - left. eexists. eexists. reflexivity.
  - cbn [SalesforcePipeline.stage_loop].
    destruct (nth_error (Salesforce.stages self) idx) as [s|] eqn:Hs;
      [|apply nth_error_None in Hs; lia].
    assert (Hin : In s (firstn (List.length (Salesforce.stages self) - 2)
                               (Salesforce.stages self))).
    { apply (nth_error_In _ idx). rewrite nth_error_firstn.
      destruct (Nat.ltb_spec idx (List.length (Salesforce.stages self) - 2));
        [exact Hs|lia]. }
    rewrite (pipeline_bind_run _ _ st st s)
      by (unfold SalesforcePipeline.lift, list_get; rewrite Hs; reflexivity).
    unfold Salesforce.stage_parameters.
    destruct (Salesforce.get_event_impact self s current_date)
      as [ci vi] eqn:Himpact.
    assert (Hvi : (0 <= vi)%Q).
    { change vi with (snd (ci, vi)). rewrite <- Himpact.
      apply event_loop_velocity_nonneg; [exact Hvel|].
      apply Qle_bool_iff. reflexivity. }
    destruct (Salesforce.assoc s (Salesforce.base_conversion_rates self))
      as [base|] eqn:Hbase_rate; [|exfalso; exact (Hrates s Hin Hbase_rate)].
    destruct (Z.of_nat (List.length (Salesforce.stages self)) - 2 =? 0)
      eqn:Hn; [apply Z.eqb_eq in Hn; lia|].
    apply Z.eqb_neq in Hn.
    set (n := Z.of_nat (List.length (Salesforce.stages self)) - 2) in *.
    set (conv := py_max _ _).
    set (avg := (inject_Z base_cycle / inject_Z n * cycle_modifier * vi)%Q).
    assert (Havg : (0 <= avg)%Q).
    { unfold avg. apply Qmult_le_0_compat; [|exact Hvi].
      apply Qmult_le_0_compat; [|exact Hcm].
      unfold Qdiv. apply Qmult_le_0_compat.
      - change 0%Q with (inject_Z 0). rewrite <- Zle_Qle. exact Hbase.
      - apply Qinv_le_0_compat. change 0%Q with (inject_Z 0).
        rewrite <- Zle_Qle. lia. }
    rewrite (pipeline_bind_run _ _ st st (conv, avg)) by reflexivity.
    cbn beta iota.
    rewrite (pipeline_bind_run _ _ st (np_advance 1 st)
               (avg * np_tape st (np_pos st))%Q).
    2:{ unfold SalesforcePipeline.lift, np_random_exponential.
        rewrite (proj2 (Qltb_false avg 0) Havg). reflexivity. }
    rewrite (pipeline_bind_run _ _ (np_advance 1 st)
               (py_advance 1 (np_advance 1 st)) (draw (np_advance 1 st) 0))
      by (unfold SalesforcePipeline.lift; rewrite random_random_run;
          reflexivity).
    set (st2 := py_advance 1 (np_advance 1 st)).
    set (stage_days := Z.max 1 _).
    destruct (Qle_bool _ conv).
    + destruct (add_days_cases current_date stage_days st2) as [Hd|Hd].
      * rewrite (pipeline_bind_run _ _ _ _ _ Hd). apply IH. lia.
      * right. unfold SalesforcePipeline.bind. rewrite Hd. reflexivity.
    + destruct (add_days_cases current_date stage_days st2) as [Hd|Hd].
      * rewrite (pipeline_bind_run _ _ _ _ _ Hd). left.
        eexists. eexists. reflexivity.
      * right. unfold SalesforcePipeline.bind. rewrite Hd. reflexivity.
Qed.

Lemma regional_cycle_nonneg (region_name : string) (regional_mod : Q * Q) :
  SalesforcePipeline.lookup region_name SalesforcePipeline.regional_modifiers
  = Some regional_mod ->
  (0 <= fst regional_mod)%Q.
Proof.
  intros H. apply lookup_Some_In in H.
  cbn in H.
  destruct H as [H|[H|[H|[H|[]]]]]; injection H as _ <-;
    apply Qle_bool_iff; reflexivity.
Qed.

Lemma init_pipeline_configured :
  pipeline_configured Salesforce.init SalesforcePipeline.init_tables.
Proof.
  unfold pipeline_configured. split; [|split; [|split; [|split]]].
  - cbn. intros s [<-|[<-|[<-|[<-|[<-|[]]]]]]; discriminate.
  - repeat constructor; apply Qle_bool_iff; reflexivity.
  - repeat constructor; cbn; lia.
  - repeat constructor; apply Qle_bool_iff; reflexivity.
  - repeat constructor; apply Qle_bool_iff; reflexivity.
Qed.

(** X20.  A segment, product, rep or region that is not a key of its table
    makes [calculate_stage_progression] raise [KeyError] before any draw.
    With all four keys present, on tables that give every pipeline stage a
    base conversion rate and have non-negative cycle lengths, cycle
    modifiers and velocity impacts and no skill multiplier above 2 (those
    of [__init__] do), the call raises no [KeyError], [IndexError],
    [ZeroDivisionError] or [ValueError], whatever the created date and the
    draws: it returns a progression, or a date passes [datetime.max] and
    the date addition raises [OverflowError]. *)
Theorem calculate_stage_progression_errors :
  forall (self : Salesforce.SalesforceDataGenerator)
         (t : SalesforcePipeline.tables)
         (segment_name product rep_name : string) (created_date : datetime)
         (region_name : string) (st : rng_state),
    let run :=
      SalesforcePipeline.calculate_stage_progression self t segment_name
        product rep_name created_date region_name st in
    (SalesforcePipeline.lookup segment_name (SalesforcePipeline.segments t)
     = None \/
     SalesforcePipeline.lookup product (SalesforcePipeline.products t)
     = None \/
     SalesforcePipeline.lookup rep_name (SalesforcePipeline.reps t) = None \/
     SalesforcePipeline.lookup region_name
       SalesforcePipeline.regional_modifiers = None ->
     run = inl (SalesforcePipeline.Builtin KeyError)) /\
    (pipeline_configured self t ->
     SalesforcePipeline.lookup segment_name (SalesforcePipeline.segments t)
     <> None ->
     SalesforcePipeline.lookup product (SalesforcePipeline.products t)
     <> None ->
     SalesforcePipeline.lookup rep_name (SalesforcePipeline.reps t)
     <> None ->
     SalesforcePipeline.lookup region_name
       SalesforcePipeline.regional_modifiers <> None ->
     (exists progression st', run = inr (progression, st')) \/
     run = inl SalesforcePipeline.OverflowError).
Proof.
  intros self t segment_name product rep_name created_date region_name st
         run. subst run.
  unfold SalesforcePipeline.calculate_stage_progression.
  destruct (SalesforcePipeline.lookup segment_name
              (SalesforcePipeline.segments t)) as [sc|] eqn:E1.
  2:{ split; [intros _|congruence].
      unfold SalesforcePipeline.bind, SalesforcePipeline.getitem.
      rewrite E1. reflexivity. }
  rewrite (pipeline_bind_run _ _ _ _ _ (pipeline_getitem_run _ _ _ st E1)).
  destruct (SalesforcePipeline.lookup product
              (SalesforcePipeline.products t)) as [pc|] eqn:E2.
  2:{ split; [intros _|congruence].
      unfold SalesforcePipeline.bind, SalesforcePipeline.getitem.
      rewrite E2. reflexivity. }
  rewrite (pipeline_bind_run _ _ _ _ _ (pipeline_getitem_run _ _ _ st E2)).
  destruct (SalesforcePipeline.lookup rep_name
              (SalesforcePipeline.reps t)) as [rc|] eqn:E3.
  2:{ split; [intros _|congruence].
      unfold SalesforcePipeline.bind, SalesforcePipeline.getitem.
      rewrite E3. reflexivity. }
  rewrite (pipeline_bind_run _ _ _ _ _ (pipeline_getitem_run _ _ _ st E3)).
  destruct (SalesforcePipeline.lookup region_name
              SalesforcePipeline.regional_modifiers) as [rm|] eqn:E4.
  2:{ split; [intros _|congruence].
      unfold SalesforcePipeline.bind, SalesforcePipeline.getitem.
      rewrite E4. reflexivity. }
  rewrite (pipeline_bind_run _ _ _ _ _ (pipeline_getitem_run _ _ _ st E4)).
  split.
  - intros [H|[H|[H|H]]]; discriminate H.
  - intros (Hrates & Hvel & Hseg & Hprod & Hrep) _ _ _ _.
    apply lookup_Some_In in E1, E2, E3.
    rewrite Forall_forall in Hseg, Hprod, Hrep.
    specialize (Hseg _ E1). specialize (Hprod _ E2).
    specialize (Hrep _ E3). cbn [snd] in Hseg, Hprod, Hrep.
    pose proof (regional_cycle_nonneg _ _ E4) as Hreg.
    apply stage_loop_errors; [exact Hrates|exact Hvel|exact Hseg| |reflexivity].
    apply Qmult_le_0_compat; [|exact Hreg].
    apply Qmult_le_0_compat; [exact Hprod|].
    generalize dependent (SalesforcePipeline.skill_multiplier rc).
    intros q Hq. lra.
Qed.

Lemma calculate_stage_progression_errors_witness :
  SalesforcePipeline.calculate_stage_progression Salesforce.init
    SalesforcePipeline.init_tables "Enterprise" "API Enterprise"
    "Sarah Chen" mar_2024 "Antarctica" progression_state
  = inl (SalesforcePipeline.Builtin KeyError) /\
  ((exists progression st',
       SalesforcePipeline.calculate_stage_progression Salesforce.init
         SalesforcePipeline.init_tables "Enterprise" "API Enterprise"
         "Sarah Chen" mar_2024 "North America" progression_state
       = inr (progression, st')) \/
   SalesforcePipeline.calculate_stage_progression Salesforce.init
     SalesforcePipeline.init_tables "Enterprise" "API Enterprise"
     "Sarah Chen" mar_2024 "North America" progression_state
   = inl SalesforcePipeline.OverflowError).
Proof.
  split.
  - apply (proj1 (calculate_stage_progression_errors Salesforce.init
                    SalesforcePipeline.init_tables "Enterprise"
                    "API Enterprise" "Sarah Chen" mar_2024 "Antarctica"
                    progression_state)).
    right. right. right. reflexivity.
  - apply (proj2 (calculate_stage_progression_errors Salesforce.init
                    SalesforcePipeline.init_tables "Enterprise"
                    "API Enterprise" "Sarah Chen" mar_2024 "North America"
                    progression_state)).
    + exact init_pipeline_configured.
    + vm_compute. discriminate.
    + vm_compute. discriminate.
    + vm_compute. discriminate.
    + vm_compute. discriminate.
Defined.
